(** * The reconcile-with-finalizer state machine of the two controllers

    A shallow embedding of [MyResourceReconciler] (the controller template,
    src/unnamed/part_005) and of [GuestbookReconciler]
    (src/internal/controller/guestbook_controller.go), followed by the
    reconciler of the reference guide (src/unnamed/part_003), the admission
    webhook of the example API and the scaffolding script
    (src/unnamed/part_002).

    The Go packages the controllers import are kept as modules of the same
    name ([metav1], [meta], [controllerutil], [apierrors], [client], [ctrl],
    [myv1], [webappv1]); the two controller packages are [controllers]
    (MyResource) and [controller] (Guestbook).  A reconcile invocation is a
    function from the state of the world (the objects persisted in the
    resource store, the write calls issued so far, the events recorded so
    far) and the answers of the surroundings during that invocation (which
    store call fails and how, what the clock reads, what the two TODO hooks
    of the template answer) to the Go result pair and the next world. *)

From Stdlib Require Import ZArith String List Bool Lia.
From stdpp Require Import base option list gmap strings.

Local Open Scope string_scope.
Local Open Scope list_scope.
Local Open Scope Z_scope.

(** ** package time *)

Module time.

(** [time.Duration] is a count of nanoseconds. *)
Definition Duration := Z.

Definition Nanosecond : Duration := 1.
Definition Microsecond : Duration := 1000 * Nanosecond.
Definition Millisecond : Duration := 1000 * Microsecond.
Definition Second : Duration := 1000 * Millisecond.
Definition Minute : Duration := 60 * Second.

End time.

(** ** package metav1: conditions and object metadata *)

Module metav1.

(** An instant, counted from Go's zero time, so that [IsZero] is a test
    against 0. *)
Definition Time := Z.

(** [IsZero] on a pointer to a Time: a nil pointer and the zero instant are
    both zero. *)
Definition IsZero (t : option Time) : bool :=
  match t with
  | None => true
  | Some i => i =? 0
  end.

Inductive ConditionStatus := ConditionTrue | ConditionFalse | ConditionUnknown.

Definition ConditionStatus_eqb (a b : ConditionStatus) : bool :=
  match a, b with
  | ConditionTrue, ConditionTrue
  | ConditionFalse, ConditionFalse
  | ConditionUnknown, ConditionUnknown => true
  | _, _ => false
  end.

Record Condition := mkCondition {
  Type_ : string;
  Status : ConditionStatus;
  ObservedGeneration : Z;
  LastTransitionTime : Time;
  Reason : string;
  Message : string
}.

Record ObjectMeta := mkObjectMeta {
  Name : string;
  Namespace : string;
  Generation : Z;
  DeletionTimestamp : option Time;
  Labels : gmap string string;
  Finalizers : list string
}.

Definition SetFinalizers (m : ObjectMeta) (f : list string) : ObjectMeta :=
  {| Name := Name m; Namespace := Namespace m; Generation := Generation m;
     DeletionTimestamp := DeletionTimestamp m; Labels := Labels m;
     Finalizers := f |}.

End metav1.

(** ** package meta: the condition helpers

    The condition list is a Go slice; [FindStatusCondition] returns a pointer
    into it, which is an index here. *)

Module meta.

(** Modelled from the spec: [meta.FindStatusCondition] belongs to
    k8s.io/apimachinery and is not under src/; "a resource's condition list
    is keyed by type": the first entry of the given type, if any. *)
Fixpoint FindStatusCondition (conditions : list metav1.Condition)
    (conditionType : string) : option nat :=
  match conditions with
  | [] => None
  | c :: rest =>
      if String.eqb (metav1.Type_ c) conditionType then Some 0%nat
      else S <$> FindStatusCondition rest conditionType
  end.

(** What [SetStatusCondition] appends when the type is new: the condition
    as given, stamped with the clock when it carries no transition time. *)
Definition stamped (now : metav1.Time) (c : metav1.Condition) : metav1.Condition :=
  if metav1.LastTransitionTime c =? 0 then
    {| metav1.Type_ := metav1.Type_ c; metav1.Status := metav1.Status c;
       metav1.ObservedGeneration := metav1.ObservedGeneration c;
       metav1.LastTransitionTime := now;
       metav1.Reason := metav1.Reason c; metav1.Message := metav1.Message c |}
  else c.

(** What [SetStatusCondition] leaves in the slot of an existing entry: the
    type stays, status, reason, message and observed generation are taken
    from the new condition, and the transition time moves only when the
    status does. *)
Definition merged (now : metav1.Time) (existing newCondition : metav1.Condition)
    : metav1.Condition * bool :=
  let '(t, ch1) :=
    if negb (metav1.ConditionStatus_eqb (metav1.Status existing) (metav1.Status newCondition))
    then (if negb (metav1.LastTransitionTime newCondition =? 0)
          then metav1.LastTransitionTime newCondition else now, true)
    else (metav1.LastTransitionTime existing, false) in
  let ch2 := negb (String.eqb (metav1.Reason existing) (metav1.Reason newCondition)) in
  let ch3 := negb (String.eqb (metav1.Message existing) (metav1.Message newCondition)) in
  let ch4 := negb (metav1.ObservedGeneration existing =? metav1.ObservedGeneration newCondition) in
  ({| metav1.Type_ := metav1.Type_ existing;
      metav1.Status := metav1.Status newCondition;
      metav1.ObservedGeneration := metav1.ObservedGeneration newCondition;
      metav1.LastTransitionTime := t;
      metav1.Reason := metav1.Reason newCondition;
      metav1.Message := metav1.Message newCondition |},
   ch1 || ch2 || ch3 || ch4).

(** Modelled from the spec: [meta.SetStatusCondition] belongs to
    k8s.io/apimachinery and is not under src/; "at most one entry per type;
    setting a condition with an existing type replaces it in place,
    preserving order of first insertion".  A new type is appended at the
    end; an existing one is overwritten in its slot.  The boolean says
    whether anything changed. *)
Definition SetStatusCondition (now : metav1.Time)
    (conditions : list metav1.Condition) (newCondition : metav1.Condition)
    : list metav1.Condition * bool :=
  match FindStatusCondition conditions (metav1.Type_ newCondition) with
  | None => (conditions ++ [stamped now newCondition], true)
  | Some i =>
      match conditions !! i with
      | None => (conditions, false)
      | Some existing =>
          let '(e, changed) := merged now existing newCondition in
          (<[i := e]> conditions, changed)
      end
  end.

(** [meta.IsStatusConditionTrue], the test of the envtest pattern in
    src/unnamed/part_005 (line 300): the entry of the given type is there
    and its status is True. *)
Definition IsStatusConditionTrue (conditions : list metav1.Condition)
    (conditionType : string) : bool :=
  match FindStatusCondition conditions conditionType with
  | Some i =>
      match conditions !! i with
      | Some c => metav1.ConditionStatus_eqb (metav1.Status c) metav1.ConditionTrue
      | None => false
      end
  | None => false
  end.

(** A sequence of set-condition calls, each at its own clock reading. *)
Definition SetStatusConditions (conditions : list metav1.Condition)
    (ops : list (metav1.Time * metav1.Condition)) : list metav1.Condition :=
  fold_left (fun l op => fst (SetStatusCondition (fst op) l (snd op))) ops conditions.

(** The condition types of a list, in list order. *)
Definition types (conditions : list metav1.Condition) : list string :=
  map metav1.Type_ conditions.

End meta.

(** ** Go errors, and package apierrors *)

Module errors.

Inductive StatusReason :=
| StatusReasonNotFound
| StatusReasonConflict
| StatusReasonTimeout
| StatusReasonInternalError.

(** An [error] value: a status error of the resource store, an error
    wrapping another one ([fmt.Errorf] with the verb %w), or a plain
    message. *)
Inductive error :=
| StatusError (reason : StatusReason) (message : string)
| Errorf (context : string) (wrapped : error)
| New (message : string).

End errors.

Module apierrors.

(** Modelled from the spec: [apierrors.IsNotFound] belongs to
    k8s.io/apimachinery and is not under src/; "fetch fails with
    not-found".  The test looks through wrapping. *)
Fixpoint IsNotFound (err : errors.error) : bool :=
  match err with
  | errors.StatusError errors.StatusReasonNotFound _ => true
  | errors.StatusError _ _ => false
  | errors.Errorf _ wrapped => IsNotFound wrapped
  | errors.New _ => false
  end.

End apierrors.

(** ** package ctrl: requests and results *)

Abbreviation NamespacedName := (string * string)%type (only parsing).

Module ctrl.

(** A request names a resource by (namespace, name). *)
Record Request := mkRequest { NamespacedName_ : NamespacedName }.

Record Result := mkResult { Requeue : bool; RequeueAfter : time.Duration }.

(** The Go literal [ctrl.Result{}]. *)
Definition Result_zero : Result := {| Requeue := false; RequeueAfter := 0 |}.

End ctrl.

(** ** package record: events *)

Module record.

Record Event := mkEvent {
  InvolvedObject : NamespacedName;
  EventType : string;
  EventReason : string;
  EventMessage : string
}.

End record.

Module corev1.
Definition EventTypeNormal : string := "Normal".
Definition EventTypeWarning : string := "Warning".
End corev1.

(** ** package client: objects, the resource store and its two write paths *)

Module client.

(** A resource: identity and metadata, desired state, observed state. *)
Record Object (Spec Status : Type) := mkObject {
  ObjectMeta : metav1.ObjectMeta;
  Spec_ : Spec;
  Status_ : Status
}.
Arguments mkObject {Spec Status}.
Arguments ObjectMeta {Spec Status}.
Arguments Spec_ {Spec Status}.
Arguments Status_ {Spec Status}.

(** A write request the reconciler issued: through the main resource path
    or through the status path, with the object it sent. *)
Inductive Call (Spec Status : Type) :=
| CallUpdate (obj : Object Spec Status)
| CallStatusUpdate (obj : Object Spec Status).
Arguments CallUpdate {Spec Status}.
Arguments CallStatusUpdate {Spec Status}.

(** The world a reconciler acts on: the persisted objects, the write calls
    issued so far (newest last), the events recorded so far (newest
    last). *)
Record World (Spec Status : Type) := mkWorld {
  objects : gmap NamespacedName (Object Spec Status);
  calls : list (Call Spec Status);
  events : list record.Event
}.
Arguments mkWorld {Spec Status}.
Arguments objects {Spec Status}.
Arguments calls {Spec Status}.
Arguments events {Spec Status}.

(** What the surroundings answer during one invocation: the clock, and for
    each store call whether it fails (network, conflict, ...) and with
    which error. *)
Record Answers := mkAnswers {
  now : metav1.Time;
  getErr : option errors.error;
  updateErr : option errors.error;
  statusErr : option errors.error
}.

Section Store.
Context {Spec Status : Type}.

Definition ObjectKeyFromObject (obj : Object Spec Status) : NamespacedName :=
  (metav1.Namespace (ObjectMeta obj), metav1.Name (ObjectMeta obj)).

Definition GetGeneration (obj : Object Spec Status) : Z :=
  metav1.Generation (ObjectMeta obj).

Definition GetFinalizers (obj : Object Spec Status) : list string :=
  metav1.Finalizers (ObjectMeta obj).

Definition SetFinalizers (obj : Object Spec Status) (f : list string)
    : Object Spec Status :=
  {| ObjectMeta := metav1.SetFinalizers (ObjectMeta obj) f;
     Spec_ := Spec_ obj; Status_ := Status_ obj |}.

Definition SetStatus (obj : Object Spec Status) (s : Status)
    : Object Spec Status :=
  {| ObjectMeta := ObjectMeta obj; Spec_ := Spec_ obj; Status_ := s |}.

Definition logged (c : Call Spec Status) (w : World Spec Status)
    : World Spec Status :=
  {| objects := objects w; calls := calls w ++ [c]; events := events w |}.

Definition stored (key : NamespacedName) (obj : Object Spec Status)
    (w : World Spec Status) : World Spec Status :=
  {| objects := <[key := obj]> (objects w); calls := calls w;
     events := events w |}.

Definition notFound : errors.error :=
  errors.StatusError errors.StatusReasonNotFound "not found".

(** Modelled from the spec: the store behind [client.Client] is not under
    src/; "Get(key) -> Resource | NotFoundError", and "any other fetch
    failure" is an answer of the surroundings. *)
Definition Get (a : Answers) (key : NamespacedName) (w : World Spec Status)
    : errors.error + Object Spec Status :=
  match getErr a with
  | Some e => inl e
  | None =>
      match objects w !! key with
      | Some obj => inr obj
      | None => inl notFound
      end
  end.

(** The fetch for [key] succeeds and returns [obj], which the store holds
    under the object's own namespace and name. *)
Definition found (a : Answers) (key : NamespacedName) (w : World Spec Status)
    (obj : Object Spec Status) : Prop :=
  Get a key w = inr obj /\ ObjectKeyFromObject obj = key.

(** Every object of the store is held under its own namespace and name. *)
Definition keyed (w : World Spec Status) : Prop :=
  forall key obj, objects w !! key = Some obj -> ObjectKeyFromObject obj = key.

(** Modelled from the spec: the store behind [client.Client] is not under
    src/; "UpdateSpec(resource) -> Resource | ConflictError" and "status
    must never be mutated through the same write path as spec": the main
    path persists metadata and spec as sent and keeps the stored status.
    On success the caller's object becomes what was stored; on failure
    it is left as it was. *)
Definition Update (a : Answers) (obj : Object Spec Status)
    (w : World Spec Status)
    : option errors.error * Object Spec Status * World Spec Status :=
  let w := logged (CallUpdate obj) w in
  match updateErr a with
  | Some e => (Some e, obj, w)
  | None =>
      match objects w !! ObjectKeyFromObject obj with
      | None => (Some notFound, obj, w)
      | Some old =>
          let new := SetStatus obj (Status_ old) in
          (None, new, stored (ObjectKeyFromObject obj) new w)
      end
  end.

(** Modelled from the spec: the store behind [client.Client] is not under
    src/; "UpdateStatus(resource) -> Resource | ConflictError": the status
    path persists the status as sent and keeps the stored metadata and
    spec. *)
Definition StatusUpdate (a : Answers) (obj : Object Spec Status)
    (w : World Spec Status)
    : option errors.error * Object Spec Status * World Spec Status :=
  let w := logged (CallStatusUpdate obj) w in
  match statusErr a with
  | Some e => (Some e, obj, w)
  | None =>
      match objects w !! ObjectKeyFromObject obj with
      | None => (Some notFound, obj, w)
      | Some old =>
          let new := SetStatus old (Status_ obj) in
          (None, new, stored (ObjectKeyFromObject obj) new w)
      end
  end.

(** Modelled from the spec: the recorder behind [record.EventRecorder] is
    not under src/; it "accepts (resource, severity, reason, message)
    tuples", fire-and-forget: [r.Recorder.Event(obj, eventtype, reason,
    message)] appends one event. *)
Definition Event (obj : Object Spec Status) (eventtype reason message : string)
    (w : World Spec Status) : World Spec Status :=
  {| objects := objects w; calls := calls w;
     events := events w ++
       [ {| record.InvolvedObject := ObjectKeyFromObject obj;
            record.EventType := eventtype;
            record.EventReason := reason;
            record.EventMessage := message |} ] |}.

End Store.

(** Modelled from the spec: [client.IgnoreNotFound] belongs to
    controller-runtime and is not under src/; "if not found ... return
    success ...; any other fetch failure is surfaced": nil for a not-found
    error, the error itself otherwise. *)
Definition IgnoreNotFound (err : errors.error) : option errors.error :=
  if apierrors.IsNotFound err then None else Some err.

End client.

(** ** package controllerutil: the finalizer helpers *)

Module controllerutil.
Section Finalizers.
Context {Spec Status : Type}.

(** Modelled from the spec: [controllerutil.ContainsFinalizer] belongs to
    controller-runtime and is not under src/; "the finalizer marker is
    present": the tag occurs in the metadata's finalizer list. *)
Definition ContainsFinalizer (o : client.Object Spec Status)
    (finalizer : string) : bool :=
  existsb (String.eqb finalizer) (client.GetFinalizers o).

(** Modelled from the spec: [controllerutil.AddFinalizer] is not under
    src/; "attach it": the tag is appended unless it is already
    there. *)
Definition AddFinalizer (o : client.Object Spec Status)
    (finalizer : string) : client.Object Spec Status :=
  let f := client.GetFinalizers o in
  if existsb (String.eqb finalizer) f then o
  else client.SetFinalizers o (f ++ [finalizer]).

(** Modelled from the spec: [controllerutil.RemoveFinalizer] is not under
    src/; "removes the finalizer": every occurrence of the tag is
    dropped, the other finalizers keep their order. *)
Definition RemoveFinalizer (o : client.Object Spec Status)
    (finalizer : string) : client.Object Spec Status :=
  client.SetFinalizers o
    (List.filter (fun x => negb (String.eqb x finalizer)) (client.GetFinalizers o)).

End Finalizers.
End controllerutil.

(** ** package myv1: the MyResource kind *)

Module myv1.

(** The spec of the template's example API (src/unnamed/part_005, the
    "Example API with validation"). *)
Record MyResourceSpec := mkMyResourceSpec {
  SpecName : string;
  Replicas : Z;
  ServiceName : string
}.

(** The status with conditions (src/unnamed/part_003, "Status Subresource
    Best Practices"). *)
Record MyResourceStatus := mkMyResourceStatus {
  Conditions : list metav1.Condition;
  ObservedGeneration : Z;
  Phase : string
}.

Abbreviation MyResource := (client.Object MyResourceSpec MyResourceStatus).

End myv1.

(** ** package controllers: MyResourceReconciler (src/unnamed/part_005) *)

Module controllers.

Definition myFinalizerName : string := "myresource.example.com/finalizer".
Definition TypeReady : string := "Ready".
Definition TypeDegraded : string := "Degraded".

Abbreviation World := (client.World myv1.MyResourceSpec myv1.MyResourceStatus).

(** The two places the template leaves to its user.  [isReady] is the
    local [isReady := true // TODO: Replace with actual check] (line 91);
    [cleanupExternalResources] is the call the TODO of [reconcileDelete]
    stands for (lines 139-145; src/unnamed/part_003, lines 49-64, gives the
    same function with the call written out), which answers nil or an
    error.  Both depend on state outside the resource, so each invocation
    gets their answers from the surroundings. *)
Record Hooks := mkHooks {
  isReady : bool;
  cleanupExternalResources : option errors.error
}.

(** The template as it stands: ready, and nothing to clean up. *)
Definition scaffold : Hooks :=
  {| isReady := true; cleanupExternalResources := None |}.

Definition SetConditions (s : myv1.MyResourceStatus) (c : list metav1.Condition)
    : myv1.MyResourceStatus :=
  {| myv1.Conditions := c;
     myv1.ObservedGeneration := myv1.ObservedGeneration s;
     myv1.Phase := myv1.Phase s |}.

Definition SetObservedGeneration (s : myv1.MyResourceStatus) (g : Z)
    : myv1.MyResourceStatus :=
  {| myv1.Conditions := myv1.Conditions s;
     myv1.ObservedGeneration := g;
     myv1.Phase := myv1.Phase s |}.

(** [updateStatus] (lines 162-175). *)
Definition updateStatus (a : client.Answers) (resource : myv1.MyResource)
    (condition : metav1.Condition) (w : World)
    : option errors.error * myv1.MyResource * World :=
  let resource :=
    client.SetStatus resource
      (SetConditions (client.Status_ resource)
         (fst (meta.SetStatusCondition (client.now a)
                 (myv1.Conditions (client.Status_ resource)) condition))) in
  let resource :=
    client.SetStatus resource
      (SetObservedGeneration (client.Status_ resource)
         (client.GetGeneration resource)) in
  let '(err, resource, w) := client.StatusUpdate a resource w in
  match err with
  | Some e => (Some (errors.Errorf "failed to update status" e), resource, w)
  | None => (None, resource, w)
  end.

(** [reconcileNormal] (lines 81-130), with the value of the local [isReady]
    (line 91) read from [h]; at [scaffold], where it is true, this is the
    function as shipped, and the branch below the [if] is not taken. *)
Definition reconcileNormal (a : client.Answers) (h : Hooks)
    (resource : myv1.MyResource) (w : World)
    : ctrl.Result * option errors.error * World :=
  if isReady h then
    let condition :=
      {| metav1.Type_ := TypeReady;
         metav1.Status := metav1.ConditionTrue;
         metav1.ObservedGeneration := client.GetGeneration resource;
         metav1.LastTransitionTime := 0;
         metav1.Reason := "ReconciliationSucceeded";
         metav1.Message := "Resource reconciled successfully" |} in
    let '(err, resource, w) := updateStatus a resource condition w in
    match err with
    | Some e => (ctrl.Result_zero, Some e, w)
    | None =>
        let w := client.Event resource corev1.EventTypeNormal "Ready"
                   "Resource is ready" w in
        ({| ctrl.Requeue := false; ctrl.RequeueAfter := 5 * time.Minute |},
         None, w)
    end
  else
    let condition :=
      {| metav1.Type_ := TypeDegraded;
         metav1.Status := metav1.ConditionTrue;
         metav1.ObservedGeneration := client.GetGeneration resource;
         metav1.LastTransitionTime := 0;
         metav1.Reason := "NotReady";
         metav1.Message := "Resource is not ready" |} in
    let '(err, resource, w) := updateStatus a resource condition w in
    match err with
    | Some e => (ctrl.Result_zero, Some e, w)
    | None =>
        let w := client.Event resource corev1.EventTypeWarning "NotReady"
                   "Resource is not ready" w in
        ({| ctrl.Requeue := false; ctrl.RequeueAfter := 30 * time.Second |},
         None, w)
    end.

(** [reconcileDelete] (lines 133-159), with the cleanup step of lines
    139-145 answered by [h]; at [scaffold], where the step is the comment
    it is in the template and nothing returns before [RemoveFinalizer], this
    is the function as shipped. *)
Definition reconcileDelete (a : client.Answers) (h : Hooks)
    (resource : myv1.MyResource) (w : World)
    : ctrl.Result * option errors.error * World :=
  if controllerutil.ContainsFinalizer resource myFinalizerName then
    match cleanupExternalResources h with
    | Some e => (ctrl.Result_zero, Some e, w)
    | None =>
        let resource := controllerutil.RemoveFinalizer resource myFinalizerName in
        let '(err, resource, w) := client.Update a resource w in
        match err with
        | Some e => (ctrl.Result_zero, Some e, w)
        | None =>
            let w := client.Event resource corev1.EventTypeNormal "Deleted"
                       "Resource cleanup completed" w in
            (ctrl.Result_zero, None, w)
        end
    end
  else (ctrl.Result_zero, None, w).

(** [Reconcile] (lines 45-78). *)
Definition Reconcile (a : client.Answers) (h : Hooks) (req : ctrl.Request)
    (w : World) : ctrl.Result * option errors.error * World :=
  match client.Get a (ctrl.NamespacedName_ req) w with
  | inl err =>
      if apierrors.IsNotFound err then (ctrl.Result_zero, None, w)
      else (ctrl.Result_zero, Some err, w)
  | inr resource =>
      if negb (metav1.IsZero (metav1.DeletionTimestamp (client.ObjectMeta resource)))
      then reconcileDelete a h resource w
      else if negb (controllerutil.ContainsFinalizer resource myFinalizerName)
      then
        let resource := controllerutil.AddFinalizer resource myFinalizerName in
        let '(err, resource, w) := client.Update a resource w in
        match err with
        | Some e => (ctrl.Result_zero, Some e, w)
        | None => ({| ctrl.Requeue := true; ctrl.RequeueAfter := 0 |}, None, w)
        end
      else reconcileNormal a h resource w
  end.

(** Successive invocations for the same request, each with its own
    answers; the Go result pairs are returned oldest first. *)
Fixpoint Reconciles (steps : list (client.Answers * Hooks)) (req : ctrl.Request)
    (w : World) : list (ctrl.Result * option errors.error) * World :=
  match steps with
  | [] => ([], w)
  | (a, h) :: rest =>
      let '(res, err, w1) := Reconcile a h req w in
      let '(out, w2) := Reconciles rest req w1 in
      ((res, err) :: out, w2)
  end.

End controllers.

(** ** package webappv1 and package controller: GuestbookReconciler
       (src/internal/controller/guestbook_controller.go) *)

Module webappv1.

(** Modelled from the spec: the Guestbook types are declared in api/v1,
    which is not under src/; the status holds "a list of timestamped
    Conditions", the one field the controller reads and writes. *)
Record GuestbookStatus := mkGuestbookStatus {
  Conditions : list metav1.Condition
}.

End webappv1.

Module controller.
Section Guestbook.

(** The Guestbook spec is declared in api/v1, which is not under src/;
    the controller never looks into it. *)
Variable GuestbookSpec : Type.

Definition Guestbook := client.Object GuestbookSpec webappv1.GuestbookStatus.
Definition World := client.World GuestbookSpec webappv1.GuestbookStatus.

(** [Reconcile] (lines 46-70). *)
Definition Reconcile (a : client.Answers) (req : ctrl.Request) (w : World)
    : ctrl.Result * option errors.error * World :=
  match client.Get a (ctrl.NamespacedName_ req) w with
  | inl err => (ctrl.Result_zero, client.IgnoreNotFound err, w)
  | inr guestbook =>
      let conditions := webappv1.Conditions (client.Status_ guestbook) in
      let available :=
        match meta.FindStatusCondition conditions "Available" with
        | Some i => conditions !! i
        | None => None
        end in
      let stale :=
        match available with
        | None => true
        | Some c =>
            negb (metav1.ObservedGeneration c =? client.GetGeneration guestbook)
            || negb (metav1.ConditionStatus_eqb (metav1.Status c) metav1.ConditionTrue)
        end in
      if stale then
        let guestbook :=
          client.SetStatus guestbook
            {| webappv1.Conditions :=
                 fst (meta.SetStatusCondition (client.now a) conditions
                        {| metav1.Type_ := "Available";
                           metav1.Status := metav1.ConditionTrue;
                           metav1.ObservedGeneration := client.GetGeneration guestbook;
                           metav1.LastTransitionTime := 0;
                           metav1.Reason := "Reconciled";
                           metav1.Message := "Guestbook spec reconciled" |}) |} in
        let '(err, guestbook, w) := client.StatusUpdate a guestbook w in
        match err with
        | Some e => (ctrl.Result_zero, Some e, w)
        | None => (ctrl.Result_zero, None, w)
        end
      else (ctrl.Result_zero, None, w)
  end.

End Guestbook.
End controller.

(** ** The admission webhook of the example API
       (src/unnamed/part_005, lines 318-329) *)

Module webhook.

(** [func (r *MyResource) Default()] (lines 318-322). *)
Definition Default (r : myv1.MyResource) : myv1.MyResource :=
  if myv1.Replicas (client.Spec_ r) =? 0 then
    {| client.ObjectMeta := client.ObjectMeta r;
       client.Spec_ :=
         {| myv1.SpecName := myv1.SpecName (client.Spec_ r);
            myv1.Replicas := 1;
            myv1.ServiceName := myv1.ServiceName (client.Spec_ r) |};
       client.Status_ := client.Status_ r |}
  else r.

(** [func (r *MyResource) ValidateCreate() (admission.Warnings, error)]
    (lines 324-329): the warnings and the error. *)
Definition ValidateCreate (r : myv1.MyResource) : list string * option errors.error :=
  if myv1.Replicas (client.Spec_ r) <? 1 then
    ([], Some (errors.New "replicas must be positive"))
  else ([], None).

End webhook.

(** ** The reconciliation patterns of the reference guide
       (src/unnamed/part_003) *)

Module patterns.

(** [err.Error()]: the message of a status error or of a plain error; for
    [fmt.Errorf("<context>: %w", err)] the context, a colon and the message
    of the wrapped error. *)
Fixpoint Error (err : errors.error) : string :=
  match err with
  | errors.StatusError _ message => message
  | errors.Errorf context wrapped => context ++ ": " ++ Error wrapped
  | errors.New message => message
  end.

(** The two helpers [reconcileNormal] calls and the guide does not define:
    what [r.createExternalResource(ctx, resource)] returns in this
    invocation, and the classification [isTransientError]. *)
Record Hooks := mkHooks {
  createExternalResource : option errors.error;
  isTransientError : errors.error -> bool
}.

(** [updateStatus] of "Status Management" (lines 72-81): the condition is
    set and the status path is used; the observed generation is not
    touched and the error is returned as it is. *)
Definition updateStatus (a : client.Answers) (resource : myv1.MyResource)
    (condition : metav1.Condition) (w : controllers.World)
    : option errors.error * myv1.MyResource * controllers.World :=
  let resource :=
    client.SetStatus resource
      (controllers.SetConditions (client.Status_ resource)
         (fst (meta.SetStatusCondition (client.now a)
                 (myv1.Conditions (client.Status_ resource)) condition))) in
  let '(err, resource, w) := client.StatusUpdate a resource w in
  match err with
  | Some e => (Some e, resource, w)
  | None => (None, resource, w)
  end.

(** [reconcileNormal] of "Transient vs Permanent Errors" (lines 117-146).
    The results of both [updateStatus] calls are discarded ([_ = ...]). *)
Definition reconcileNormal (a : client.Answers) (h : Hooks)
    (resource : myv1.MyResource) (w : controllers.World)
    : ctrl.Result * option errors.error * controllers.World :=
  match createExternalResource h with
  | Some err =>
      if isTransientError h err then
        ({| ctrl.Requeue := false; ctrl.RequeueAfter := 30 * time.Second |}, None, w)
      else
        let condition :=
          {| metav1.Type_ := controllers.TypeDegraded;
             metav1.Status := metav1.ConditionTrue;
             metav1.ObservedGeneration := 0;
             metav1.LastTransitionTime := 0;
             metav1.Reason := "ConfigurationError";
             metav1.Message := Error err |} in
        let '(_, _, w) := updateStatus a resource condition w in
        (ctrl.Result_zero, None, w)
  | None =>
      let condition :=
        {| metav1.Type_ := controllers.TypeReady;
           metav1.Status := metav1.ConditionTrue;
           metav1.ObservedGeneration := 0;
           metav1.LastTransitionTime := 0;
           metav1.Reason := "ReconciliationSucceeded";
           metav1.Message := "Resource reconciled successfully" |} in
      let '(_, _, w) := updateStatus a resource condition w in
      (ctrl.Result_zero, None, w)
  end.

(** [const myFinalizerName] of "Finalizer Pattern" (line 47). *)
Definition myFinalizerName : string := "myresource.example.com/finalizer".

(** [reconcileDelete] of "Finalizer Pattern" (lines 49-64), where the call
    of the cleanup is written out.  The guide does not define
    [r.cleanupExternalResources]: [cleanupExternalResources] is what the
    call returns in this invocation, nil or an error. *)
Definition reconcileDelete (a : client.Answers)
    (cleanupExternalResources : option errors.error)
    (resource : myv1.MyResource) (w : controllers.World)
    : ctrl.Result * option errors.error * controllers.World :=
  if controllerutil.ContainsFinalizer resource myFinalizerName then
    match cleanupExternalResources with
    | Some err => (ctrl.Result_zero, Some err, w)
    | None =>
        let resource := controllerutil.RemoveFinalizer resource myFinalizerName in
        let '(err, resource, w) := client.Update a resource w in
        match err with
        | Some e => (ctrl.Result_zero, Some e, w)
        | None => (ctrl.Result_zero, None, w)
        end
    end
  else (ctrl.Result_zero, None, w).

(** [Reconcile] of "Basic Structure" (lines 10-39), which hands over to the
    guide's [reconcileDelete] and [reconcileNormal]. *)
Definition Reconcile (a : client.Answers) (h : Hooks)
    (cleanupExternalResources : option errors.error) (req : ctrl.Request)
    (w : controllers.World)
    : ctrl.Result * option errors.error * controllers.World :=
  match client.Get a (ctrl.NamespacedName_ req) w with
  | inl err =>
      if apierrors.IsNotFound err then (ctrl.Result_zero, None, w)
      else (ctrl.Result_zero, Some err, w)
  | inr resource =>
      if negb (metav1.IsZero (metav1.DeletionTimestamp (client.ObjectMeta resource)))
      then reconcileDelete a cleanupExternalResources resource w
      else if negb (controllerutil.ContainsFinalizer resource myFinalizerName)
      then
        let resource := controllerutil.AddFinalizer resource myFinalizerName in
        let '(err, resource, w) := client.Update a resource w in
        match err with
        | Some e => (ctrl.Result_zero, Some e, w)
        | None => ({| ctrl.Requeue := true; ctrl.RequeueAfter := 0 |}, None, w)
        end
      else reconcileNormal a h resource w
  end.

(** Successive invocations for the same request, each with its own answers
    of the store, of [createExternalResource] and of the cleanup; the Go
    result pairs are returned oldest first. *)
Fixpoint Reconciles (steps : list (client.Answers * Hooks * option errors.error))
    (req : ctrl.Request) (w : controllers.World)
    : list (ctrl.Result * option errors.error) * controllers.World :=
  match steps with
  | [] => ([], w)
  | (a, h, cleanupExternalResources) :: rest =>
      let '(res, err, w1) := Reconcile a h cleanupExternalResources req w in
      let '(out, w2) := Reconciles rest req w1 in
      ((res, err) :: out, w2)
  end.

End patterns.

(** ** The scaffolding script (src/unnamed/part_002)

    The script runs under [set -e].  What it does is the sequence of its
    visible actions (the lines it echoes, the usage text, the commands it
    runs) and its exit status. *)

Module scaffold_operator.

(** The shell variables the script works with. *)
Record Vars := mkVars {
  NAME : string;
  DOMAIN : string;
  REPO : string;
  GROUP : string;
  KIND : string;
  VERSION : string;
  WEBHOOK : bool
}.

(** What the script finds around it: the values of NAME, REPO and KIND it
    inherits (the script does not initialise them; empty when unset),
    whether [command -v kubebuilder] succeeds, and the exit status of each
    command it runs. *)
Record Env := mkEnv {
  envNAME : string;
  envREPO : string;
  envKIND : string;
  installed : bool;
  status : list string -> Z
}.

(** One visible action: a line echoed, the usage text printed (the text of
    the here-document is not spelled out), a command run. *)
Inductive Action :=
| Echo (line : string)
| Usage
| Run (argv : list string).

(** "Default values" (lines 34-38). *)
Definition initial (e : Env) : Vars :=
  {| NAME := envNAME e; DOMAIN := "example.com"; REPO := envREPO e;
     GROUP := "apps"; KIND := envKIND e; VERSION := "v1"; WEBHOOK := false |}.

(** The arms of the [case $1 in ... esac] (lines 42-80). *)
Inductive Arm :=
| ArmName | ArmDomain | ArmRepo | ArmGroup | ArmKind | ArmVersion
| ArmWebhook | ArmHelp | ArmUnknown.

Definition arm (word : string) : Arm :=
  if String.eqb word "-n" || String.eqb word "--name" then ArmName
  else if String.eqb word "-d" || String.eqb word "--domain" then ArmDomain
  else if String.eqb word "-r" || String.eqb word "--repo" then ArmRepo
  else if String.eqb word "-g" || String.eqb word "--group" then ArmGroup
  else if String.eqb word "-k" || String.eqb word "--kind" then ArmKind
  else if String.eqb word "-v" || String.eqb word "--version" then ArmVersion
  else if String.eqb word "--webhook" then ArmWebhook
  else if String.eqb word "-h" || String.eqb word "--help" then ArmHelp
  else ArmUnknown.

(** The assignment of an arm that takes a value ([NAME="$2"] and the
    like). *)
Definition assign (o : Arm) (value : string) (v : Vars) : Vars :=
  match o with
  | ArmName =>
      {| NAME := value; DOMAIN := DOMAIN v; REPO := REPO v; GROUP := GROUP v;
         KIND := KIND v; VERSION := VERSION v; WEBHOOK := WEBHOOK v |}
  | ArmDomain =>
      {| NAME := NAME v; DOMAIN := value; REPO := REPO v; GROUP := GROUP v;
         KIND := KIND v; VERSION := VERSION v; WEBHOOK := WEBHOOK v |}
  | ArmRepo =>
      {| NAME := NAME v; DOMAIN := DOMAIN v; REPO := value; GROUP := GROUP v;
         KIND := KIND v; VERSION := VERSION v; WEBHOOK := WEBHOOK v |}
  | ArmGroup =>
      {| NAME := NAME v; DOMAIN := DOMAIN v; REPO := REPO v; GROUP := value;
         KIND := KIND v; VERSION := VERSION v; WEBHOOK := WEBHOOK v |}
  | ArmKind =>
      {| NAME := NAME v; DOMAIN := DOMAIN v; REPO := REPO v; GROUP := GROUP v;
         KIND := value; VERSION := VERSION v; WEBHOOK := WEBHOOK v |}
  | ArmVersion =>
      {| NAME := NAME v; DOMAIN := DOMAIN v; REPO := REPO v; GROUP := GROUP v;
         KIND := KIND v; VERSION := value; WEBHOOK := WEBHOOK v |}
  | _ => v
  end.

Definition enable_webhook (v : Vars) : Vars :=
  {| NAME := NAME v; DOMAIN := DOMAIN v; REPO := REPO v; GROUP := GROUP v;
     KIND := KIND v; VERSION := VERSION v; WEBHOOK := true |}.

(** How the argument loop ends: all arguments consumed, or the script has
    exited. *)
Inductive Parsed :=
| Consumed (v : Vars)
| Exited (code : Z) (out : list Action).

(** "Parse arguments" (lines 40-81): [while [[ $# -gt 0 ]]; do case $1 in
    ... esac; done].  An arm that takes a value reads [$2] and does
    [shift 2]; when the option is the last word, [shift 2] fails and
    [set -e] ends the script there, with status 1 and nothing printed. *)
Fixpoint parse (args : list string) (v : Vars) : Parsed :=
  match args with
  | [] => Consumed v
  | word :: rest =>
      match arm word with
      | ArmWebhook => parse rest (enable_webhook v)
      | ArmHelp => Exited 0 [Usage]
      | ArmUnknown => Exited 1 [Echo ("Unknown option: " ++ word); Usage]
      | o =>
          match rest with
          | [] => Exited 1 []
          | value :: rest' => parse rest' (assign o value v)
          end
      end
  end.

(** [${KIND,,}]: the ASCII letters of the word in lower case. *)
Definition lower_ascii (c : Ascii.ascii) : Ascii.ascii :=
  let n := Ascii.nat_of_ascii c in
  if (65 <=? n)%nat && (n <=? 90)%nat then Ascii.ascii_of_nat (n + 32) else c.

Fixpoint lower (s : string) : string :=
  match s with
  | EmptyString => EmptyString
  | String c rest => String (lower_ascii c) (lower rest)
  end.

Definition shown (b : bool) : string := if b then "true" else "false".

(** The summary echoed once the arguments are accepted (lines 102-108). *)
Definition summary (v : Vars) : list Action :=
  [ Echo ("Scaffolding operator: " ++ NAME v);
    Echo ("  Domain: " ++ DOMAIN v);
    Echo ("  Repo: " ++ REPO v);
    Echo ("  API: " ++ GROUP v ++ "/" ++ VERSION v);
    Echo ("  Kind: " ++ KIND v);
    Echo ("  Webhook: " ++ shown (WEBHOOK v));
    Echo "" ].

(** The steps after the kubebuilder check (lines 117-151), in order. *)
Definition steps (v : Vars) : list Action :=
  [ Run ["mkdir"; "-p"; NAME v];
    Run ["cd"; NAME v];
    Echo "Initializing project...";
    Run ["kubebuilder"; "init"; "--domain"; DOMAIN v; "--repo"; REPO v];
    Echo "Creating API...";
    Run ["kubebuilder"; "create"; "api"; "--group"; GROUP v;
         "--version"; VERSION v; "--kind"; KIND v;
         "--resource"; "--controller"] ]
  ++ (if WEBHOOK v then
        [ Echo "Creating webhook...";
          Run ["kubebuilder"; "create"; "webhook"; "--group"; GROUP v;
               "--version"; VERSION v; "--kind"; KIND v;
               "--defaulting"; "--programmatic-validation"] ]
      else [])
  ++ [ Echo "Generating manifests and code...";
       Run ["make"; "manifests"; "generate"];
       Echo "";
       Echo "Operator scaffolded successfully!";
       Echo "";
       Echo "Next steps:";
       Echo ("  1. cd " ++ NAME v);
       Echo ("  2. Implement reconciliation logic in controllers/"
             ++ lower (KIND v) ++ "_controller.go");
       Echo ("  3. Update API types in api/" ++ VERSION v ++ "/"
             ++ lower (KIND v) ++ "_types.go") ]
  ++ (if WEBHOOK v then
        [ Echo ("  4. Implement webhook logic in api/" ++ VERSION v ++ "/"
                ++ lower (KIND v) ++ "_webhook.go") ]
      else [])
  ++ [ Echo "  5. Run tests: make test";
       Echo "  6. Run locally: make run";
       Echo "  7. Deploy: make docker-build docker-push IMG=<registry>/<image>:tag && make deploy IMG=<registry>/<image>:tag" ].

(** Running a list of steps under [set -e]: a command that exits with a
    non-zero status ends the script with that status. *)
Fixpoint exec (e : Env) (body : list Action) : list Action * Z :=
  match body with
  | [] => ([], 0)
  | Run argv :: rest =>
      if status e argv =? 0 then
        let '(out, code) := exec e rest in (Run argv :: out, code)
      else ([Run argv], status e argv)
  | act :: rest =>
      let '(out, code) := exec e rest in (act :: out, code)
  end.

(** The whole script (lines 34-151): what it does and its exit status. *)
Definition main (e : Env) (args : list string) : list Action * Z :=
  match parse args (initial e) with
  | Exited code out => (out, code)
  | Consumed v =>
      if String.eqb (NAME v) "" then
        ([Echo "Error: Operator name is required"; Usage], 1)
      else if String.eqb (REPO v) "" then
        ([Echo "Error: Repository path is required"; Usage], 1)
      else if String.eqb (KIND v) "" then
        ([Echo "Error: Resource kind is required"; Usage], 1)
      else if negb (installed e) then
        (summary v
         ++ [ Echo "Error: kubebuilder is not installed";
              Echo "Install from: https://book.kubebuilder.io/quick-start.html#installation" ],
         1)
      else
        let '(out, code) := exec e (steps v) in (summary v ++ out, code)
  end.

(** The commands among a list of actions, in order. *)
Fixpoint commands (out : list Action) : list (list string) :=
  match out with
  | [] => []
  | Run argv :: rest => argv :: commands rest
  | _ :: rest => commands rest
  end.

(** A command line that spells out every variable. *)
Definition render (v : Vars) : list string :=
  [ "-n"; NAME v; "-d"; DOMAIN v; "-r"; REPO v; "-g"; GROUP v;
    "-k"; KIND v; "-v"; VERSION v ]
  ++ (if WEBHOOK v then ["--webhook"] else []).

End scaffold_operator.

(** * The vocabulary of the properties *)

(** The order in which types were first inserted: the types already there,
    then each new type of the given sequence at its first occurrence. *)
Definition insertion_order (seen : list string) (ts : list string) : list string :=
  fold_left (fun acc t => if existsb (String.eqb t) acc then acc else acc ++ [t])
    ts seen.

(** The condition [reconcileNormal] sets: Ready when the readiness check
    holds, Degraded otherwise, tagged with the resource's generation. *)
Definition verdict (ready : bool) (generation : Z) : metav1.Condition :=
  if ready then
    {| metav1.Type_ := controllers.TypeReady;
       metav1.Status := metav1.ConditionTrue;
       metav1.ObservedGeneration := generation;
       metav1.LastTransitionTime := 0;
       metav1.Reason := "ReconciliationSucceeded";
       metav1.Message := "Resource reconciled successfully" |}
  else
    {| metav1.Type_ := controllers.TypeDegraded;
       metav1.Status := metav1.ConditionTrue;
       metav1.ObservedGeneration := generation;
       metav1.LastTransitionTime := 0;
       metav1.Reason := "NotReady";
       metav1.Message := "Resource is not ready" |}.

(** The resource as [updateStatus] sends it to the status path: the
    condition set, the observed generation brought up to date. *)
Definition observed (now : metav1.Time) (r : myv1.MyResource)
    (condition : metav1.Condition) : myv1.MyResource :=
  client.SetStatus r
    {| myv1.Conditions :=
         fst (meta.SetStatusCondition now (myv1.Conditions (client.Status_ r)) condition);
       myv1.ObservedGeneration := client.GetGeneration r;
       myv1.Phase := myv1.Phase (client.Status_ r) |}.

(** The event [reconcileNormal] records after a successful status write. *)
Definition announced (ready : bool) (r : myv1.MyResource) : record.Event :=
  if ready then
    {| record.InvolvedObject := client.ObjectKeyFromObject r;
       record.EventType := corev1.EventTypeNormal;
       record.EventReason := "Ready";
       record.EventMessage := "Resource is ready" |}
  else
    {| record.InvolvedObject := client.ObjectKeyFromObject r;
       record.EventType := corev1.EventTypeWarning;
       record.EventReason := "NotReady";
       record.EventMessage := "Resource is not ready" |}.

(** The requeue policy of [reconcileNormal]. *)
Definition pace (ready : bool) : ctrl.Result :=
  {| ctrl.Requeue := false;
     ctrl.RequeueAfter := if ready then 5 * time.Minute else 30 * time.Second |}.

(** The event [reconcileDelete] records once the finalizer is gone. *)
Definition farewell (r : myv1.MyResource) : record.Event :=
  {| record.InvolvedObject := client.ObjectKeyFromObject r;
     record.EventType := corev1.EventTypeNormal;
     record.EventReason := "Deleted";
     record.EventMessage := "Resource cleanup completed" |}.

(** The resource is being deleted: its deletion timestamp is set. *)
Definition deleting {Spec Status : Type} (r : client.Object Spec Status) : bool :=
  negb (metav1.IsZero (metav1.DeletionTimestamp (client.ObjectMeta r))).

(** The resource carries the finalizer marker of [MyResourceReconciler]. *)
Definition marked {Spec Status : Type} (r : client.Object Spec Status) : bool :=
  controllerutil.ContainsFinalizer r controllers.myFinalizerName.

(** The condition [GuestbookReconciler] sets. *)
Definition available (generation : Z) : metav1.Condition :=
  {| metav1.Type_ := "Available";
     metav1.Status := metav1.ConditionTrue;
     metav1.ObservedGeneration := generation;
     metav1.LastTransitionTime := 0;
     metav1.Reason := "Reconciled";
     metav1.Message := "Guestbook spec reconciled" |}.

(** The guard of [GuestbookReconciler.Reconcile]: an Available condition is
    there, true, and tagged with the resource's generation. *)
Definition current {Spec : Type} (g : client.Object Spec webappv1.GuestbookStatus)
    : bool :=
  let conditions := webappv1.Conditions (client.Status_ g) in
  match meta.FindStatusCondition conditions "Available" with
  | Some i =>
      match conditions !! i with
      | Some c =>
          (metav1.ObservedGeneration c =? client.GetGeneration g)
          && metav1.ConditionStatus_eqb (metav1.Status c) metav1.ConditionTrue
      | None => false
      end
  | None => false
  end.

(** The Guestbook as the controller sends it to the status path. *)
Definition refreshed {Spec : Type} (now : metav1.Time)
    (g : client.Object Spec webappv1.GuestbookStatus)
    : client.Object Spec webappv1.GuestbookStatus :=
  client.SetStatus g
    {| webappv1.Conditions :=
         fst (meta.SetStatusCondition now (webappv1.Conditions (client.Status_ g))
                (available (client.GetGeneration g))) |}.

(** The two metadata records agree on everything but the finalizer list. *)
Definition same_but_finalizers (m m' : metav1.ObjectMeta) : Prop :=
  metav1.SetFinalizers m' (metav1.Finalizers m) = m.

(** The second finalizer list is the first one, or the first one with the
    controller's marker appended, or the first one without the marker. *)
Definition marker_only (f f' : list string) : Prop :=
  f' = f
  \/ f' = f ++ [controllers.myFinalizerName]
  \/ f' = List.filter (fun x => negb (String.eqb x controllers.myFinalizerName)) f.

Section Frame.
Context {Spec Status : Type}.
Implicit Types (o obj : client.Object Spec Status) (w : client.World Spec Status).

(** [o'] is [o] up to the status and the controller's marker. *)
Definition up_to_marker_and_status o o' : Prop :=
  client.Spec_ o' = client.Spec_ o
  /\ same_but_finalizers (client.ObjectMeta o) (client.ObjectMeta o')
  /\ marker_only (client.GetFinalizers o) (client.GetFinalizers o').

(** [o'] is [o] up to the status. *)
Definition up_to_status o o' : Prop :=
  client.Spec_ o' = client.Spec_ o /\ client.ObjectMeta o' = client.ObjectMeta o.

(** The same keys are stored before and after, and each stored object is
    related to its successor. *)
Definition evolves (P : client.Object Spec Status -> client.Object Spec Status -> Prop)
    (m m' : gmap NamespacedName (client.Object Spec Status)) : Prop :=
  forall k,
    match m !! k, m' !! k with
    | Some o, Some o' => P o o'
    | None, None => True
    | _, _ => False
    end.

(** A write that stays in its lane: through the main path an object that
    differs from the stored one only by the marker, added where it was
    absent or removed where it was present; through the status path an
    object that differs from the stored one only in its status. *)
Definition in_lane w (c : client.Call Spec Status) : Prop :=
  match c with
  | client.CallUpdate obj =>
      exists o,
        client.objects w !! client.ObjectKeyFromObject obj = Some o
        /\ client.Status_ obj = client.Status_ o
        /\ client.Spec_ obj = client.Spec_ o
        /\ same_but_finalizers (client.ObjectMeta o) (client.ObjectMeta obj)
        /\ ((marked o = false
             /\ client.GetFinalizers obj
                = client.GetFinalizers o ++ [controllers.myFinalizerName])
            \/ (marked o = true
                /\ client.GetFinalizers obj
                   = List.filter
                       (fun x => negb (String.eqb x controllers.myFinalizerName))
                       (client.GetFinalizers o)))
  | client.CallStatusUpdate obj =>
      exists o,
        client.objects w !! client.ObjectKeyFromObject obj = Some o
        /\ up_to_status o obj
  end.

(** Only the status path is used. *)
Definition status_lane w (c : client.Call Spec Status) : Prop :=
  match c with
  | client.CallUpdate _ => False
  | client.CallStatusUpdate obj =>
      exists o,
        client.objects w !! client.ObjectKeyFromObject obj = Some o
        /\ up_to_status o obj
  end.

End Frame.

(** ** A concrete resource, store and surroundings *)

Module demo.

Definition key : NamespacedName := ("default", "demo").

Definition req : ctrl.Request := {| ctrl.NamespacedName_ := key |}.

Definition meta_ (deletion : option metav1.Time) (finalizers : list string)
    : metav1.ObjectMeta :=
  {| metav1.Name := "demo"; metav1.Namespace := "default";
     metav1.Generation := 3; metav1.DeletionTimestamp := deletion;
     metav1.Labels := {[ "app" := "demo" ]};
     metav1.Finalizers := finalizers |}.

(** A MyResource with [spec.replicas = 3]. *)
Definition resource (deletion : option metav1.Time) (finalizers : list string)
    (conditions : list metav1.Condition) : myv1.MyResource :=
  {| client.ObjectMeta := meta_ deletion finalizers;
     client.Spec_ := {| myv1.SpecName := "demo"; myv1.Replicas := 3;
                        myv1.ServiceName := "demo-svc" |};
     client.Status_ := {| myv1.Conditions := conditions;
                          myv1.ObservedGeneration := 0;
                          myv1.Phase := "" |} |}.

(** Freshly created: no finalizer, no condition. *)
Definition fresh : myv1.MyResource := resource None [] [].

(** Past finalizer attachment. *)
Definition settled : myv1.MyResource :=
  resource None [controllers.myFinalizerName] [].

(** Deleted by its user while the finalizer is still there. *)
Definition doomed : myv1.MyResource :=
  resource (Some 1700) ["other/finalizer"; controllers.myFinalizerName] [].

(** A Guestbook, its spec a plain string. *)
Definition guestbook (conditions : list metav1.Condition)
    : controller.Guestbook string :=
  {| client.ObjectMeta := meta_ None [];
     client.Spec_ := "hello";
     client.Status_ := {| webappv1.Conditions := conditions |} |}.

(** A store that holds just the given object, under [key]. *)
Definition world {Spec Status : Type} (obj : client.Object Spec Status)
    : client.World Spec Status :=
  {| client.objects := {[ key := obj ]}; client.calls := []; client.events := [] |}.

(** A store that holds nothing. *)
Definition nothing {Spec Status : Type} : client.World Spec Status :=
  {| client.objects := ∅; client.calls := []; client.events := [] |}.

(** Every store call succeeds; the clock reads 1000. *)
Definition calm : client.Answers :=
  {| client.now := 1000; client.getErr := None; client.updateErr := None;
     client.statusErr := None |}.

(** The fetch times out. *)
Definition unreachable : client.Answers :=
  {| client.now := 1000;
     client.getErr := Some (errors.StatusError errors.StatusReasonTimeout "timeout");
     client.updateErr := None; client.statusErr := None |}.

End demo.

(** Three conditions to try the helpers on. *)
Definition mkReady (generation : Z) : metav1.Condition :=
  {| metav1.Type_ := "Ready"; metav1.Status := metav1.ConditionTrue;
     metav1.ObservedGeneration := generation; metav1.LastTransitionTime := 0;
     metav1.Reason := "ReconciliationSucceeded";
     metav1.Message := "Resource reconciled successfully" |}.

Definition mkProgressing (generation : Z) : metav1.Condition :=
  {| metav1.Type_ := "Progressing"; metav1.Status := metav1.ConditionFalse;
     metav1.ObservedGeneration := generation; metav1.LastTransitionTime := 0;
     metav1.Reason := "Idle"; metav1.Message := "Nothing in progress" |}.

Definition mkDegraded (generation : Z) : metav1.Condition :=
  {| metav1.Type_ := "Degraded"; metav1.Status := metav1.ConditionTrue;
     metav1.ObservedGeneration := generation; metav1.LastTransitionTime := 0;
     metav1.Reason := "NotReady"; metav1.Message := "Resource is not ready" |}.

(** ** Vocabulary and inputs for the guide and the script *)

(** The condition the guide's [reconcileNormal] sets for an outcome of
    [createExternalResource]. *)
Definition pattern_condition (outcome : option errors.error) : metav1.Condition :=
  match outcome with
  | Some err =>
      {| metav1.Type_ := controllers.TypeDegraded;
         metav1.Status := metav1.ConditionTrue;
         metav1.ObservedGeneration := 0;
         metav1.LastTransitionTime := 0;
         metav1.Reason := "ConfigurationError";
         metav1.Message := patterns.Error err |}
  | None =>
      {| metav1.Type_ := controllers.TypeReady;
         metav1.Status := metav1.ConditionTrue;
         metav1.ObservedGeneration := 0;
         metav1.LastTransitionTime := 0;
         metav1.Reason := "ReconciliationSucceeded";
         metav1.Message := "Resource reconciled successfully" |}
  end.



(** The variable an arm assigns. *)
Definition variable (o : scaffold_operator.Arm) (v : scaffold_operator.Vars) : string :=
  match o with
  | scaffold_operator.ArmName => scaffold_operator.NAME v
  | scaffold_operator.ArmDomain => scaffold_operator.DOMAIN v
  | scaffold_operator.ArmRepo => scaffold_operator.REPO v
  | scaffold_operator.ArmGroup => scaffold_operator.GROUP v
  | scaffold_operator.ArmKind => scaffold_operator.KIND v
  | scaffold_operator.ArmVersion => scaffold_operator.VERSION v
  | _ => ""
  end.

(** Nothing inherited, kubebuilder installed, every command succeeds. *)
Definition bare : scaffold_operator.Env :=
  {| scaffold_operator.envNAME := ""; scaffold_operator.envREPO := "";
     scaffold_operator.envKIND := ""; scaffold_operator.installed := true;
     scaffold_operator.status := fun _ => 0 |}.

(** As [bare], but [kubebuilder init] exits with status 2. *)
Definition init_fails : scaffold_operator.Env :=
  {| scaffold_operator.envNAME := ""; scaffold_operator.envREPO := "";
     scaffold_operator.envKIND := ""; scaffold_operator.installed := true;
     scaffold_operator.status :=
       fun argv => match argv with
                   | "kubebuilder" :: "init" :: _ => 2
                   | _ => 0
                   end |}.

(** The arm takes a value. *)
Definition valued (o : scaffold_operator.Arm) : bool :=
  match o with
  | scaffold_operator.ArmWebhook | scaffold_operator.ArmHelp
  | scaffold_operator.ArmUnknown => false
  | _ => true
  end.

(** * Properties *)

(** ** Condition lists *)

Lemma existsb_eqb_elem (t : string) (l : list string) :
  existsb (String.eqb t) l = true <-> t ∈ l.
Proof.
  rewrite existsb_exists. split.
  - intros (x & Hx & He). apply String.eqb_eq in He. subst.
    by apply list_elem_of_In.
  - intros H. exists t. split; [by apply list_elem_of_In | apply String.eqb_refl].
Qed.

Lemma Find_None (l : list metav1.Condition) (t : string) :
  meta.FindStatusCondition l t = None <-> t ∉ meta.types l.
Proof.
  induction l as [|c l IH]; simpl.
  - split; [intros _; apply not_elem_of_nil | done].
  - destruct (String.eqb_spec (metav1.Type_ c) t) as [E|E].
    + split; [done | intros H; exfalso; apply H; subst; left].
    + rewrite not_elem_of_cons, <- IH.
      destruct (meta.FindStatusCondition l t); simpl.
      * split; [done | by intros [_ ?]].
      * split; [intros _; split; [congruence | done] | done].
Qed.

Lemma Find_Some (l : list metav1.Condition) (t : string) (i : nat) :
  meta.FindStatusCondition l t = Some i ->
  exists c, l !! i = Some c /\ metav1.Type_ c = t.
Proof.
  revert i. induction l as [|c l IH]; simpl; intros i H; [done|].
  destruct (String.eqb_spec (metav1.Type_ c) t) as [E|E].
  - injection H as <-. by exists c.
  - destruct (meta.FindStatusCondition l t) as [j|] eqn:F; simpl in H; [|done].
    injection H as <-. simpl. by apply IH.
Qed.

Lemma Find_unique (l : list metav1.Condition) (i : nat) (old : metav1.Condition) :
  NoDup (meta.types l) -> l !! i = Some old ->
  meta.FindStatusCondition l (metav1.Type_ old) = Some i.
Proof.
  revert i. induction l as [|c l IH]; intros i ND H; [done|].
  simpl in ND. apply NoDup_cons in ND as [Hc ND]. simpl.
  destruct i as [|i]; simpl in H.
  - injection H as ->. by rewrite String.eqb_refl.
  - destruct (String.eqb_spec (metav1.Type_ c) (metav1.Type_ old)) as [E|E].
    + exfalso. apply Hc. rewrite E. unfold meta.types.
      apply list_elem_of_fmap. exists old. split; [done|].
      by eapply list_elem_of_lookup_2.
    + by rewrite (IH i ND H).
Qed.

Lemma merged_Type (now : metav1.Time) (old c : metav1.Condition) :
  metav1.Type_ (fst (meta.merged now old c)) = metav1.Type_ old.
Proof. unfold meta.merged. by repeat case_match. Qed.

Lemma types_insert (l : list metav1.Condition) (i : nat) (old e : metav1.Condition) :
  l !! i = Some old -> metav1.Type_ e = metav1.Type_ old ->
  meta.types (<[i := e]> l) = meta.types l.
Proof.
  intros H E. unfold meta.types.
  change (map metav1.Type_) with (fmap (M := list) metav1.Type_).
  rewrite list_fmap_insert, E.
  apply list_insert_id. by rewrite list_lookup_fmap, H.
Qed.

(** One set-condition call either keeps the list of types or appends the new
    type at its end. *)
Lemma types_SetStatusCondition (now : metav1.Time) (l : list metav1.Condition)
    (c : metav1.Condition) :
  meta.types (fst (meta.SetStatusCondition now l c)) =
  if existsb (String.eqb (metav1.Type_ c)) (meta.types l) then meta.types l
  else meta.types l ++ [metav1.Type_ c].
Proof.
  unfold meta.SetStatusCondition.
  destruct (meta.FindStatusCondition l (metav1.Type_ c)) as [i|] eqn:F.
  - destruct (Find_Some _ _ _ F) as (old & Hi & Ht). rewrite Hi.
    assert (Hin : existsb (String.eqb (metav1.Type_ c)) (meta.types l) = true).
    { apply existsb_eqb_elem. rewrite <- Ht. unfold meta.types.
      apply list_elem_of_fmap. exists old. split; [done|].
      by eapply list_elem_of_lookup_2. }
    rewrite Hin.
    pose proof (merged_Type now old c) as Hm.
    destruct (meta.merged now old c) as [e ch]. simpl in *.
    by eapply types_insert.
  - apply Find_None in F.
    destruct (existsb (String.eqb (metav1.Type_ c)) (meta.types l)) eqn:Hin.
    + apply existsb_eqb_elem in Hin. done.
    + simpl. unfold meta.types. rewrite map_app. simpl.
      unfold meta.stamped. by case_match.
Qed.

Lemma NoDup_SetStatusCondition (now : metav1.Time) (l : list metav1.Condition)
    (c : metav1.Condition) :
  NoDup (meta.types l) -> NoDup (meta.types (fst (meta.SetStatusCondition now l c))).
Proof.
  intros ND. rewrite types_SetStatusCondition.
  destruct (existsb _ _) eqn:Hin; [done|].
  apply NoDup_app. split; [done|]. split.
  - intros x Hx Hx'. apply list_elem_of_singleton in Hx'. subst.
    apply existsb_eqb_elem in Hx. congruence.
  - apply NoDup_singleton.
Qed.

Lemma types_SetStatusConditions (ops : list (metav1.Time * metav1.Condition))
    (l : list metav1.Condition) :
  meta.types (meta.SetStatusConditions l ops) =
  insertion_order (meta.types l) (map (fun op => metav1.Type_ (snd op)) ops).
Proof.
  revert l. induction ops as [|[now c] ops IH]; intros l; [done|].
  unfold meta.SetStatusConditions, insertion_order in *. simpl.
  rewrite IH. by rewrite types_SetStatusCondition.
Qed.

Lemma NoDup_SetStatusConditions (ops : list (metav1.Time * metav1.Condition))
    (l : list metav1.Condition) :
  NoDup (meta.types l) -> NoDup (meta.types (meta.SetStatusConditions l ops)).
Proof.
  revert l. induction ops as [|[now c] ops IH]; intros l ND; [done|].
  unfold meta.SetStatusConditions in *. simpl.
  apply IH. by apply NoDup_SetStatusCondition.
Qed.

(** Setting a type that is already there writes into its slot and nowhere
    else. *)
Lemma SetStatusCondition_in_place (now : metav1.Time) (l : list metav1.Condition)
    (c old : metav1.Condition) (i : nat) :
  meta.FindStatusCondition l (metav1.Type_ c) = Some i ->
  l !! i = Some old ->
  fst (meta.SetStatusCondition now l c) = <[i := fst (meta.merged now old c)]> l.
Proof.
  intros F Hi. unfold meta.SetStatusCondition. rewrite F, Hi.
  by destruct (meta.merged now old c).
Qed.

(** C9: starting from a condition list with at most one entry per type, any
    sequence of set-condition calls leaves at most one entry per type; the
    types appear in the order in which they were first inserted; and setting
    a condition whose type is already there overwrites that entry in its slot
    (status, reason, message and observed generation of the new condition),
    leaving the length, the order of types and every other slot as they
    were, while a new type goes to the end. *)
Theorem conditions_keyed_by_type
    (l : list metav1.Condition) (ops : list (metav1.Time * metav1.Condition)) :
  NoDup (meta.types l) ->
  NoDup (meta.types (meta.SetStatusConditions l ops))
  /\ meta.types (meta.SetStatusConditions l ops)
     = insertion_order (meta.types l) (map (fun op => metav1.Type_ (snd op)) ops)
  /\ (forall now c i old,
        l !! i = Some old -> metav1.Type_ old = metav1.Type_ c ->
        let l' := fst (meta.SetStatusCondition now l c) in
        meta.types l' = meta.types l
        /\ length l' = length l
        /\ (exists e, l' !! i = Some e
              /\ metav1.Type_ e = metav1.Type_ c
              /\ metav1.Status e = metav1.Status c
              /\ metav1.Reason e = metav1.Reason c
              /\ metav1.Message e = metav1.Message c
              /\ metav1.ObservedGeneration e = metav1.ObservedGeneration c)
        /\ (forall j, j <> i -> l' !! j = l !! j))
  /\ (forall now c,
        metav1.Type_ c ∉ meta.types l ->
        fst (meta.SetStatusCondition now l c) = l ++ [meta.stamped now c]).
Proof.
  intros ND. split; [by apply NoDup_SetStatusConditions|].
  split; [apply types_SetStatusConditions|]. split.
  - intros now c i old Hi Ht l'.
    assert (F : meta.FindStatusCondition l (metav1.Type_ c) = Some i).
    { rewrite <- Ht. by apply Find_unique. }
    subst l'. rewrite (SetStatusCondition_in_place now l c old i F Hi).
    pose proof (merged_Type now old c) as Hm.
    repeat split.
    + by eapply types_insert.
    + apply length_insert.
    + exists (fst (meta.merged now old c)). split.
      * apply list_lookup_insert_eq. by eapply lookup_lt_Some.
      * rewrite Hm, Ht. unfold meta.merged. by repeat case_match.
    + intros j Hj. by apply list_lookup_insert_ne.
  - intros now c Hc. apply Find_None in Hc.
    unfold meta.SetStatusCondition. by rewrite Hc.
Qed.

(** On a list holding Ready and Progressing, setting Degraded, then Ready,
    then Degraded again leaves the types Ready, Progressing, Degraded. *)
Lemma conditions_keyed_by_type_witness :
  NoDup (meta.types [meta.stamped 5 (mkReady 3); meta.stamped 5 (mkProgressing 3)])
  /\ meta.types
       (meta.SetStatusConditions
          [meta.stamped 5 (mkReady 3); meta.stamped 5 (mkProgressing 3)]
          [(10, mkDegraded 3); (20, mkReady 4); (30, mkDegraded 4)])
     = ["Ready"; "Progressing"; "Degraded"].
Proof.
  assert (ND : NoDup (meta.types [meta.stamped 5 (mkReady 3);
                                  meta.stamped 5 (mkProgressing 3)]))
    by (apply (bool_decide_unpack _); vm_compute; reflexivity).
  split; [exact ND|].
  exact (proj1 (proj2 (conditions_keyed_by_type
                         [meta.stamped 5 (mkReady 3); meta.stamped 5 (mkProgressing 3)]
                         [(10, mkDegraded 3); (20, mkReady 4); (30, mkDegraded 4)]
                         ND))).
Defined.

(** ** The two write paths of the store *)

Section StoreFacts.
Context {Spec Status : Type}.
Implicit Types (w : client.World Spec Status) (obj r : client.Object Spec Status).

Lemma found_inv a key w r :
  client.found a key w r ->
  client.getErr a = None /\ client.objects w !! key = Some r
  /\ client.objects w !! client.ObjectKeyFromObject r = Some r.
Proof.
  intros [G K]. unfold client.Get in G.
  destruct (client.getErr a); [done|].
  destruct (client.objects w !! key) eqn:L; [|done].
  injection G as ->. by rewrite K.
Qed.

Lemma found_intro a w r :
  client.getErr a = None ->
  client.objects w !! client.ObjectKeyFromObject r = Some r ->
  client.found a (client.ObjectKeyFromObject r) w r.
Proof. intros G L. split; [|done]. unfold client.Get. by rewrite G, L. Qed.

(** A successful write through the main path of an object that kept the
    stored status persists exactly the object sent. *)
Lemma Update_ok a w r obj :
  client.objects w !! client.ObjectKeyFromObject r = Some r ->
  client.ObjectKeyFromObject obj = client.ObjectKeyFromObject r ->
  client.Status_ obj = client.Status_ r ->
  client.updateErr a = None ->
  client.Update a obj w =
    (None, obj,
     {| client.objects := <[client.ObjectKeyFromObject r := obj]> (client.objects w);
        client.calls := client.calls w ++ [client.CallUpdate obj];
        client.events := client.events w |}).
Proof.
  intros L K S E. unfold client.Update. rewrite E. simpl. rewrite K, L.
  unfold client.SetStatus, client.stored. simpl. rewrite <- S. by destruct obj.
Qed.

(** A successful write through the status path of an object that kept the
    stored metadata and spec persists exactly the object sent. *)
Lemma StatusUpdate_ok a w r obj :
  client.objects w !! client.ObjectKeyFromObject r = Some r ->
  client.ObjectMeta obj = client.ObjectMeta r ->
  client.Spec_ obj = client.Spec_ r ->
  client.statusErr a = None ->
  client.StatusUpdate a obj w =
    (None, obj,
     {| client.objects := <[client.ObjectKeyFromObject r := obj]> (client.objects w);
        client.calls := client.calls w ++ [client.CallStatusUpdate obj];
        client.events := client.events w |}).
Proof.
  intros L M S E. unfold client.StatusUpdate. rewrite E. simpl.
  assert (K : client.ObjectKeyFromObject obj = client.ObjectKeyFromObject r).
  { unfold client.ObjectKeyFromObject. by rewrite M. }
  rewrite K, L. unfold client.SetStatus, client.stored. simpl.
  rewrite <- M, <- S. by destruct obj.
Qed.

(** A failed write leaves the persisted objects as they were; the call was
    still issued. *)
Lemma Update_failed a w obj e :
  client.updateErr a = Some e ->
  client.Update a obj w = (Some e, obj, client.logged (client.CallUpdate obj) w).
Proof. intros E. unfold client.Update. by rewrite E. Qed.

Lemma StatusUpdate_failed a w obj e :
  client.statusErr a = Some e ->
  client.StatusUpdate a obj w
  = (Some e, obj, client.logged (client.CallStatusUpdate obj) w).
Proof. intros E. unfold client.StatusUpdate. by rewrite E. Qed.

End StoreFacts.

(** ** MyResourceReconciler, branch by branch *)

Lemma updateStatus_eq a (r : myv1.MyResource) c (w : controllers.World) :
  client.objects w !! client.ObjectKeyFromObject r = Some r ->
  controllers.updateStatus a r c w =
  let r' := observed (client.now a) r c in
  match client.statusErr a with
  | Some e =>
      (Some (errors.Errorf "failed to update status" e), r',
       client.logged (client.CallStatusUpdate r') w)
  | None =>
      (None, r',
       {| client.objects := <[client.ObjectKeyFromObject r := r']> (client.objects w);
          client.calls := client.calls w ++ [client.CallStatusUpdate r'];
          client.events := client.events w |})
  end.
Proof.
  intros L. unfold controllers.updateStatus. simpl.
  change (client.SetStatus _ _) with (observed (client.now a) r c).
  destruct (client.statusErr a) as [e|] eqn:E.
  - by rewrite (StatusUpdate_failed a w (observed (client.now a) r c) e E).
  - by rewrite (StatusUpdate_ok a w r (observed (client.now a) r c) L eq_refl eq_refl E).
Qed.

Lemma reconcileNormal_eq a h (r : myv1.MyResource) (w : controllers.World) :
  client.objects w !! client.ObjectKeyFromObject r = Some r ->
  controllers.reconcileNormal a h r w =
  let ready := controllers.isReady h in
  let r' := observed (client.now a) r (verdict ready (client.GetGeneration r)) in
  match client.statusErr a with
  | Some e =>
      (ctrl.Result_zero, Some (errors.Errorf "failed to update status" e),
       client.logged (client.CallStatusUpdate r') w)
  | None =>
      (pace ready, None,
       {| client.objects := <[client.ObjectKeyFromObject r := r']> (client.objects w);
          client.calls := client.calls w ++ [client.CallStatusUpdate r'];
          client.events := client.events w ++ [announced ready r] |})
  end.
Proof.
  intros L. unfold controllers.reconcileNormal.
  destruct (controllers.isReady h); simpl;
    rewrite (updateStatus_eq a r _ w L); simpl;
    by destruct (client.statusErr a).
Qed.

Lemma Reconcile_fetch_failed a h req (w : controllers.World) err :
  client.Get a (ctrl.NamespacedName_ req) w = inl err ->
  controllers.Reconcile a h req w
  = (ctrl.Result_zero, if apierrors.IsNotFound err then None else Some err, w).
Proof.
  intros G. unfold controllers.Reconcile. rewrite G.
  by destruct (apierrors.IsNotFound err).
Qed.

Lemma reconcileDelete_eq a h (r : myv1.MyResource) (w : controllers.World) :
  client.objects w !! client.ObjectKeyFromObject r = Some r ->
  controllers.reconcileDelete a h r w =
  if marked r then
    match controllers.cleanupExternalResources h with
    | Some e => (ctrl.Result_zero, Some e, w)
    | None =>
        let r' := controllerutil.RemoveFinalizer r controllers.myFinalizerName in
        match client.updateErr a with
        | Some e => (ctrl.Result_zero, Some e, client.logged (client.CallUpdate r') w)
        | None =>
            (ctrl.Result_zero, None,
             {| client.objects := <[client.ObjectKeyFromObject r := r']> (client.objects w);
                client.calls := client.calls w ++ [client.CallUpdate r'];
                client.events := client.events w ++ [farewell r] |})
        end
    end
  else (ctrl.Result_zero, None, w).
Proof.
  intros L. unfold controllers.reconcileDelete, marked.
  destruct (controllerutil.ContainsFinalizer r controllers.myFinalizerName); [|done].
  destruct (controllers.cleanupExternalResources h); [done|]. simpl.
  destruct (client.updateErr a) as [e|] eqn:E.
  - by rewrite (Update_failed a w _ e E).
  - by rewrite (Update_ok a w r
                  (controllerutil.RemoveFinalizer r controllers.myFinalizerName)
                  L eq_refl eq_refl E).
Qed.

(** The three branches behind a successful fetch. *)
Lemma Reconcile_found a h req (w : controllers.World) (r : myv1.MyResource) :
  client.found a (ctrl.NamespacedName_ req) w r ->
  controllers.Reconcile a h req w =
  if deleting r then controllers.reconcileDelete a h r w
  else if marked r then controllers.reconcileNormal a h r w
  else
    let r' := client.SetFinalizers r
                (client.GetFinalizers r ++ [controllers.myFinalizerName]) in
    match client.updateErr a with
    | Some e => (ctrl.Result_zero, Some e, client.logged (client.CallUpdate r') w)
    | None =>
        ({| ctrl.Requeue := true; ctrl.RequeueAfter := 0 |}, None,
         {| client.objects := <[client.ObjectKeyFromObject r := r']> (client.objects w);
            client.calls := client.calls w ++ [client.CallUpdate r'];
            client.events := client.events w |})
    end.
Proof.
  intros F. destruct (found_inv _ _ _ _ F) as (_ & _ & L). destruct F as [G _].
  unfold controllers.Reconcile, deleting, marked. rewrite G.
  destruct (negb (metav1.IsZero _)); [done|].
  destruct (controllerutil.ContainsFinalizer r controllers.myFinalizerName) eqn:C;
    [done|]. simpl.
  assert (A : controllerutil.AddFinalizer r controllers.myFinalizerName
              = client.SetFinalizers r
                  (client.GetFinalizers r ++ [controllers.myFinalizerName])).
  { unfold controllerutil.AddFinalizer.
    unfold controllerutil.ContainsFinalizer in C. by rewrite C. }
  rewrite A.
  destruct (client.updateErr a) as [e|] eqn:E.
  - by rewrite (Update_failed a w _ e E).
  - by rewrite (Update_ok a w r
                  (client.SetFinalizers r
                     (client.GetFinalizers r ++ [controllers.myFinalizerName]))
                  L eq_refl eq_refl E).
Qed.

(** ** Setting a condition, then looking it up or setting it again *)

Lemma ConditionStatus_eqb_refl s : metav1.ConditionStatus_eqb s s = true.
Proof. by destruct s. Qed.

Lemma Find_insert (l : list metav1.Condition) (t : string) (i : nat)
    (e : metav1.Condition) :
  meta.FindStatusCondition l t = Some i -> metav1.Type_ e = t ->
  meta.FindStatusCondition (<[i := e]> l) t = Some i.
Proof.
  revert i. induction l as [|c l IH]; simpl; intros i F E; [done|].
  destruct (String.eqb_spec (metav1.Type_ c) t) as [Ec|Ec].
  - injection F as <-. simpl. by rewrite E, String.eqb_refl.
  - destruct (meta.FindStatusCondition l t) as [j|] eqn:Fj; simpl in F; [|done].
    injection F as <-. simpl.
    destruct (String.eqb_spec (metav1.Type_ c) t); [done|].
    by rewrite (IH j eq_refl E).
Qed.

Lemma Find_app_new (l : list metav1.Condition) (e : metav1.Condition) :
  meta.FindStatusCondition l (metav1.Type_ e) = None ->
  meta.FindStatusCondition (l ++ [e]) (metav1.Type_ e) = Some (length l).
Proof.
  induction l as [|c l IH]; simpl; intros F.
  - by rewrite String.eqb_refl.
  - destruct (String.eqb_spec (metav1.Type_ c) (metav1.Type_ e)); [done|].
    destruct (meta.FindStatusCondition l (metav1.Type_ e)); [done|].
    by rewrite IH.
Qed.

Lemma stamped_fields now c :
  metav1.Type_ (meta.stamped now c) = metav1.Type_ c
  /\ metav1.Status (meta.stamped now c) = metav1.Status c
  /\ metav1.Reason (meta.stamped now c) = metav1.Reason c
  /\ metav1.Message (meta.stamped now c) = metav1.Message c
  /\ metav1.ObservedGeneration (meta.stamped now c) = metav1.ObservedGeneration c.
Proof. unfold meta.stamped. by case_match. Qed.

Lemma merged_fields now old c :
  metav1.Status (fst (meta.merged now old c)) = metav1.Status c
  /\ metav1.Reason (fst (meta.merged now old c)) = metav1.Reason c
  /\ metav1.Message (fst (meta.merged now old c)) = metav1.Message c
  /\ metav1.ObservedGeneration (fst (meta.merged now old c))
     = metav1.ObservedGeneration c.
Proof. unfold meta.merged. by repeat case_match. Qed.

(** After a set-condition call the condition's type is found, and the entry
    found carries what was set. *)
Lemma Find_after_Set now (l : list metav1.Condition) (c : metav1.Condition) :
  exists i e,
    meta.FindStatusCondition (fst (meta.SetStatusCondition now l c)) (metav1.Type_ c)
    = Some i
    /\ fst (meta.SetStatusCondition now l c) !! i = Some e
    /\ metav1.Type_ e = metav1.Type_ c
    /\ metav1.Status e = metav1.Status c
    /\ metav1.Reason e = metav1.Reason c
    /\ metav1.Message e = metav1.Message c
    /\ metav1.ObservedGeneration e = metav1.ObservedGeneration c.
Proof.
  unfold meta.SetStatusCondition.
  destruct (meta.FindStatusCondition l (metav1.Type_ c)) as [i|] eqn:F.
  - destruct (Find_Some _ _ _ F) as (old & Hi & Ht). rewrite Hi.
    pose proof (merged_Type now old c) as Hm.
    pose proof (merged_fields now old c) as Hf.
    destruct (meta.merged now old c) as [e ch]. simpl in *.
    exists i, e. split; [apply Find_insert; congruence|].
    split; [apply list_lookup_insert_eq; by eapply lookup_lt_Some|].
    split; [congruence | done].
  - simpl. destruct (stamped_fields now c) as (Ht & Hf).
    exists (length l), (meta.stamped now c). split.
    + rewrite <- Ht. apply Find_app_new. by rewrite Ht.
    + split; [|done]. rewrite lookup_app_r by lia.
      by rewrite Nat.sub_diag.
Qed.

(** Setting the same condition a second time changes nothing, whatever the
    clock reads by then. *)
Lemma Set_again now now' (l : list metav1.Condition) (c : metav1.Condition) :
  meta.SetStatusCondition now' (fst (meta.SetStatusCondition now l c)) c
  = (fst (meta.SetStatusCondition now l c), false).
Proof.
  destruct (Find_after_Set now l c) as (i & e & F & L & Ht & Hs & Hr & Hm & Hg).
  set (l' := fst (meta.SetStatusCondition now l c)) in *.
  unfold meta.SetStatusCondition. rewrite F, L.
  assert (M : meta.merged now' e c = (e, false)).
  { unfold meta.merged. rewrite Hs, Hr, Hm, Hg.
    rewrite ConditionStatus_eqb_refl, !String.eqb_refl, Z.eqb_refl. simpl.
    destruct e; simpl in *; by subst. }
  rewrite M. by rewrite list_insert_id.
Qed.

(** ** GuestbookReconciler, branch by branch *)

Section GuestbookFacts.
Context {Spec : Type}.
Implicit Types (w : controller.World Spec) (g : controller.Guestbook Spec).

Lemma Guestbook_fetch_failed a req w err :
  client.Get a (ctrl.NamespacedName_ req) w = inl err ->
  controller.Reconcile Spec a req w
  = (ctrl.Result_zero, if apierrors.IsNotFound err then None else Some err, w).
Proof. intros G. unfold controller.Reconcile. by rewrite G. Qed.

Lemma Guestbook_found a req w g :
  client.found a (ctrl.NamespacedName_ req) w g ->
  controller.Reconcile Spec a req w =
  if current g then (ctrl.Result_zero, None, w)
  else
    let g' := refreshed (client.now a) g in
    match client.statusErr a with
    | Some e =>
        (ctrl.Result_zero, Some e, client.logged (client.CallStatusUpdate g') w)
    | None =>
        (ctrl.Result_zero, None,
         {| client.objects := <[client.ObjectKeyFromObject g := g']> (client.objects w);
            client.calls := client.calls w ++ [client.CallStatusUpdate g'];
            client.events := client.events w |})
    end.
Proof.
  intros F. destruct (found_inv _ _ _ _ F) as (_ & _ & L). destruct F as [G _].
  unfold controller.Reconcile, current. rewrite G. simpl.
  set (conditions := webappv1.Conditions (client.Status_ g)).
  assert (E : match
                match meta.FindStatusCondition conditions "Available" with
                | Some i => conditions !! i
                | None => None
                end
              with
              | Some c =>
                  negb (metav1.ObservedGeneration c =? client.GetGeneration g)
                  || negb (metav1.ConditionStatus_eqb (metav1.Status c)
                             metav1.ConditionTrue)
              | None => true
              end
              = negb
                  match meta.FindStatusCondition conditions "Available" with
                  | Some i =>
                      match conditions !! i with
                      | Some c =>
                          (metav1.ObservedGeneration c =? client.GetGeneration g)
                          && metav1.ConditionStatus_eqb (metav1.Status c)
                               metav1.ConditionTrue
                      | None => false
                      end
                  | None => false
                  end).
  { destruct (meta.FindStatusCondition conditions "Available") as [i|]; [|done].
    destruct (conditions !! i) as [c|]; [|done].
    by rewrite negb_andb. }
  rewrite E. clear E.
  destruct (match meta.FindStatusCondition conditions "Available" with
            | Some i => _ | None => _ end); [done|]. simpl.
  fold conditions. change (client.SetStatus g _) with (refreshed (client.now a) g).
  destruct (client.statusErr a) as [e|] eqn:Es.
  - by rewrite (StatusUpdate_failed a w (refreshed (client.now a) g) e Es).
  - by rewrite (StatusUpdate_ok a w g (refreshed (client.now a) g) L eq_refl eq_refl Es).
Qed.

(** Once the controller has set the condition, its guard holds. *)
Lemma current_refreshed now g : current (refreshed now g) = true.
Proof.
  unfold current, refreshed. simpl.
  destruct (Find_after_Set now (webappv1.Conditions (client.Status_ g))
              (available (client.GetGeneration g)))
    as (i & e & F & L & _ & Hs & _ & _ & Hg).
  simpl in F. rewrite F, L, Hs, Hg. simpl.
  unfold client.GetGeneration. simpl. by rewrite Z.eqb_refl.
Qed.

End GuestbookFacts.

Lemma current_IsTrue {Spec : Type} (g : client.Object Spec webappv1.GuestbookStatus) :
  current g = true ->
  meta.IsStatusConditionTrue (webappv1.Conditions (client.Status_ g)) "Available"
  = true.
Proof.
  unfold current, meta.IsStatusConditionTrue.
  destruct (meta.FindStatusCondition _ "Available") as [i|]; [|done].
  destruct (_ !! i) as [c|]; [|done].
  by intros [_ ?]%andb_prop.
Qed.

(** ** Small facts about the marker and the recorded condition *)

Section MarkerFacts.
Context {Spec Status : Type}.
Implicit Types (r : client.Object Spec Status).

Lemma marked_attached r :
  marked (client.SetFinalizers r
            (client.GetFinalizers r ++ [controllers.myFinalizerName])) = true.
Proof.
  unfold marked, controllerutil.ContainsFinalizer, client.GetFinalizers. simpl.
  rewrite existsb_app. simpl. by rewrite orb_true_r.
Qed.

Lemma marked_released r :
  marked (controllerutil.RemoveFinalizer r controllers.myFinalizerName) = false.
Proof.
  unfold marked, controllerutil.ContainsFinalizer, controllerutil.RemoveFinalizer,
    client.GetFinalizers.
  generalize controllers.myFinalizerName. intros m.
  simpl. apply not_true_is_false. intros H.
  apply existsb_exists in H as (x & Hx & He).
  apply filter_In in Hx as [_ Hx]. apply String.eqb_eq in He. subst x.
  by rewrite String.eqb_refl in Hx.
Qed.

End MarkerFacts.

Lemma IsTrue_after_Set now (l : list metav1.Condition) (c : metav1.Condition) :
  metav1.Status c = metav1.ConditionTrue ->
  meta.IsStatusConditionTrue (fst (meta.SetStatusCondition now l c)) (metav1.Type_ c)
  = true.
Proof.
  intros Hc. unfold meta.IsStatusConditionTrue.
  destruct (Find_after_Set now l c) as (i & e & F & L & _ & Hs & _).
  by rewrite F, L, Hs, Hc.
Qed.

Lemma verdict_Type ready g :
  metav1.Type_ (verdict ready g)
  = if ready then controllers.TypeReady else controllers.TypeDegraded.
Proof. by destruct ready. Qed.

Lemma verdict_Status ready g : metav1.Status (verdict ready g) = metav1.ConditionTrue.
Proof. by destruct ready. Qed.

(** What the status path receives from [updateStatus] has the verdict's
    condition true, the observed generation equal to the generation, and
    metadata and spec as fetched. *)
Lemma observed_facts now (r : myv1.MyResource) ready :
  let r' := observed now r (verdict ready (client.GetGeneration r)) in
  meta.IsStatusConditionTrue (myv1.Conditions (client.Status_ r'))
    (if ready then controllers.TypeReady else controllers.TypeDegraded) = true
  /\ myv1.ObservedGeneration (client.Status_ r') = client.GetGeneration r
  /\ client.ObjectMeta r' = client.ObjectMeta r
  /\ client.Spec_ r' = client.Spec_ r.
Proof.
  simpl. split; [|done].
  rewrite <- (verdict_Type ready (client.GetGeneration r)).
  apply IsTrue_after_Set, verdict_Status.
Qed.

(** ** The claims about fetching and about the finalizer-attach branch *)

(** C5: when the fetch fails with a not-found error, Reconcile returns the
    empty result and no error and leaves the world as it was (no write, no
    event); when it fails with any other error, that error is returned (and
    the world is again as it was).  Both controllers. *)
Theorem fetch_failure_is_surfaced_unless_not_found
    (a : client.Answers) (h : controllers.Hooks) (req : ctrl.Request)
    (w : controllers.World) (err : errors.error)
    (GuestbookSpec : Type) (ga : client.Answers) (greq : ctrl.Request)
    (gw : controller.World GuestbookSpec) (gerr : errors.error) :
  client.Get a (ctrl.NamespacedName_ req) w = inl err ->
  client.Get ga (ctrl.NamespacedName_ greq) gw = inl gerr ->
  controllers.Reconcile a h req w
  = (ctrl.Result_zero, if apierrors.IsNotFound err then None else Some err, w)
  /\ controller.Reconcile GuestbookSpec ga greq gw
     = (ctrl.Result_zero, if apierrors.IsNotFound gerr then None else Some gerr, gw).
Proof.
  intros G Gg. split.
  - by apply Reconcile_fetch_failed.
  - by apply Guestbook_fetch_failed.
Qed.

(** An empty store answers not-found and the template returns success; a
    fetch that times out hands its error back from the Guestbook loop. *)
Lemma fetch_failure_witness :
  controllers.Reconcile demo.calm controllers.scaffold demo.req demo.nothing
  = (ctrl.Result_zero, None, demo.nothing)
  /\ controller.Reconcile string demo.unreachable demo.req demo.nothing
     = (ctrl.Result_zero,
        Some (errors.StatusError errors.StatusReasonTimeout "timeout"),
        demo.nothing).
Proof.
  exact (fetch_failure_is_surfaced_unless_not_found
           demo.calm controllers.scaffold demo.req demo.nothing client.notFound
           string demo.unreachable demo.req demo.nothing
           (errors.StatusError errors.StatusReasonTimeout "timeout")
           eq_refl eq_refl).
Defined.

(** C4: when the resource is found, is not being deleted and lacks the
    finalizer marker, Reconcile appends the marker and sends the resource
    through the main write path; that Update is the only call it issues (no
    status write, no event: no normal reconciliation in that invocation).
    When the store accepts the write, the resource is persisted with the
    marker and the result is "requeue now" with no error; when the store
    refuses it, the store's error is returned and the persisted objects are
    as they were. *)
Theorem finalizer_attached_before_anything_else
    (a : client.Answers) (h : controllers.Hooks) (req : ctrl.Request)
    (w : controllers.World) (r : myv1.MyResource) :
  client.found a (ctrl.NamespacedName_ req) w r ->
  deleting r = false ->
  marked r = false ->
  let r' := client.SetFinalizers r
              (client.GetFinalizers r ++ [controllers.myFinalizerName]) in
  marked r' = true
  /\ client.Status_ r' = client.Status_ r
  /\ client.Spec_ r' = client.Spec_ r
  /\ match client.updateErr a with
     | None =>
         controllers.Reconcile a h req w
         = ({| ctrl.Requeue := true; ctrl.RequeueAfter := 0 |}, None,
            {| client.objects := <[ctrl.NamespacedName_ req := r']> (client.objects w);
               client.calls := client.calls w ++ [client.CallUpdate r'];
               client.events := client.events w |})
     | Some e =>
         controllers.Reconcile a h req w
         = (ctrl.Result_zero, Some e,
            {| client.objects := client.objects w;
               client.calls := client.calls w ++ [client.CallUpdate r'];
               client.events := client.events w |})
     end.
Proof.
  intros F D M r'. split; [apply marked_attached|]. split; [done|]. split; [done|].
  rewrite (Reconcile_found a h req w r F), D, M. simpl.
  destruct F as [_ K]. rewrite K. by destruct (client.updateErr a).
Qed.

(** The freshly created resource, every store call succeeding: one Update,
    the resource persisted with the marker, requeue now. *)
Lemma finalizer_attached_witness :
  client.found demo.calm demo.key (demo.world demo.fresh) demo.fresh
  /\ controllers.Reconcile demo.calm controllers.scaffold demo.req
       (demo.world demo.fresh)
     = ({| ctrl.Requeue := true; ctrl.RequeueAfter := 0 |}, None,
        {| client.objects := <[demo.key := demo.settled]> {[ demo.key := demo.fresh ]};
           client.calls := [client.CallUpdate demo.settled];
           client.events := [] |}).
Proof.
  assert (F : client.found demo.calm demo.key (demo.world demo.fresh) demo.fresh)
    by (split; reflexivity).
  split; [exact F|].
  exact (proj2 (proj2 (proj2 (finalizer_attached_before_anything_else
                                demo.calm controllers.scaffold demo.req
                                (demo.world demo.fresh) demo.fresh
                                F eq_refl eq_refl)))).
Defined.

(** ** The claims about normal reconciliation *)

(** C8: when the resource is found, is not being deleted, carries the
    finalizer and the readiness check succeeds, Reconcile sends a status
    whose Ready condition is True through the status path.  When the store
    accepts it, that status is persisted and the result is a requeue-after
    of exactly 5 minutes (300 * 10^9 nanoseconds) with no error; when the
    store refuses it, the refusal is returned wrapped and the persisted
    objects are as they were. *)
Theorem ready_resource_requeues_after_five_minutes
    (a : client.Answers) (h : controllers.Hooks) (req : ctrl.Request)
    (w : controllers.World) (r : myv1.MyResource) :
  client.found a (ctrl.NamespacedName_ req) w r ->
  deleting r = false ->
  marked r = true ->
  controllers.isReady h = true ->
  exists w' sent,
    client.calls w' = client.calls w ++ [client.CallStatusUpdate sent]
    /\ meta.IsStatusConditionTrue (myv1.Conditions (client.Status_ sent))
         controllers.TypeReady = true
    /\ match client.statusErr a with
       | None =>
           controllers.Reconcile a h req w
           = ({| ctrl.Requeue := false; ctrl.RequeueAfter := 300000000000 |}, None, w')
           /\ ctrl.RequeueAfter
                (controllers.Reconcile a h req w).1.1 = 5 * time.Minute
           /\ client.objects w' !! ctrl.NamespacedName_ req = Some sent
       | Some e =>
           controllers.Reconcile a h req w
           = (ctrl.Result_zero, Some (errors.Errorf "failed to update status" e), w')
           /\ client.objects w' = client.objects w
       end.
Proof.
  intros F D M R.
  destruct (found_inv _ _ _ _ F) as (_ & _ & L).
  rewrite (Reconcile_found a h req w r F), D, M.
  rewrite (reconcileNormal_eq a h r w L), R. simpl.
  pose proof (observed_facts (client.now a) r true) as (T & _).
  destruct F as [_ K].
  set (sent := observed (client.now a) r (verdict true (client.GetGeneration r))) in *.
  destruct (client.statusErr a) as [e|].
  - exists (client.logged (client.CallStatusUpdate sent) w), sent.
    split; [reflexivity|]. split; [exact T|]. by split.
  - exists {| client.objects := <[client.ObjectKeyFromObject r := sent]> (client.objects w);
              client.calls := client.calls w ++ [client.CallStatusUpdate sent];
              client.events := client.events w ++ [announced true r] |}, sent.
    split; [reflexivity|]. split; [exact T|]. split; [reflexivity|].
    split; [reflexivity|].
    simpl. rewrite K. apply lookup_insert_eq.
Qed.

(** The template as shipped on the resource past finalizer attachment. *)
Lemma ready_resource_witness :
  client.found demo.calm demo.key (demo.world demo.settled) demo.settled
  /\ exists w' sent,
       client.calls w' = [client.CallStatusUpdate sent]
       /\ meta.IsStatusConditionTrue (myv1.Conditions (client.Status_ sent))
            controllers.TypeReady = true
       /\ controllers.Reconcile demo.calm controllers.scaffold demo.req
            (demo.world demo.settled)
          = ({| ctrl.Requeue := false; ctrl.RequeueAfter := 300000000000 |}, None, w')
       /\ client.objects w' !! demo.key = Some sent.
Proof.
  assert (F : client.found demo.calm demo.key (demo.world demo.settled) demo.settled)
    by (split; reflexivity).
  destruct (ready_resource_requeues_after_five_minutes
              demo.calm controllers.scaffold demo.req (demo.world demo.settled)
              demo.settled F eq_refl eq_refl eq_refl)
    as (w' & sent & C & T & E & _ & O).
  split; [exact F|]. exists w', sent.
  split; [exact C|]. split; [exact T|]. split; [exact E | exact O].
Defined.

(** C6: in normal reconciliation (resource found, not being deleted,
    finalizer present; Ready and Degraded branch alike) the one status write
    issued carries an observedGeneration equal to the generation of the
    resource as fetched, and so does the condition it sets; when the store
    accepts the write, Reconcile returns no error and the persisted resource
    has status.observedGeneration equal to its generation. *)
Theorem status_write_tracks_generation
    (a : client.Answers) (h : controllers.Hooks) (req : ctrl.Request)
    (w : controllers.World) (r : myv1.MyResource) :
  client.found a (ctrl.NamespacedName_ req) w r ->
  deleting r = false ->
  marked r = true ->
  exists res err w' sent,
    controllers.Reconcile a h req w = (res, err, w')
    /\ client.calls w' = client.calls w ++ [client.CallStatusUpdate sent]
    /\ myv1.ObservedGeneration (client.Status_ sent) = client.GetGeneration r
    /\ client.GetGeneration sent = client.GetGeneration r
    /\ (exists i c,
          meta.FindStatusCondition (myv1.Conditions (client.Status_ sent))
            (if controllers.isReady h then controllers.TypeReady
             else controllers.TypeDegraded) = Some i
          /\ myv1.Conditions (client.Status_ sent) !! i = Some c
          /\ metav1.ObservedGeneration c = client.GetGeneration r)
    /\ (client.statusErr a = None ->
        err = None
        /\ exists r', client.objects w' !! ctrl.NamespacedName_ req = Some r'
             /\ myv1.ObservedGeneration (client.Status_ r') = client.GetGeneration r'
             /\ client.GetGeneration r' = client.GetGeneration r).
Proof.
  intros F D M.
  destruct (found_inv _ _ _ _ F) as (_ & _ & L).
  rewrite (Reconcile_found a h req w r F), D, M.
  rewrite (reconcileNormal_eq a h r w L). simpl.
  set (ready := controllers.isReady h).
  set (sent := observed (client.now a) r (verdict ready (client.GetGeneration r))).
  assert (C : exists i c,
            meta.FindStatusCondition (myv1.Conditions (client.Status_ sent))
              (if ready then controllers.TypeReady else controllers.TypeDegraded)
            = Some i
            /\ myv1.Conditions (client.Status_ sent) !! i = Some c
            /\ metav1.ObservedGeneration c = client.GetGeneration r).
  { destruct (Find_after_Set (client.now a) (myv1.Conditions (client.Status_ r))
                (verdict ready (client.GetGeneration r)))
      as (i & c & Fi & Li & _ & _ & _ & _ & G).
    exists i, c. rewrite <- (verdict_Type ready (client.GetGeneration r)).
    split; [exact Fi|]. split; [exact Li|]. rewrite G. by destruct ready. }
  destruct F as [_ K].
  destruct (client.statusErr a) as [e|]; eexists _, _, _, sent;
    (split; [reflexivity|]); simpl; (split; [reflexivity|]);
    (split; [reflexivity|]); (split; [reflexivity|]); (split; [exact C|]).
  - done.
  - intros _. split; [done|]. exists sent. rewrite K.
    split; [apply lookup_insert_eq | done].
Qed.

(** The resource of generation 3: the status sent and the status persisted
    both observe generation 3. *)
Lemma status_write_tracks_generation_witness :
  client.found demo.calm demo.key (demo.world demo.settled) demo.settled
  /\ exists res w' sent r',
       controllers.Reconcile demo.calm controllers.scaffold demo.req
         (demo.world demo.settled) = (res, None, w')
       /\ client.calls w' = [client.CallStatusUpdate sent]
       /\ myv1.ObservedGeneration (client.Status_ sent) = 3
       /\ client.objects w' !! demo.key = Some r'
       /\ myv1.ObservedGeneration (client.Status_ r') = client.GetGeneration r'.
Proof.
  assert (F : client.found demo.calm demo.key (demo.world demo.settled) demo.settled)
    by (split; reflexivity).
  split; [exact F|].
  destruct (status_write_tracks_generation
              demo.calm controllers.scaffold demo.req (demo.world demo.settled)
              demo.settled F eq_refl eq_refl)
    as (res & err & w' & sent & E & C & G & _ & _ & P).
  destruct (P eq_refl) as (-> & r' & L & O & _).
  exists res, w', sent, r'.
  split; [exact E|]. split; [exact C|]. split; [exact G|].
  split; [exact L | exact O].
Defined.

(** ** The claim about deletion *)




(** A fetch either fails or returns what the store holds under the key. *)
Lemma Get_stored {Spec Status : Type} a key (w : client.World Spec Status)
    (r r0 : client.Object Spec Status) :
  client.objects w !! key = Some r ->
  client.Get a key w = inr r0 -> r0 = r.
Proof.
  intros L G. unfold client.Get in G. destruct (client.getErr a); [done|].
  rewrite L in G. by injection G.
Qed.



(** ** The claim that both loops follow the whole scaffold sequence *)

(** C3, as stated, fails.  [GuestbookReconciler]: on a Guestbook that is
    found, is not being deleted and carries no finalizer, with every store
    call succeeding, Reconcile issues one status write and nothing else; the
    persisted Guestbook still has no finalizer and the result asks for no
    requeue.  [MyResourceReconciler], the template as shipped: on a resource
    that is being deleted and carries no finalizer, Reconcile adds none,
    writes nothing and asks for no requeue. *)
Lemma scaffold_sequence_is_not_followed_everywhere :
  client.found demo.calm demo.key (demo.world (demo.guestbook []))
    (demo.guestbook [])
  /\ deleting (demo.guestbook []) = false
  /\ client.GetFinalizers (demo.guestbook []) = []
  /\ (controller.Reconcile string demo.calm demo.req
        (demo.world (demo.guestbook []))).1
     = (ctrl.Result_zero, None)
  /\ client.GetFinalizers <$>
       (client.objects
          (controller.Reconcile string demo.calm demo.req
             (demo.world (demo.guestbook []))).2 !! demo.key)
     = Some []
  /\ client.calls
       (controller.Reconcile string demo.calm demo.req
          (demo.world (demo.guestbook []))).2
     = [client.CallStatusUpdate
          (demo.guestbook
             [ {| metav1.Type_ := "Available";
                  metav1.Status := metav1.ConditionTrue;
                  metav1.ObservedGeneration := 3;
                  metav1.LastTransitionTime := 1000;
                  metav1.Reason := "Reconciled";
                  metav1.Message := "Guestbook spec reconciled" |} ]) ]
  /\ client.found demo.calm demo.key
       (demo.world (demo.resource (Some 1700) [] []))
       (demo.resource (Some 1700) [] [])
  /\ client.GetFinalizers (demo.resource (Some 1700) [] []) = []
  /\ controllers.Reconcile demo.calm controllers.scaffold demo.req
       (demo.world (demo.resource (Some 1700) [] []))
     = (ctrl.Result_zero, None, demo.world (demo.resource (Some 1700) [] [])).
Proof. vm_compute. repeat split. Qed.

(** Whatever [GuestbookReconciler.Reconcile] does, it returns the empty
    result, and it either leaves the world alone or issues one status
    write. *)
Lemma Guestbook_shape {Spec : Type} a req (w : controller.World Spec) :
  (controller.Reconcile Spec a req w).1.1 = ctrl.Result_zero
  /\ ((controller.Reconcile Spec a req w).2 = w
      \/ exists g,
           client.Get a (ctrl.NamespacedName_ req) w = inr g
           /\ current g = false
           /\ client.calls (controller.Reconcile Spec a req w).2
              = client.calls w ++ [client.CallStatusUpdate (refreshed (client.now a) g)]
           /\ client.events (controller.Reconcile Spec a req w).2 = client.events w
           /\ (client.objects (controller.Reconcile Spec a req w).2 = client.objects w
               \/ exists old,
                    client.objects w !! client.ObjectKeyFromObject g = Some old
                    /\ client.objects (controller.Reconcile Spec a req w).2
                       = <[client.ObjectKeyFromObject g :=
                             client.SetStatus old
                               (client.Status_ (refreshed (client.now a) g))]>
                           (client.objects w))).
Proof.
  unfold controller.Reconcile.
  destruct (client.Get a (ctrl.NamespacedName_ req) w) as [err|g] eqn:G;
    [split; [done | by left]|].
  fold (available (client.GetGeneration g)).
  set (conditions := webappv1.Conditions (client.Status_ g)).
  assert (E : match
                match meta.FindStatusCondition conditions "Available" with
                | Some i => conditions !! i
                | None => None
                end
              with
              | Some c =>
                  negb (metav1.ObservedGeneration c =? client.GetGeneration g)
                  || negb (metav1.ConditionStatus_eqb (metav1.Status c)
                             metav1.ConditionTrue)
              | None => true
              end = negb (current g)).
  { unfold current. fold conditions.
    destruct (meta.FindStatusCondition conditions "Available") as [i|]; [|done].
    destruct (conditions !! i) as [c|]; [|done].
    by rewrite negb_andb. }
  simpl. rewrite E. clear E.
  destruct (current g) eqn:C; simpl; [split; [done | by left]|].
  change (client.SetStatus g _) with (refreshed (client.now a) g).
  unfold client.StatusUpdate. simpl.
  destruct (client.statusErr a) as [e|]; simpl.
  - split; [done|]. right. exists g. repeat split; try done. by left.
  - change (client.ObjectKeyFromObject (refreshed (client.now a) g))
      with (client.ObjectKeyFromObject g).
    destruct (client.objects w !! client.ObjectKeyFromObject g) as [old|] eqn:L;
      simpl.
    + split; [done|]. right. exists g. repeat split; try done.
      right. by exists old.
    + split; [done|]. right. exists g. repeat split; try done. by left.
Qed.

(** Replacing the status of a stored object shows in no reading of the store
    that ignores the status. *)
Lemma lookup_insert_SetStatus {Spec Status A : Type}
    (m : gmap NamespacedName (client.Object Spec Status))
    (kg k : NamespacedName) (old : client.Object Spec Status) (s : Status)
    (f : client.Object Spec Status -> A) :
  m !! kg = Some old ->
  (forall o s', f (client.SetStatus o s') = f o) ->
  f <$> (<[kg := client.SetStatus old s]> m !! k) = f <$> (m !! k).
Proof.
  intros L Hf. destruct (decide (kg = k)) as [<-|Ne].
  - rewrite lookup_insert_eq, L. simpl. by rewrite Hf.
  - by rewrite lookup_insert_ne.
Qed.

(** C3, amended.  [MyResourceReconciler.Reconcile] follows the scaffold
    sequence for a resource that is not being deleted.  Having fetched it,
    it adds the finalizer when absent and sends the resource through the
    main write path; when the store accepts the write, the marked resource
    is persisted and the result asks for an immediate requeue.  When the
    finalizer is present and the readiness check succeeds, it reconciles and
    sends the status, Ready True, through the status path; when the store
    accepts the write, that status is persisted and the result asks for a
    requeue after 5 minutes.  [GuestbookReconciler.Reconcile] follows only
    part of it.  Having fetched the Guestbook, it writes nothing when the
    Available condition is current (True and tagged with the Guestbook's
    generation); otherwise it sends the status with Available True through
    the status path, and when the store accepts the write that status is
    persisted and no error is returned.  It never adds a finalizer (every
    finalizer list of the store stays as it was) and never asks for a
    requeue (the result is the empty one, whatever happens). *)
Theorem scaffold_sequence_of_each_loop
    (a : client.Answers) (h : controllers.Hooks) (req : ctrl.Request)
    (w : controllers.World)
    (GuestbookSpec : Type) (ga : client.Answers) (greq : ctrl.Request)
    (gw : controller.World GuestbookSpec) :
  (forall r,
     client.found a (ctrl.NamespacedName_ req) w r ->
     deleting r = false ->
     marked r = false ->
     exists w' r',
       (controllers.Reconcile a h req w).2 = w'
       /\ client.calls w' = client.calls w ++ [client.CallUpdate r']
       /\ marked r' = true
       /\ client.GetFinalizers r'
          = client.GetFinalizers r ++ [controllers.myFinalizerName]
       /\ client.Spec_ r' = client.Spec_ r
       /\ (client.updateErr a = None ->
           controllers.Reconcile a h req w
           = ({| ctrl.Requeue := true; ctrl.RequeueAfter := 0 |}, None, w')
           /\ client.objects w' !! ctrl.NamespacedName_ req = Some r'))
  /\ (forall r,
        client.found a (ctrl.NamespacedName_ req) w r ->
        deleting r = false ->
        marked r = true ->
        controllers.isReady h = true ->
        exists w' sent,
          (controllers.Reconcile a h req w).2 = w'
          /\ client.calls w' = client.calls w ++ [client.CallStatusUpdate sent]
          /\ meta.IsStatusConditionTrue (myv1.Conditions (client.Status_ sent))
               controllers.TypeReady = true
          /\ client.ObjectMeta sent = client.ObjectMeta r
          /\ client.Spec_ sent = client.Spec_ r
          /\ (client.statusErr a = None ->
              controllers.Reconcile a h req w
              = ({| ctrl.Requeue := false; ctrl.RequeueAfter := 300000000000 |},
                 None, w')
              /\ client.objects w' !! ctrl.NamespacedName_ req = Some sent))
  /\ (controller.Reconcile GuestbookSpec ga greq gw).1.1 = ctrl.Result_zero
  /\ (forall k,
        client.GetFinalizers <$>
          (client.objects (controller.Reconcile GuestbookSpec ga greq gw).2 !! k)
        = client.GetFinalizers <$> (client.objects gw !! k))
  /\ (forall g,
        client.found ga (ctrl.NamespacedName_ greq) gw g ->
        (current g = true ->
         controller.Reconcile GuestbookSpec ga greq gw = (ctrl.Result_zero, None, gw))
        /\ (current g = false ->
            exists gw',
              (controller.Reconcile GuestbookSpec ga greq gw).2 = gw'
              /\ client.calls gw'
                 = client.calls gw
                   ++ [client.CallStatusUpdate (refreshed (client.now ga) g)]
              /\ meta.IsStatusConditionTrue
                   (webappv1.Conditions
                      (client.Status_ (refreshed (client.now ga) g)))
                   "Available" = true
              /\ (client.statusErr ga = None ->
                  controller.Reconcile GuestbookSpec ga greq gw
                  = (ctrl.Result_zero, None, gw')
                  /\ client.objects gw' !! ctrl.NamespacedName_ greq
                     = Some (refreshed (client.now ga) g)))).
Proof.
  split; [|split; [|split; [|split]]].
  - intros r F D M.
    destruct (found_inv _ _ _ _ F) as (_ & _ & L).
    pose proof (Reconcile_found a h req w r F) as E. rewrite D, M in E.
    destruct F as [_ K]. simpl in E.
    exists (controllers.Reconcile a h req w).2,
      (client.SetFinalizers r
         (client.GetFinalizers r ++ [controllers.myFinalizerName])).
    split; [reflexivity|]. rewrite E.
    destruct (client.updateErr a) as [e|]; simpl.
    + split; [reflexivity|]. split; [apply marked_attached|]. by repeat split.
    + split; [reflexivity|]. split; [apply marked_attached|].
      split; [reflexivity|]. split; [reflexivity|]. intros _.
      split; [reflexivity|]. rewrite K. apply lookup_insert_eq.
  - intros r F D M R.
    destruct (found_inv _ _ _ _ F) as (_ & _ & L).
    pose proof (Reconcile_found a h req w r F) as E.
    rewrite D, M, (reconcileNormal_eq a h r w L), R in E. simpl in E.
    destruct F as [_ K].
    pose proof (observed_facts (client.now a) r true) as (T & _).
    exists (controllers.Reconcile a h req w).2,
      (observed (client.now a) r (verdict true (client.GetGeneration r))).
    split; [reflexivity|]. rewrite E.
    destruct (client.statusErr a) as [e|]; simpl.
    + split; [reflexivity|]. split; [exact T|]. by repeat split.
    + split; [reflexivity|]. split; [exact T|].
      split; [reflexivity|]. split; [reflexivity|]. intros _.
      split; [reflexivity|]. rewrite K. apply lookup_insert_eq.
  - apply Guestbook_shape.
  - destruct (Guestbook_shape ga greq gw) as [_ [N | (g & _ & _ & _ & _ & O)]].
    + by rewrite N.
    + intros k. destruct O as [-> | (old & Lo & ->)]; [done|].
      by apply lookup_insert_SetStatus.
  - intros g F.
    pose proof (Guestbook_found ga greq gw g F) as E.
    destruct F as [_ K].
    split; intros C; rewrite C in E; [exact E|].
    exists (controller.Reconcile GuestbookSpec ga greq gw).2.
    split; [reflexivity|]. rewrite E. simpl.
    assert (T : meta.IsStatusConditionTrue
                  (webappv1.Conditions (client.Status_ (refreshed (client.now ga) g)))
                  "Available" = true)
      by (apply current_IsTrue, current_refreshed).
    destruct (client.statusErr ga) as [e|]; simpl.
    + split; [reflexivity|]. split; [exact T | done].
    + split; [reflexivity|]. split; [exact T|]. intros _.
      split; [reflexivity|]. rewrite K. apply lookup_insert_eq.
Qed.

(** The template as shipped on the freshly created resource and on the
    resource past finalizer attachment; the Guestbook loop on a Guestbook
    without conditions. *)
Lemma scaffold_sequence_witness :
  (exists w' r',
     controllers.Reconcile demo.calm controllers.scaffold demo.req
       (demo.world demo.fresh)
     = ({| ctrl.Requeue := true; ctrl.RequeueAfter := 0 |}, None, w')
     /\ client.calls w' = [client.CallUpdate r']
     /\ client.objects w' !! demo.key = Some r'
     /\ marked r' = true)
  /\ (exists w' sent,
        controllers.Reconcile demo.calm controllers.scaffold demo.req
          (demo.world demo.settled)
        = ({| ctrl.Requeue := false; ctrl.RequeueAfter := 300000000000 |}, None, w')
        /\ client.calls w' = [client.CallStatusUpdate sent]
        /\ client.objects w' !! demo.key = Some sent
        /\ meta.IsStatusConditionTrue (myv1.Conditions (client.Status_ sent))
             controllers.TypeReady = true)
  /\ (exists gw',
        controller.Reconcile string demo.calm demo.req
          (demo.world (demo.guestbook []))
        = (ctrl.Result_zero, None, gw')
        /\ client.calls gw'
           = [client.CallStatusUpdate (refreshed 1000 (demo.guestbook []))]
        /\ client.objects gw' !! demo.key
           = Some (refreshed 1000 (demo.guestbook []))).
Proof.
  split; [|split].
  - destruct (proj1 (scaffold_sequence_of_each_loop
                       demo.calm controllers.scaffold demo.req
                       (demo.world demo.fresh)
                       string demo.calm demo.req (demo.world (demo.guestbook [])))
                demo.fresh (conj eq_refl eq_refl) eq_refl eq_refl)
      as (w' & r' & _ & C & M & _ & _ & P).
    destruct (P eq_refl) as (E & O).
    exists w', r'. split; [exact E|]. split; [exact C|]. split; [exact O | exact M].
  - destruct (proj1 (proj2 (scaffold_sequence_of_each_loop
                              demo.calm controllers.scaffold demo.req
                              (demo.world demo.settled)
                              string demo.calm demo.req
                              (demo.world (demo.guestbook []))))
                demo.settled (conj eq_refl eq_refl) eq_refl eq_refl eq_refl)
      as (w' & sent & _ & C & T & _ & _ & P).
    destruct (P eq_refl) as (E & O).
    exists w', sent. split; [exact E|]. split; [exact C|]. split; [exact O | exact T].
  - destruct (proj2 (proj2 (proj2 (proj2
                (scaffold_sequence_of_each_loop
                   demo.calm controllers.scaffold demo.req (demo.world demo.fresh)
                   string demo.calm demo.req (demo.world (demo.guestbook []))))))
                (demo.guestbook []) (conj eq_refl eq_refl))
      as [_ N].
    destruct (N eq_refl) as (gw' & _ & C & _ & P).
    destruct (P eq_refl) as (E & O).
    exists gw'. split; [exact E|]. split; [exact C | exact O].
Defined.

(** ** The frame of a reconcile invocation *)

Section FrameFacts.
Context {Spec Status : Type}.
Implicit Types (o obj : client.Object Spec Status) (w : client.World Spec Status).

Lemma evolves_refl (P : client.Object Spec Status -> client.Object Spec Status -> Prop)
    (m : gmap NamespacedName (client.Object Spec Status)) :
  (forall o, P o o) -> evolves P m m.
Proof. intros R k. by destruct (m !! k). Qed.

Lemma evolves_insert (P : client.Object Spec Status -> client.Object Spec Status -> Prop)
    (m : gmap NamespacedName (client.Object Spec Status)) key o o' :
  (forall o, P o o) -> m !! key = Some o -> P o o' ->
  evolves P m (<[key := o']> m).
Proof.
  intros R L H k. destruct (decide (key = k)) as [<-|Ne].
  - by rewrite lookup_insert_eq, L.
  - rewrite lookup_insert_ne by done. by destruct (m !! k).
Qed.

Lemma same_but_finalizers_refl (m : metav1.ObjectMeta) : same_but_finalizers m m.
Proof. unfold same_but_finalizers. by destruct m. Qed.

Lemma up_to_marker_and_status_refl o : up_to_marker_and_status o o.
Proof.
  split; [done|]. split; [apply same_but_finalizers_refl | by left].
Qed.

Lemma up_to_status_refl o : up_to_status o o.
Proof. done. Qed.

Lemma same_but_finalizers_Set o f :
  same_but_finalizers (client.ObjectMeta o)
    (client.ObjectMeta (client.SetFinalizers o f)).
Proof.
  unfold same_but_finalizers. simpl. by destruct (client.ObjectMeta o).
Qed.

Lemma keyed_Get a key w r :
  client.keyed w -> client.Get a key w = inr r -> client.found a key w r.
Proof.
  intros Kd G. split; [done|]. apply Kd.
  unfold client.Get in G. destruct (client.getErr a); [done|].
  destruct (client.objects w !! key) eqn:L; [|done]. by injection G as ->.
Qed.

End FrameFacts.

Lemma keyed_demo_world {Spec Status : Type} (obj : client.Object Spec Status) :
  client.ObjectKeyFromObject obj = demo.key -> client.keyed (demo.world obj).
Proof.
  intros K k o L. simpl in L.
  apply lookup_singleton_Some in L as [<- <-]. exact K.
Qed.

Lemma MyResource_frame a h req (w : controllers.World) :
  client.keyed w ->
  evolves up_to_marker_and_status (client.objects w)
    (client.objects (controllers.Reconcile a h req w).2)
  /\ exists news,
       client.calls (controllers.Reconcile a h req w).2 = client.calls w ++ news
       /\ Forall (in_lane w) news.
Proof.
  intros Kd.
  assert (Same : evolves up_to_marker_and_status (client.objects w) (client.objects w))
    by (apply evolves_refl, up_to_marker_and_status_refl).
  assert (Quiet : exists news : list (client.Call myv1.MyResourceSpec myv1.MyResourceStatus),
            client.calls w = client.calls w ++ news /\ Forall (in_lane w) news)
    by (exists []; split; [by rewrite app_nil_r | constructor]).
  destruct (client.Get a (ctrl.NamespacedName_ req) w) as [err|r] eqn:G.
  { rewrite (Reconcile_fetch_failed a h req w err G). by split. }
  pose proof (keyed_Get a _ w r Kd G) as F.
  destruct (found_inv _ _ _ _ F) as (_ & _ & L).
  rewrite (Reconcile_found a h req w r F).
  destruct (deleting r) eqn:D.
  - rewrite (reconcileDelete_eq a h r w L).
    destruct (marked r) eqn:M; [|by split].
    destruct (controllers.cleanupExternalResources h); [by split|]. simpl.
    set (r' := controllerutil.RemoveFinalizer r controllers.myFinalizerName).
    assert (Lane : in_lane w (client.CallUpdate r')).
    { exists r. split; [exact L|]. split; [done|]. split; [done|].
      split; [apply same_but_finalizers_Set|]. right. by split. }
    assert (P : up_to_marker_and_status r r').
    { split; [done|]. split; [apply same_but_finalizers_Set|]. right. by right. }
    destruct (client.updateErr a); simpl.
    + split; [exact Same|]. exists [client.CallUpdate r']. split; [done|].
      by constructor.
    + split; [by apply (evolves_insert _ _ _ r r'); [apply up_to_marker_and_status_refl|..]|].
      exists [client.CallUpdate r']. split; [done|]. by constructor.
  - destruct (marked r) eqn:M.
    + rewrite (reconcileNormal_eq a h r w L). simpl.
      set (r' := observed (client.now a) r _).
      assert (Lane : in_lane w (client.CallStatusUpdate r')).
      { exists r. by split. }
      assert (P : up_to_marker_and_status r r').
      { split; [done|]. split; [apply same_but_finalizers_refl | by left]. }
      destruct (client.statusErr a); simpl.
      * split; [exact Same|]. exists [client.CallStatusUpdate r']. split; [done|].
        by constructor.
      * split; [by apply (evolves_insert _ _ _ r r'); [apply up_to_marker_and_status_refl|..]|].
        exists [client.CallStatusUpdate r']. split; [done|]. by constructor.
    + simpl.
      set (r' := client.SetFinalizers r _).
      assert (Lane : in_lane w (client.CallUpdate r')).
      { exists r. split; [exact L|]. split; [done|]. split; [done|].
        split; [apply same_but_finalizers_Set|]. left. by split. }
      assert (P : up_to_marker_and_status r r').
      { split; [done|]. split; [apply same_but_finalizers_Set|]. right. by left. }
      destruct (client.updateErr a); simpl.
      * split; [exact Same|]. exists [client.CallUpdate r']. split; [done|].
        by constructor.
      * split; [by apply (evolves_insert _ _ _ r r'); [apply up_to_marker_and_status_refl|..]|].
        exists [client.CallUpdate r']. split; [done|]. by constructor.
Qed.

Lemma Guestbook_frame {Spec : Type} a req (w : controller.World Spec) :
  client.keyed w ->
  evolves up_to_status (client.objects w)
    (client.objects (controller.Reconcile Spec a req w).2)
  /\ exists news,
       client.calls (controller.Reconcile Spec a req w).2 = client.calls w ++ news
       /\ Forall (status_lane w) news.
Proof.
  intros Kd.
  assert (Same : evolves up_to_status (client.objects w) (client.objects w))
    by (apply evolves_refl, up_to_status_refl).
  destruct (Guestbook_shape a req w) as [_ [-> | (g & G & _ & C & _ & O)]].
  { split; [exact Same|]. exists []. split; [by rewrite app_nil_r | constructor]. }
  pose proof (keyed_Get a _ w g Kd G) as F.
  destruct (found_inv _ _ _ _ F) as (_ & _ & L).
  split.
  - destruct O as [-> | (old & Lo & ->)]; [exact Same|].
    apply (evolves_insert _ _ _ old); [apply up_to_status_refl | exact Lo | done].
  - exists [client.CallStatusUpdate (refreshed (client.now a) g)].
    split; [exact C|]. constructor; [|constructor].
    exists g. by split.
Qed.

(** C10: in a store that holds every object under its own name, a reconcile
    invocation of either controller keeps the set of stored keys and leaves
    the spec of every stored object as it was.  [MyResourceReconciler]
    changes nothing of the metadata but the finalizer list, and of that only
    its own marker; it uses the main write path only to add the marker where
    it was absent or to remove it where it was present, sending the stored
    spec and status along unchanged, and the status path only with the
    stored metadata and spec.  [GuestbookReconciler] leaves metadata and
    spec alone altogether and never uses the main write path. *)
Theorem reconcile_writes_only_marker_and_status
    (a : client.Answers) (h : controllers.Hooks) (req : ctrl.Request)
    (w : controllers.World)
    (GuestbookSpec : Type) (ga : client.Answers) (greq : ctrl.Request)
    (gw : controller.World GuestbookSpec) :
  client.keyed w ->
  client.keyed gw ->
  (evolves up_to_marker_and_status (client.objects w)
     (client.objects (controllers.Reconcile a h req w).2)
   /\ exists news,
        client.calls (controllers.Reconcile a h req w).2 = client.calls w ++ news
        /\ Forall (in_lane w) news)
  /\ (evolves up_to_status (client.objects gw)
        (client.objects (controller.Reconcile GuestbookSpec ga greq gw).2)
      /\ exists news,
           client.calls (controller.Reconcile GuestbookSpec ga greq gw).2
           = client.calls gw ++ news
           /\ Forall (status_lane gw) news).
Proof.
  intros Kd Kg. split.
  - by apply MyResource_frame.
  - by apply Guestbook_frame.
Qed.

(** The deletion of a resource that also carries a foreign finalizer, and a
    Guestbook without conditions. *)
Lemma reconcile_frame_witness :
  client.keyed (demo.world demo.doomed)
  /\ client.keyed (demo.world (demo.guestbook []))
  /\ evolves up_to_marker_and_status (client.objects (demo.world demo.doomed))
       (client.objects
          (controllers.Reconcile demo.calm controllers.scaffold demo.req
             (demo.world demo.doomed)).2)
  /\ evolves up_to_status (client.objects (demo.world (demo.guestbook [])))
       (client.objects
          (controller.Reconcile string demo.calm demo.req
             (demo.world (demo.guestbook []))).2).
Proof.
  assert (Kd : client.keyed (demo.world demo.doomed))
    by (apply keyed_demo_world; reflexivity).
  assert (Kg : client.keyed (demo.world (demo.guestbook [])))
    by (apply keyed_demo_world; reflexivity).
  destruct (reconcile_writes_only_marker_and_status
              demo.calm controllers.scaffold demo.req (demo.world demo.doomed)
              string demo.calm demo.req (demo.world (demo.guestbook []))
              Kd Kg)
    as ((E & _) & (Eg & _)).
  split; [exact Kd|]. split; [exact Kg|]. split; [exact E | exact Eg].
Defined.

(** ** Calling Reconcile twice *)

(** C7, as stated, fails for [MyResourceReconciler].  On a freshly created
    resource the first call attaches the finalizer and the second call goes
    on to write the status: one more write, and a status that differs from
    the one the first call left.  On a resource past finalizer attachment
    the second call leaves the persisted objects as the first call left
    them, yet issues the status write again and records the event again. *)
Lemma second_reconcile_is_not_silent :
  let w1 := (controllers.Reconcile demo.calm controllers.scaffold demo.req
               (demo.world demo.fresh)).2 in
  let w2 := (controllers.Reconcile demo.calm controllers.scaffold demo.req w1).2 in
  let v1 := (controllers.Reconcile demo.calm controllers.scaffold demo.req
               (demo.world demo.settled)).2 in
  let v2 := (controllers.Reconcile demo.calm controllers.scaffold demo.req v1).2 in
  (length (client.calls w1) = 1%nat /\ length (client.calls w2) = 2%nat)
  /\ (myv1.Conditions <$> (client.Status_ <$> client.objects w1 !! demo.key)) = Some []
  /\ (myv1.Conditions <$> (client.Status_ <$> client.objects w2 !! demo.key)) <> Some []
  /\ (length (client.calls v1) = 1%nat /\ length (client.calls v2) = 2%nat)
  /\ (length (client.events v1) = 1%nat /\ length (client.events v2) = 2%nat)
  /\ client.objects v2 !! demo.key = client.objects v1 !! demo.key.
Proof. vm_compute. repeat split; discriminate. Qed.

Lemma observed_again now now' (r : myv1.MyResource) (c : metav1.Condition) :
  observed now' (observed now r c) c = observed now r c.
Proof.
  unfold observed at 1. simpl. rewrite Set_again. reflexivity.
Qed.

(** A resource that is being deleted and does not carry the marker: the
    world stays as it is, and the result is the empty one unless the fetch
    fails. *)
Lemma Reconcile_unmarked_deleting a h req (w : controllers.World)
    (r : myv1.MyResource) :
  client.objects w !! ctrl.NamespacedName_ req = Some r ->
  client.ObjectKeyFromObject r = ctrl.NamespacedName_ req ->
  deleting r = true ->
  marked r = false ->
  (controllers.Reconcile a h req w).2 = w
  /\ (client.getErr a = None ->
      controllers.Reconcile a h req w = (ctrl.Result_zero, None, w)).
Proof.
  intros L K D M.
  assert (L' : client.objects w !! client.ObjectKeyFromObject r = Some r)
    by (by rewrite K).
  assert (E : forall r0, client.Get a (ctrl.NamespacedName_ req) w = inr r0 ->
              controllers.Reconcile a h req w = (ctrl.Result_zero, None, w)).
  { intros r0 G. assert (r0 = r) as -> by exact (Get_stored a _ w r r0 L G).
    rewrite (Reconcile_found a h req w r (conj G K)), D.
    by rewrite (reconcileDelete_eq a h r w L'), M. }
  split.
  - destruct (client.Get a (ctrl.NamespacedName_ req) w) as [err|r0] eqn:G.
    + by rewrite (Reconcile_fetch_failed a h req w err G).
    + by rewrite (E r0 eq_refl).
  - intros Gn. apply (E r). unfold client.Get. by rewrite Gn, L.
Qed.

(** C7, amended.  A second call right after a first call, with nothing
    changed in between, has no side effect at all (no write, no event: the
    world is exactly as the first call left it, the status with it) in these
    states, whatever the surroundings answer the second call: the resource
    is not in the store (either controller); for [MyResourceReconciler], the
    resource is being deleted and either lacks the finalizer or carries it
    and the first call removed it (cleanup succeeded, the store accepted the
    Update); for [GuestbookReconciler], the first call found the Guestbook
    and the store accepted its status write, if it issued one.  In these
    states the second call returns the empty result and no error when its
    fetch succeeds.  For [MyResourceReconciler] in normal reconciliation
    (resource found, not being deleted, finalizer present, first status
    write accepted, the same readiness verdict in both calls), the second
    call leaves the persisted objects, status included, exactly as the first
    call left them; when its fetch succeeds it issues one status write,
    which carries the resource exactly as it is persisted, and when that
    write succeeds too it returns the result of the first call.  After a
    first call that attached the finalizer (resource found, not being
    deleted, finalizer absent, Update accepted), which leaves the status as
    fetched, a second call whose fetch and status write succeed and whose
    readiness check succeeds goes on to normal reconciliation: it issues the
    status write, persists Ready True and asks for a requeue after 5
    minutes.  And in any state, a second call whose fetch fails has no side
    effect. *)
Theorem second_reconcile_changes_nothing_persisted
    (a a' : client.Answers) (h h' : controllers.Hooks) (req : ctrl.Request)
    (w : controllers.World)
    (GuestbookSpec : Type) (ga ga' : client.Answers) (greq : ctrl.Request)
    (gw : controller.World GuestbookSpec) :
  (client.objects w !! ctrl.NamespacedName_ req = None ->
   (controllers.Reconcile a h req w).2 = w
   /\ (controllers.Reconcile a' h' req w).2 = w
   /\ (client.getErr a' = None ->
       controllers.Reconcile a' h' req w = (ctrl.Result_zero, None, w)))
  /\ (client.objects gw !! ctrl.NamespacedName_ greq = None ->
      (controller.Reconcile GuestbookSpec ga greq gw).2 = gw
      /\ (controller.Reconcile GuestbookSpec ga' greq gw).2 = gw
      /\ (client.getErr ga' = None ->
          controller.Reconcile GuestbookSpec ga' greq gw
          = (ctrl.Result_zero, None, gw)))
  /\ (forall r,
        client.found a (ctrl.NamespacedName_ req) w r ->
        deleting r = true ->
        marked r = false
        \/ (marked r = true
            /\ controllers.cleanupExternalResources h = None
            /\ client.updateErr a = None) ->
        exists w1,
          controllers.Reconcile a h req w = (ctrl.Result_zero, None, w1)
          /\ (controllers.Reconcile a' h' req w1).2 = w1
          /\ (client.getErr a' = None ->
              controllers.Reconcile a' h' req w1 = (ctrl.Result_zero, None, w1)))
  /\ (forall g,
        client.found ga (ctrl.NamespacedName_ greq) gw g ->
        client.statusErr ga = None ->
        exists gw1,
          controller.Reconcile GuestbookSpec ga greq gw = (ctrl.Result_zero, None, gw1)
          /\ (controller.Reconcile GuestbookSpec ga' greq gw1).2 = gw1
          /\ (client.getErr ga' = None ->
              controller.Reconcile GuestbookSpec ga' greq gw1
              = (ctrl.Result_zero, None, gw1)))
  /\ (forall r,
        client.found a (ctrl.NamespacedName_ req) w r ->
        deleting r = false ->
        marked r = true ->
        client.statusErr a = None ->
        controllers.isReady h' = controllers.isReady h ->
        exists res w1 r1,
          controllers.Reconcile a h req w = (res, None, w1)
          /\ client.objects w1 !! ctrl.NamespacedName_ req = Some r1
          /\ client.objects (controllers.Reconcile a' h' req w1).2 = client.objects w1
          /\ (client.getErr a' = None ->
              client.calls (controllers.Reconcile a' h' req w1).2
              = client.calls w1 ++ [client.CallStatusUpdate r1]
              /\ (client.statusErr a' = None ->
                  (controllers.Reconcile a' h' req w1).1 = (res, None))))
  /\ (forall r,
        client.found a (ctrl.NamespacedName_ req) w r ->
        deleting r = false ->
        marked r = false ->
        client.updateErr a = None ->
        client.getErr a' = None ->
        client.statusErr a' = None ->
        controllers.isReady h' = true ->
        exists w1 r1 w2 sent,
          controllers.Reconcile a h req w
          = ({| ctrl.Requeue := true; ctrl.RequeueAfter := 0 |}, None, w1)
          /\ client.objects w1 !! ctrl.NamespacedName_ req = Some r1
          /\ client.Status_ r1 = client.Status_ r
          /\ controllers.Reconcile a' h' req w1
             = ({| ctrl.Requeue := false; ctrl.RequeueAfter := 300000000000 |},
                None, w2)
          /\ client.calls w2 = client.calls w1 ++ [client.CallStatusUpdate sent]
          /\ client.objects w2 !! ctrl.NamespacedName_ req = Some sent
          /\ meta.IsStatusConditionTrue (myv1.Conditions (client.Status_ sent))
               controllers.TypeReady = true)
  /\ (forall w1 e,
        client.getErr a' = Some e ->
        (controllers.Reconcile a' h' req w1).2 = w1)
  /\ (forall gw1 e,
        client.getErr ga' = Some e ->
        (controller.Reconcile GuestbookSpec ga' greq gw1).2 = gw1).
Proof.
  split; [|split; [|split; [|split; [|split; [|split; [|split]]]]]].
  - intros L.
    assert (E : forall a0 h0,
              controllers.Reconcile a0 h0 req w
              = (ctrl.Result_zero,
                 match client.getErr a0 with Some e =>
                   if apierrors.IsNotFound e then None else Some e
                 | None => None end, w)).
    { intros a0 h0. unfold controllers.Reconcile, client.Get. rewrite L.
      destruct (client.getErr a0) as [e|]; [|done].
      by destruct (apierrors.IsNotFound e). }
    split; [by rewrite E|]. split; [by rewrite E|].
    intros Gn. by rewrite E, Gn.
  - intros L.
    assert (E : forall a0,
              controller.Reconcile GuestbookSpec a0 greq gw
              = (ctrl.Result_zero,
                 match client.getErr a0 with Some e =>
                   if apierrors.IsNotFound e then None else Some e
                 | None => None end, gw)).
    { intros a0. unfold controller.Reconcile, client.Get. rewrite L.
      by destruct (client.getErr a0). }
    split; [by rewrite E|]. split; [by rewrite E|].
    intros Gn. by rewrite E, Gn.
  - intros r F D Cases.
    destruct (found_inv _ _ _ _ F) as (_ & L0 & L).
    pose proof (Reconcile_found a h req w r F) as E. rewrite D in E.
    rewrite (reconcileDelete_eq a h r w L) in E.
    destruct F as [_ K].
    destruct Cases as [M | (M & C & U)]; rewrite M in E.
    + exists w. split; [exact E|].
      exact (Reconcile_unmarked_deleting a' h' req w r L0 K D M).
    + rewrite C in E. simpl in E. rewrite U in E.
      eexists. split; [exact E|].
      apply (Reconcile_unmarked_deleting a' h' req _
               (controllerutil.RemoveFinalizer r controllers.myFinalizerName)).
      * simpl. rewrite K. apply lookup_insert_eq.
      * exact K.
      * exact D.
      * apply marked_released.
  - intros g Fg Sg.
    destruct (found_inv _ _ _ _ Fg) as (_ & _ & L). destruct Fg as [Gt K].
    pose proof (Guestbook_found ga greq gw g (conj Gt K)) as E.
    destruct (current g) eqn:C.
    + exists gw. split; [exact E|].
      assert (E' : forall err, client.Get ga' (ctrl.NamespacedName_ greq) gw = inl err ->
                   (controller.Reconcile GuestbookSpec ga' greq gw).2 = gw)
        by (intros err Ge; by rewrite (Guestbook_fetch_failed ga' greq gw err Ge)).
      assert (E'' : client.getErr ga' = None ->
                    controller.Reconcile GuestbookSpec ga' greq gw
                    = (ctrl.Result_zero, None, gw)).
      { intros Gn. rewrite (Guestbook_found ga' greq gw g), C; [done|].
        rewrite <- K. apply found_intro; [done | exact L]. }
      split; [|exact E''].
      destruct (client.getErr ga') as [e|] eqn:Gn.
      * apply (E' e). unfold client.Get. by rewrite Gn.
      * by rewrite E''.
    + simpl in E. rewrite Sg in E.
      set (g1 := refreshed (client.now ga) g) in *.
      set (gw1 := {| client.objects := <[client.ObjectKeyFromObject g := g1]> (client.objects gw);
                     client.calls := client.calls gw ++ [client.CallStatusUpdate g1];
                     client.events := client.events gw |}) in *.
      exists gw1. split; [exact E|].
      assert (E'' : client.getErr ga' = None ->
                    controller.Reconcile GuestbookSpec ga' greq gw1
                    = (ctrl.Result_zero, None, gw1)).
      { intros Gn. rewrite (Guestbook_found ga' greq gw1 g1).
        - unfold g1. by rewrite current_refreshed.
        - rewrite <- K. apply (found_intro ga' gw1 g1 Gn). apply lookup_insert_eq. }
      split; [|exact E''].
      destruct (client.getErr ga') as [e|] eqn:Gn.
      * rewrite (Guestbook_fetch_failed ga' greq gw1 e); [done|].
        unfold client.Get. by rewrite Gn.
      * by rewrite E''.
  - intros r F D M S R.
    destruct (found_inv _ _ _ _ F) as (_ & _ & L). destruct F as [Gt K].
    pose proof (Reconcile_found a h req w r (conj Gt K)) as E.
    rewrite D, M, (reconcileNormal_eq a h r w L) in E. simpl in E. rewrite S in E.
    set (ready := controllers.isReady h) in *.
    set (r1 := observed (client.now a) r (verdict ready (client.GetGeneration r))) in *.
    set (w1 := {| client.objects := <[client.ObjectKeyFromObject r := r1]> (client.objects w);
                  client.calls := client.calls w ++ [client.CallStatusUpdate r1];
                  client.events := client.events w ++ [announced ready r] |}) in *.
    assert (L1 : client.objects w1 !! client.ObjectKeyFromObject r1 = Some r1)
      by apply lookup_insert_eq.
    exists (pace ready), w1, r1. split; [exact E|].
    split; [rewrite <- K; exact L1|].
    destruct (client.getErr a') as [e|] eqn:Gn.
    { rewrite (Reconcile_fetch_failed a' h' req w1 e);
        [done | unfold client.Get; by rewrite Gn]. }
    assert (F1 : client.found a' (ctrl.NamespacedName_ req) w1 r1).
    { rewrite <- K. by apply (found_intro a' w1 r1). }
    pose proof (Reconcile_found a' h' req w1 r1 F1) as E1.
    change (deleting r1) with (deleting r) in E1.
    change (marked r1) with (marked r) in E1.
    rewrite D, M, (reconcileNormal_eq a' h' r1 w1 L1) in E1. simpl in E1.
    rewrite R in E1. fold ready in E1.
    change (client.GetGeneration r1) with (client.GetGeneration r) in E1.
    assert (Again : observed (client.now a') r1
                      (verdict ready (client.GetGeneration r)) = r1)
      by apply observed_again.
    rewrite Again in E1. rewrite E1.
    destruct (client.statusErr a') as [e|]; simpl.
    + split; [done|]. intros _. split; [done|]. intros ?. done.
    + split; [apply insert_insert_eq|]. intros _. split; [done|]. by intros _.
  - intros r F D M U G' S' R.
    destruct (found_inv _ _ _ _ F) as (_ & _ & L). destruct F as [Gt K].
    pose proof (Reconcile_found a h req w r (conj Gt K)) as E.
    rewrite D, M in E. simpl in E. rewrite U in E.
    set (r1 := client.SetFinalizers r
                 (client.GetFinalizers r ++ [controllers.myFinalizerName])) in *.
    set (w1 := {| client.objects := <[client.ObjectKeyFromObject r := r1]> (client.objects w);
                  client.calls := client.calls w ++ [client.CallUpdate r1];
                  client.events := client.events w |}) in *.
    assert (L1 : client.objects w1 !! client.ObjectKeyFromObject r1 = Some r1)
      by apply lookup_insert_eq.
    assert (F1 : client.found a' (ctrl.NamespacedName_ req) w1 r1).
    { rewrite <- K. by apply (found_intro a' w1 r1). }
    pose proof (Reconcile_found a' h' req w1 r1 F1) as E1.
    change (deleting r1) with (deleting r) in E1.
    pose proof (marked_attached r) as M1. fold r1 in M1.
    rewrite D, M1, (reconcileNormal_eq a' h' r1 w1 L1) in E1.
    simpl in E1. rewrite S', R in E1.
    pose proof (observed_facts (client.now a') r1 true) as (T & _).
    eexists w1, r1, _, _. split; [exact E|].
    split; [rewrite <- K; exact L1|]. split; [reflexivity|].
    split; [exact E1|]. split; [reflexivity|].
    split; [simpl; rewrite <- K; apply lookup_insert_eq | exact T].
  - intros w1 e Gn.
    rewrite (Reconcile_fetch_failed a' h' req w1 e);
      [done | unfold client.Get; by rewrite Gn].
  - intros gw1 e Gn.
    rewrite (Guestbook_fetch_failed ga' greq gw1 e);
      [done | unfold client.Get; by rewrite Gn].
Qed.

(** The template as shipped: two calls in a row on the resource past
    finalizer attachment, on the resource that is being deleted, on the
    freshly created resource and on an empty store; and two calls of the
    Guestbook loop. *)
Lemma second_reconcile_witness :
  (exists res w1,
     controllers.Reconcile demo.calm controllers.scaffold demo.req
       (demo.world demo.settled) = (res, None, w1)
     /\ client.objects
          (controllers.Reconcile demo.calm controllers.scaffold demo.req w1).2
        = client.objects w1
     /\ (controllers.Reconcile demo.calm controllers.scaffold demo.req w1).1
        = (res, None))
  /\ (exists w1,
        controllers.Reconcile demo.calm controllers.scaffold demo.req
          (demo.world demo.doomed) = (ctrl.Result_zero, None, w1)
        /\ controllers.Reconcile demo.calm controllers.scaffold demo.req w1
           = (ctrl.Result_zero, None, w1))
  /\ (exists w1 w2 sent,
        controllers.Reconcile demo.calm controllers.scaffold demo.req
          (demo.world demo.fresh)
        = ({| ctrl.Requeue := true; ctrl.RequeueAfter := 0 |}, None, w1)
        /\ controllers.Reconcile demo.calm controllers.scaffold demo.req w1
           = ({| ctrl.Requeue := false; ctrl.RequeueAfter := 300000000000 |},
              None, w2)
        /\ client.calls w2 = client.calls w1 ++ [client.CallStatusUpdate sent])
  /\ controllers.Reconcile demo.calm controllers.scaffold demo.req demo.nothing
     = (ctrl.Result_zero, None, demo.nothing)
  /\ (exists gw1,
        controller.Reconcile string demo.calm demo.req
          (demo.world (demo.guestbook [])) = (ctrl.Result_zero, None, gw1)
        /\ controller.Reconcile string demo.calm demo.req gw1
           = (ctrl.Result_zero, None, gw1))
  /\ (exists w1,
        controllers.Reconcile demo.calm controllers.scaffold demo.req
          (demo.world (demo.resource (Some 1700) [] []))
        = (ctrl.Result_zero, None, w1)
        /\ controllers.Reconcile demo.calm controllers.scaffold demo.req w1
           = (ctrl.Result_zero, None, w1)).
Proof.
  pose (T := fun w => second_reconcile_changes_nothing_persisted
                        demo.calm demo.calm controllers.scaffold controllers.scaffold
                        demo.req w string demo.calm demo.calm demo.req
                        (demo.world (demo.guestbook []))).
  split; [|split; [|split; [|split; [|split]]]].
  - destruct (T (demo.world demo.settled)) as (_ & _ & _ & _ & N & _).
    destruct (N demo.settled (conj eq_refl eq_refl) eq_refl eq_refl eq_refl eq_refl)
      as (res & w1 & r1 & E & _ & O & P).
    destruct (P eq_refl) as (_ & Q).
    exists res, w1. split; [exact E|]. split; [exact O | exact (Q eq_refl)].
  - destruct (T (demo.world demo.doomed)) as (_ & _ & Dl & _).
    destruct (Dl demo.doomed (conj eq_refl eq_refl) eq_refl
                (or_intror (conj eq_refl (conj eq_refl eq_refl))))
      as (w1 & E & _ & Q).
    exists w1. split; [exact E | exact (Q eq_refl)].
  - destruct (T (demo.world demo.fresh)) as (_ & _ & _ & _ & _ & At & _).
    destruct (At demo.fresh (conj eq_refl eq_refl) eq_refl eq_refl eq_refl
                eq_refl eq_refl eq_refl)
      as (w1 & r1 & w2 & sent & E & _ & _ & E2 & C & _).
    exists w1, w2, sent. split; [exact E|]. split; [exact E2 | exact C].
  - destruct (T demo.nothing) as (Ab & _).
    destruct (Ab eq_refl) as (_ & _ & Q). exact (Q eq_refl).
  - destruct (T (demo.world demo.settled)) as (_ & _ & _ & Gb & _).
    destruct (Gb (demo.guestbook []) (conj eq_refl eq_refl) eq_refl)
      as (gw1 & E & _ & Q).
    exists gw1. split; [exact E | exact (Q eq_refl)].
  - destruct (T (demo.world (demo.resource (Some 1700) [] [])))
      as (_ & _ & Dl & _).
    destruct (Dl (demo.resource (Some 1700) [] []) (conj eq_refl eq_refl) eq_refl
                (or_introl eq_refl))
      as (w1 & E & _ & Q).
    exists w1. split; [exact E | exact (Q eq_refl)].
Defined.


(** * Further properties of the two controllers *)

(** ** What one invocation of [MyResourceReconciler] can do at all *)

(** Every way [MyResourceReconciler.Reconcile] can end, with no assumption on
    the store: nothing done; one write refused; the marker attached; the
    status written; the marker removed. *)
Lemma MyResource_outcomes a h req (w : controllers.World) :
  (exists err,
     controllers.Reconcile a h req w = (ctrl.Result_zero, err, w))
  \/ (exists e c,
        controllers.Reconcile a h req w
        = (ctrl.Result_zero, Some e, client.logged c w))
  \/ (exists k obj sent,
        controllers.Reconcile a h req w
        = ({| ctrl.Requeue := true; ctrl.RequeueAfter := 0 |}, None,
           client.stored k obj (client.logged (client.CallUpdate sent) w)))
  \/ (exists k obj sent ev,
        controllers.Reconcile a h req w
        = (pace (controllers.isReady h), None,
           {| client.objects := <[k := obj]> (client.objects w);
              client.calls := client.calls w ++ [client.CallStatusUpdate sent];
              client.events := client.events w ++ [ev] |}))
  \/ (exists k obj sent ev,
        controllers.Reconcile a h req w
        = (ctrl.Result_zero, None,
           {| client.objects := <[k := obj]> (client.objects w);
              client.calls := client.calls w ++ [client.CallUpdate sent];
              client.events := client.events w ++ [ev] |})).
Proof.
  unfold controllers.Reconcile.
  destruct (client.Get a (ctrl.NamespacedName_ req) w) as [err|r].
  { left. destruct (apierrors.IsNotFound err); by eexists. }
  destruct (negb (metav1.IsZero _)).
  - unfold controllers.reconcileDelete.
    destruct (controllerutil.ContainsFinalizer r controllers.myFinalizerName);
      [|left; by eexists].
    destruct (controllers.cleanupExternalResources h); [left; by eexists|].
    unfold client.Update. simpl.
    destruct (client.updateErr a); [right; left; by eexists _, _|].
    destruct (client.objects w !! _); [|right; left; by eexists _, _].
    do 4 right. by eexists _, _, _, _.
  - destruct (negb (controllerutil.ContainsFinalizer r controllers.myFinalizerName)).
    + unfold client.Update. simpl.
      destruct (client.updateErr a); [right; left; by eexists _, _|].
      destruct (client.objects w !! _); [|right; left; by eexists _, _].
      do 2 right. left. by eexists _, _, _.
    + unfold controllers.reconcileNormal, controllers.updateStatus,
        client.StatusUpdate.
      destruct (controllers.isReady h); simpl;
        (destruct (client.statusErr a); [right; left; by eexists _, _|]);
        (destruct (client.objects w !! _); [|right; left; by eexists _, _]);
        do 3 right; left; by eexists _, _, _, _.
Qed.

(** X1: an invocation of [MyResourceReconciler.Reconcile] that returns an
    error returns the empty result with it, persists nothing and records no
    event, whichever step failed. *)
Theorem failed_invocation_persists_nothing
    (a : client.Answers) (h : controllers.Hooks) (req : ctrl.Request)
    (w : controllers.World) (e : errors.error) :
  (controllers.Reconcile a h req w).1.2 = Some e ->
  (controllers.Reconcile a h req w).1.1 = ctrl.Result_zero
  /\ client.objects (controllers.Reconcile a h req w).2 = client.objects w
  /\ client.events (controllers.Reconcile a h req w).2 = client.events w.
Proof.
  destruct (MyResource_outcomes a h req w)
    as [(err & ->) | [(e' & c & ->) | [(k & obj & sent & ->)
       | [(k & obj & sent & ev & ->) | (k & obj & sent & ev & ->)]]]];
    simpl; by intros.
Qed.

(** A store that is down for writes, on the freshly created resource. *)
Lemma failed_invocation_witness :
  (controllers.Reconcile
     {| client.now := 1000; client.getErr := None;
        client.updateErr := Some (errors.StatusError errors.StatusReasonConflict "conflict");
        client.statusErr := None |}
     controllers.scaffold demo.req (demo.world demo.fresh)).1.2
  = Some (errors.StatusError errors.StatusReasonConflict "conflict")
  /\ client.objects
       (controllers.Reconcile
          {| client.now := 1000; client.getErr := None;
             client.updateErr := Some (errors.StatusError errors.StatusReasonConflict "conflict");
             client.statusErr := None |}
          controllers.scaffold demo.req (demo.world demo.fresh)).2
     = client.objects (demo.world demo.fresh).
Proof.
  split; [reflexivity|].
  exact (proj1 (proj2 (failed_invocation_persists_nothing
                         {| client.now := 1000; client.getErr := None;
                            client.updateErr :=
                              Some (errors.StatusError errors.StatusReasonConflict "conflict");
                            client.statusErr := None |}
                         controllers.scaffold demo.req (demo.world demo.fresh)
                         (errors.StatusError errors.StatusReasonConflict "conflict")
                         eq_refl))).
Defined.

(** X2: one invocation of [MyResourceReconciler.Reconcile] issues at most one
    write to the store and records at most one event; it changes the
    persisted objects only if it issued a write, and it records an event
    only if it issued a write and returns no error. *)
Theorem at_most_one_write_and_one_event
    (a : client.Answers) (h : controllers.Hooks) (req : ctrl.Request)
    (w : controllers.World) :
  (client.calls (controllers.Reconcile a h req w).2 = client.calls w
   /\ client.objects (controllers.Reconcile a h req w).2 = client.objects w
   /\ client.events (controllers.Reconcile a h req w).2 = client.events w)
  \/ (exists c,
        client.calls (controllers.Reconcile a h req w).2 = client.calls w ++ [c]
        /\ (client.events (controllers.Reconcile a h req w).2 = client.events w
            \/ exists ev,
                 client.events (controllers.Reconcile a h req w).2
                 = client.events w ++ [ev]
                 /\ (controllers.Reconcile a h req w).1.2 = None)).
Proof.
  destruct (MyResource_outcomes a h req w)
    as [(err & ->) | [(e' & c & ->) | [(k & obj & sent & ->)
       | [(k & obj & sent & ev & ->) | (k & obj & sent & ev & ->)]]]];
    simpl.
  - by left.
  - right. exists c. split; [done | by left].
  - right. eexists. split; [done | by left].
  - right. eexists. split; [done|]. right. by exists ev.
  - right. eexists. split; [done|]. right. by exists ev.
Qed.

(** X3: the result of [MyResourceReconciler.Reconcile] is one of four: the
    empty result, "requeue now" (with no delay), a delay of 30 seconds, a
    delay of 5 minutes; and "requeue now" or a delay only comes with no
    error. *)
Theorem result_is_one_of_four
    (a : client.Answers) (h : controllers.Hooks) (req : ctrl.Request)
    (w : controllers.World) :
  (controllers.Reconcile a h req w).1.1 = ctrl.Result_zero
  \/ ((controllers.Reconcile a h req w).1.2 = None
      /\ ((controllers.Reconcile a h req w).1.1
          = {| ctrl.Requeue := true; ctrl.RequeueAfter := 0 |}
          \/ (controllers.Reconcile a h req w).1.1
             = {| ctrl.Requeue := false; ctrl.RequeueAfter := 30000000000 |}
          \/ (controllers.Reconcile a h req w).1.1
             = {| ctrl.Requeue := false; ctrl.RequeueAfter := 300000000000 |})).
Proof.
  destruct (MyResource_outcomes a h req w)
    as [(err & ->) | [(e' & c & ->) | [(k & obj & sent & ->)
       | [(k & obj & sent & ev & ->) | (k & obj & sent & ev & ->)]]]];
    simpl; try by left.
  - right. split; [done | by left].
  - right. split; [done|]. right. destruct (controllers.isReady h); [by right | by left].
Qed.

(** ** The deletion branch *)

(** X4: a resource that is being deleted and does not carry the marker is
    left alone: Reconcile returns the empty result and no error and the
    world is as it was, whatever the readiness check, the cleanup or the
    write paths of the store would have answered. *)
Theorem deletion_without_marker_is_left_alone
    (a : client.Answers) (h : controllers.Hooks) (req : ctrl.Request)
    (w : controllers.World) (r : myv1.MyResource) :
  client.Get a (ctrl.NamespacedName_ req) w = inr r ->
  deleting r = true ->
  marked r = false ->
  controllers.Reconcile a h req w = (ctrl.Result_zero, None, w).
Proof.
  intros G D M. unfold controllers.Reconcile. rewrite G.
  unfold deleting in D. rewrite D.
  unfold controllers.reconcileDelete. unfold marked in M. by rewrite M.
Qed.

(** A deleted resource that only carries a foreign finalizer, with a store
    that would refuse every write. *)
Lemma deletion_without_marker_witness :
  controllers.Reconcile
    {| client.now := 1000; client.getErr := None;
       client.updateErr := Some (errors.New "down");
       client.statusErr := Some (errors.New "down") |}
    controllers.scaffold demo.req
    (demo.world (demo.resource (Some 1700) ["other/finalizer"] []))
  = (ctrl.Result_zero, None,
     demo.world (demo.resource (Some 1700) ["other/finalizer"] [])).
Proof.
  exact (deletion_without_marker_is_left_alone
           {| client.now := 1000; client.getErr := None;
              client.updateErr := Some (errors.New "down");
              client.statusErr := Some (errors.New "down") |}
           controllers.scaffold demo.req
           (demo.world (demo.resource (Some 1700) ["other/finalizer"] []))
           (demo.resource (Some 1700) ["other/finalizer"] [])
           eq_refl eq_refl eq_refl).
Defined.

(** X5: when the cleanup has succeeded but the store refuses the write that
    removes the marker, Reconcile returns the store's error as it is; the
    persisted resource still carries the marker and no "Deleted" event is
    recorded, so the next invocation runs the cleanup again. *)
Theorem refused_finalizer_removal_keeps_marker
    (a : client.Answers) (h : controllers.Hooks) (req : ctrl.Request)
    (w : controllers.World) (r : myv1.MyResource) (e : errors.error) :
  client.found a (ctrl.NamespacedName_ req) w r ->
  deleting r = true ->
  marked r = true ->
  controllers.cleanupExternalResources h = None ->
  client.updateErr a = Some e ->
  controllers.Reconcile a h req w
  = (ctrl.Result_zero, Some e,
     {| client.objects := client.objects w;
        client.calls :=
          client.calls w
          ++ [client.CallUpdate
                (controllerutil.RemoveFinalizer r controllers.myFinalizerName)];
        client.events := client.events w |})
  /\ client.objects w !! ctrl.NamespacedName_ req = Some r.
Proof.
  intros F D M C U.
  destruct (found_inv _ _ _ _ F) as (_ & L0 & L).
  rewrite (Reconcile_found a h req w r F), D.
  rewrite (reconcileDelete_eq a h r w L), M, C. simpl. by rewrite U.
Qed.

(** The deleted resource, a cleanup that succeeds, a store that answers
    "conflict" to the write. *)
Lemma refused_finalizer_removal_witness :
  client.found
    {| client.now := 1000; client.getErr := None;
       client.updateErr := Some (errors.StatusError errors.StatusReasonConflict "conflict");
       client.statusErr := None |}
    demo.key (demo.world demo.doomed) demo.doomed
  /\ (controllers.Reconcile
        {| client.now := 1000; client.getErr := None;
           client.updateErr := Some (errors.StatusError errors.StatusReasonConflict "conflict");
           client.statusErr := None |}
        controllers.scaffold demo.req (demo.world demo.doomed)).1
     = (ctrl.Result_zero,
        Some (errors.StatusError errors.StatusReasonConflict "conflict")).
Proof.
  assert (F : client.found
                {| client.now := 1000; client.getErr := None;
                   client.updateErr :=
                     Some (errors.StatusError errors.StatusReasonConflict "conflict");
                   client.statusErr := None |}
                demo.key (demo.world demo.doomed) demo.doomed)
    by (split; reflexivity).
  split; [exact F|].
  exact (f_equal fst
           (proj1 (refused_finalizer_removal_keeps_marker
                     {| client.now := 1000; client.getErr := None;
                        client.updateErr :=
                          Some (errors.StatusError errors.StatusReasonConflict "conflict");
                        client.statusErr := None |}
                     controllers.scaffold demo.req (demo.world demo.doomed)
                     demo.doomed
                     (errors.StatusError errors.StatusReasonConflict "conflict")
                     F eq_refl eq_refl eq_refl eq_refl))).
Defined.

(** X6: while the deletion timestamp is set, Reconcile never writes the
    status and never attaches the marker, whatever the readiness check would
    say: the persisted resource keeps its status and spec, its finalizers
    are the ones it had or those without the marker, and the only write that
    may be issued is the Update that removes the marker. *)
Theorem deleting_resource_gets_no_status_write
    (a : client.Answers) (h : controllers.Hooks) (req : ctrl.Request)
    (w : controllers.World) (r : myv1.MyResource) :
  client.found a (ctrl.NamespacedName_ req) w r ->
  deleting r = true ->
  (client.calls (controllers.Reconcile a h req w).2 = client.calls w
   \/ client.calls (controllers.Reconcile a h req w).2
      = client.calls w
        ++ [client.CallUpdate
              (controllerutil.RemoveFinalizer r controllers.myFinalizerName)])
  /\ exists r',
       client.objects (controllers.Reconcile a h req w).2
         !! ctrl.NamespacedName_ req = Some r'
       /\ client.Status_ r' = client.Status_ r
       /\ client.Spec_ r' = client.Spec_ r
       /\ (r' = r
           \/ r' = controllerutil.RemoveFinalizer r controllers.myFinalizerName).
Proof.
  intros F D.
  destruct (found_inv _ _ _ _ F) as (_ & L0 & L).
  rewrite (Reconcile_found a h req w r F), D.
  rewrite (reconcileDelete_eq a h r w L).
  destruct F as [_ K].
  destruct (marked r); [|split; [by left | exists r; by repeat split; try left]].
  destruct (controllers.cleanupExternalResources h);
    [split; [by left | exists r; by repeat split; try left]|].
  simpl. destruct (client.updateErr a); simpl.
  - split; [by right|]. exists r. by repeat split; try left.
  - split; [by right|]. eexists. rewrite K, lookup_insert_eq.
    split; [reflexivity|]. split; [done|]. split; [done | by right].
Qed.

(** The deleted resource and the template as shipped: the marker is removed
    and the status is the one it had. *)
Lemma deleting_resource_witness :
  client.found demo.calm demo.key (demo.world demo.doomed) demo.doomed
  /\ exists r',
       client.objects
         (controllers.Reconcile demo.calm controllers.scaffold demo.req
            (demo.world demo.doomed)).2 !! demo.key = Some r'
       /\ client.Status_ r' = client.Status_ demo.doomed.
Proof.
  assert (F : client.found demo.calm demo.key (demo.world demo.doomed) demo.doomed)
    by (split; reflexivity).
  split; [exact F|].
  destruct (deleting_resource_gets_no_status_write
              demo.calm controllers.scaffold demo.req (demo.world demo.doomed)
              demo.doomed F eq_refl)
    as (_ & r' & L & S & _).
  exists r'. split; [exact L | exact S].
Defined.

(** ** From creation to the steady state *)

(** X7: a resource that is found without the marker and is not being deleted
    reaches the reconciled state in two invocations, when the store accepts
    the two writes: the first returns "requeue now", the second returns the
    delay of the readiness verdict; afterwards the persisted resource
    carries the marker, its verdict condition is True, its observed
    generation is its generation, its spec is the one it had, and exactly
    two writes were issued. *)
Theorem fresh_resource_converges_in_two_calls
    (a1 a2 : client.Answers) (h1 h2 : controllers.Hooks) (req : ctrl.Request)
    (w : controllers.World) (r : myv1.MyResource) :
  client.found a1 (ctrl.NamespacedName_ req) w r ->
  deleting r = false ->
  marked r = false ->
  client.updateErr a1 = None ->
  client.getErr a2 = None ->
  client.statusErr a2 = None ->
  exists w2 r2,
    controllers.Reconciles [(a1, h1); (a2, h2)] req w
    = ([ ({| ctrl.Requeue := true; ctrl.RequeueAfter := 0 |}, None);
         (pace (controllers.isReady h2), None) ], w2)
    /\ client.objects w2 !! ctrl.NamespacedName_ req = Some r2
    /\ marked r2 = true
    /\ meta.IsStatusConditionTrue (myv1.Conditions (client.Status_ r2))
         (if controllers.isReady h2 then controllers.TypeReady
          else controllers.TypeDegraded) = true
    /\ myv1.ObservedGeneration (client.Status_ r2) = client.GetGeneration r2
    /\ client.GetGeneration r2 = client.GetGeneration r
    /\ client.Spec_ r2 = client.Spec_ r
    /\ length (client.calls w2) = (length (client.calls w) + 2)%nat.
Proof.
  intros F D M U G2 S2.
  destruct (found_inv _ _ _ _ F) as (_ & _ & L).
  pose proof (Reconcile_found a1 h1 req w r F) as E1.
  rewrite D, M in E1. simpl in E1. rewrite U in E1.
  destruct F as [_ K].
  set (r1 := client.SetFinalizers r
               (client.GetFinalizers r ++ [controllers.myFinalizerName])) in *.
  set (w1 := {| client.objects := <[client.ObjectKeyFromObject r := r1]> (client.objects w);
                client.calls := client.calls w ++ [client.CallUpdate r1];
                client.events := client.events w |}) in *.
  assert (L1 : client.objects w1 !! client.ObjectKeyFromObject r1 = Some r1)
    by apply lookup_insert_eq.
  assert (F1 : client.found a2 (ctrl.NamespacedName_ req) w1 r1).
  { rewrite <- K. by apply (found_intro a2 w1 r1). }
  pose proof (Reconcile_found a2 h2 req w1 r1 F1) as E2.
  change (deleting r1) with (deleting r) in E2.
  assert (M1 : marked r1 = true) by apply marked_attached.
  rewrite D, M1, (reconcileNormal_eq a2 h2 r1 w1 L1) in E2.
  simpl in E2. rewrite S2 in E2.
  set (r2 := observed (client.now a2) r1
               (verdict (controllers.isReady h2) (client.GetGeneration r1))) in *.
  eexists _, r2. simpl. rewrite E1, E2. split; [reflexivity|]. simpl.
  split; [rewrite <- K; apply lookup_insert_eq|].
  split; [apply (marked_attached r)|].
  split; [apply (observed_facts (client.now a2) r1 (controllers.isReady h2))|].
  split; [done|]. split; [done|]. split; [done|].
  rewrite !length_app. simpl. lia.
Qed.

(** The freshly created resource and the template as shipped: "requeue
    now", then 5 minutes. *)
Lemma fresh_resource_converges_witness :
  client.found demo.calm demo.key (demo.world demo.fresh) demo.fresh
  /\ exists w2 r2,
       controllers.Reconciles
         [(demo.calm, controllers.scaffold); (demo.calm, controllers.scaffold)]
         demo.req (demo.world demo.fresh)
       = ([ ({| ctrl.Requeue := true; ctrl.RequeueAfter := 0 |}, None);
            ({| ctrl.Requeue := false; ctrl.RequeueAfter := 300000000000 |}, None) ],
          w2)
       /\ client.objects w2 !! demo.key = Some r2
       /\ marked r2 = true.
Proof.
  assert (F : client.found demo.calm demo.key (demo.world demo.fresh) demo.fresh)
    by (split; reflexivity).
  split; [exact F|].
  destruct (fresh_resource_converges_in_two_calls
              demo.calm demo.calm controllers.scaffold controllers.scaffold
              demo.req (demo.world demo.fresh) demo.fresh
              F eq_refl eq_refl eq_refl eq_refl eq_refl)
    as (w2 & r2 & E & L & M & _).
  exists w2, r2. split; [exact E|]. split; [exact L | exact M].
Defined.

(** ** Conditions of another type *)

Lemma Set_other_slots now (l : list metav1.Condition) (c old : metav1.Condition)
    (i : nat) :
  l !! i = Some old -> metav1.Type_ old <> metav1.Type_ c ->
  fst (meta.SetStatusCondition now l c) !! i = Some old.
Proof.
  intros Hi Ne. unfold meta.SetStatusCondition.
  destruct (meta.FindStatusCondition l (metav1.Type_ c)) as [j|] eqn:F.
  - destruct (Find_Some _ _ _ F) as (x & Hj & Ht). rewrite Hj.
    destruct (meta.merged now x c) as [e ch]. simpl.
    rewrite list_lookup_insert_ne; [done|]. intros ->. congruence.
  - simpl. by apply lookup_app_l_Some.
Qed.

Lemma Find_by_types (l l' : list metav1.Condition) (t : string) :
  meta.types l = meta.types l' ->
  meta.FindStatusCondition l t = meta.FindStatusCondition l' t.
Proof.
  revert l'. induction l as [|c l IH]; intros [|c' l'] E; simpl in *; try done.
  injection E as Ec El. rewrite Ec. by rewrite (IH l' El).
Qed.

Lemma Find_app_other (l : list metav1.Condition) (x : metav1.Condition) (t : string) :
  metav1.Type_ x <> t ->
  meta.FindStatusCondition (l ++ [x]) t = meta.FindStatusCondition l t.
Proof.
  intros Ne. induction l as [|c l IH]; simpl.
  - by destruct (String.eqb_spec (metav1.Type_ x) t).
  - by rewrite IH.
Qed.

Lemma Find_Set_other now (l : list metav1.Condition) (c : metav1.Condition)
    (t : string) :
  t <> metav1.Type_ c ->
  meta.FindStatusCondition (fst (meta.SetStatusCondition now l c)) t
  = meta.FindStatusCondition l t.
Proof.
  intros Ne.
  destruct (meta.FindStatusCondition l (metav1.Type_ c)) as [j|] eqn:F.
  - apply Find_by_types. rewrite types_SetStatusCondition.
    destruct (existsb _ _) eqn:Hin; [done|].
    apply Find_Some in F as (x & Hj & Ht).
    assert (existsb (String.eqb (metav1.Type_ c)) (meta.types l) = true);
      [|congruence].
    apply existsb_eqb_elem. rewrite <- Ht. unfold meta.types.
    apply list_elem_of_fmap. exists x. split; [done|].
    by eapply list_elem_of_lookup_2.
  - unfold meta.SetStatusCondition. rewrite F. simpl.
    apply Find_app_other. destruct (stamped_fields now c) as (-> & _). congruence.
Qed.

Lemma IsTrue_Set_other now (l : list metav1.Condition) (c : metav1.Condition)
    (t : string) :
  t <> metav1.Type_ c ->
  meta.IsStatusConditionTrue (fst (meta.SetStatusCondition now l c)) t
  = meta.IsStatusConditionTrue l t.
Proof.
  intros Ne. unfold meta.IsStatusConditionTrue. rewrite (Find_Set_other now l c t Ne).
  destruct (meta.FindStatusCondition l t) as [i|] eqn:F; [|done].
  destruct (Find_Some _ _ _ F) as (x & Hi & Ht).
  rewrite (Set_other_slots now l c x i Hi), Hi; [done | congruence].
Qed.

(** X8: normal reconciliation sets the condition of its verdict and leaves
    every condition of another type exactly as it was, slot by slot; it
    never clears the condition of the opposite verdict.  So a resource whose
    Degraded condition is True and whose readiness check now succeeds is
    persisted with Degraded still True next to Ready True. *)
Theorem normal_reconciliation_keeps_other_conditions
    (a : client.Answers) (h : controllers.Hooks) (req : ctrl.Request)
    (w : controllers.World) (r : myv1.MyResource) :
  client.found a (ctrl.NamespacedName_ req) w r ->
  deleting r = false ->
  marked r = true ->
  client.statusErr a = None ->
  exists res w' r',
    controllers.Reconcile a h req w = (res, None, w')
    /\ client.objects w' !! ctrl.NamespacedName_ req = Some r'
    /\ (forall i old,
          myv1.Conditions (client.Status_ r) !! i = Some old ->
          metav1.Type_ old <> (if controllers.isReady h then controllers.TypeReady
                               else controllers.TypeDegraded) ->
          myv1.Conditions (client.Status_ r') !! i = Some old)
    /\ (forall t,
          t <> (if controllers.isReady h then controllers.TypeReady
                else controllers.TypeDegraded) ->
          meta.IsStatusConditionTrue (myv1.Conditions (client.Status_ r')) t
          = meta.IsStatusConditionTrue (myv1.Conditions (client.Status_ r)) t)
    /\ (controllers.isReady h = true ->
        meta.IsStatusConditionTrue (myv1.Conditions (client.Status_ r))
          controllers.TypeDegraded = true ->
        meta.IsStatusConditionTrue (myv1.Conditions (client.Status_ r'))
          controllers.TypeDegraded = true
        /\ meta.IsStatusConditionTrue (myv1.Conditions (client.Status_ r'))
             controllers.TypeReady = true).
Proof.
  intros F D M S.
  destruct (found_inv _ _ _ _ F) as (_ & _ & L).
  rewrite (Reconcile_found a h req w r F), D, M.
  rewrite (reconcileNormal_eq a h r w L). simpl. rewrite S.
  destruct F as [_ K].
  set (ready := controllers.isReady h).
  set (r' := observed (client.now a) r (verdict ready (client.GetGeneration r))).
  assert (O : forall t,
            t <> (if ready then controllers.TypeReady else controllers.TypeDegraded) ->
            meta.IsStatusConditionTrue (myv1.Conditions (client.Status_ r')) t
            = meta.IsStatusConditionTrue (myv1.Conditions (client.Status_ r)) t).
  { intros t Ne. apply IsTrue_Set_other. by rewrite verdict_Type. }
  assert (B : ready = true ->
              meta.IsStatusConditionTrue (myv1.Conditions (client.Status_ r))
                controllers.TypeDegraded = true ->
              meta.IsStatusConditionTrue (myv1.Conditions (client.Status_ r'))
                controllers.TypeDegraded = true
              /\ meta.IsStatusConditionTrue (myv1.Conditions (client.Status_ r'))
                   controllers.TypeReady = true).
  { intros R Dg. split.
    - rewrite O; [done | by rewrite R].
    - subst r'. rewrite R. apply (observed_facts (client.now a) r true). }
  assert (P : forall i old,
            myv1.Conditions (client.Status_ r) !! i = Some old ->
            metav1.Type_ old
            <> (if ready then controllers.TypeReady else controllers.TypeDegraded) ->
            myv1.Conditions (client.Status_ r') !! i = Some old).
  { intros i old Hi Ne. apply Set_other_slots; [done|]. by rewrite verdict_Type. }
  eexists _, _, r'. split; [reflexivity|].
  split; [simpl; rewrite K; apply lookup_insert_eq|].
  split; [exact P|]. split; [exact O | exact B].
Qed.

(** A resource marked Degraded by an earlier invocation, and the template as
    shipped: afterwards both Degraded and Ready are True. *)
Lemma normal_reconciliation_keeps_witness :
  client.found demo.calm demo.key
    (demo.world (demo.resource None [controllers.myFinalizerName]
                   [meta.stamped 900 (mkDegraded 3)]))
    (demo.resource None [controllers.myFinalizerName]
       [meta.stamped 900 (mkDegraded 3)])
  /\ exists res w' r',
       controllers.Reconcile demo.calm controllers.scaffold demo.req
         (demo.world (demo.resource None [controllers.myFinalizerName]
                        [meta.stamped 900 (mkDegraded 3)]))
       = (res, None, w')
       /\ client.objects w' !! demo.key = Some r'
       /\ meta.IsStatusConditionTrue (myv1.Conditions (client.Status_ r'))
            controllers.TypeDegraded = true
       /\ meta.IsStatusConditionTrue (myv1.Conditions (client.Status_ r'))
            controllers.TypeReady = true.
Proof.
  assert (F : client.found demo.calm demo.key
                (demo.world (demo.resource None [controllers.myFinalizerName]
                               [meta.stamped 900 (mkDegraded 3)]))
                (demo.resource None [controllers.myFinalizerName]
                   [meta.stamped 900 (mkDegraded 3)]))
    by (split; reflexivity).
  split; [exact F|].
  destruct (normal_reconciliation_keeps_other_conditions
              demo.calm controllers.scaffold demo.req
              (demo.world (demo.resource None [controllers.myFinalizerName]
                             [meta.stamped 900 (mkDegraded 3)]))
              (demo.resource None [controllers.myFinalizerName]
                 [meta.stamped 900 (mkDegraded 3)])
              F eq_refl eq_refl eq_refl)
    as (res & w' & r' & E & L & _ & _ & B).
  destruct (B eq_refl eq_refl) as (Dg & Rd).
  exists res, w', r'. split; [exact E|]. split; [exact L|]. split; [exact Dg | exact Rd].
Defined.

(** ** GuestbookReconciler *)

Lemma Guestbook_outcomes {Spec : Type} a req (w : controller.World Spec) :
  (exists err, controller.Reconcile Spec a req w = (ctrl.Result_zero, err, w))
  \/ (exists e c,
        controller.Reconcile Spec a req w
        = (ctrl.Result_zero, Some e, client.logged c w))
  \/ (exists k obj sent,
        controller.Reconcile Spec a req w
        = (ctrl.Result_zero, None,
           client.stored k obj (client.logged (client.CallStatusUpdate sent) w))).
Proof.
  unfold controller.Reconcile.
  destruct (client.Get a (ctrl.NamespacedName_ req) w) as [err|g];
    [left; by eexists|].
  simpl.
  destruct (match
              match meta.FindStatusCondition _ "Available" with
              | Some i => _ | None => None
              end
            with Some c => _ | None => true end); [|left; by eexists].
  unfold client.StatusUpdate. simpl.
  destruct (client.statusErr a); [right; left; by eexists _, _|].
  destruct (client.objects w !! _); [|right; left; by eexists _, _].
  right. right. by eexists _, _, _.
Qed.

(** X9: after an invocation of [GuestbookReconciler.Reconcile] that found the
    Guestbook, with the store accepting a status write, the persisted
    Guestbook has an Available condition that is True and tagged with its
    generation; metadata and spec are the ones it had, every condition of
    another type is as it was, slot by slot and field by field, and nothing
    at all is written when the condition was already current. *)
Theorem guestbook_reconcile_establishes_available
    (GuestbookSpec : Type) (a : client.Answers) (req : ctrl.Request)
    (w : controller.World GuestbookSpec) (g : controller.Guestbook GuestbookSpec) :
  client.found a (ctrl.NamespacedName_ req) w g ->
  client.statusErr a = None ->
  exists w' g',
    controller.Reconcile GuestbookSpec a req w = (ctrl.Result_zero, None, w')
    /\ client.objects w' !! ctrl.NamespacedName_ req = Some g'
    /\ current g' = true
    /\ meta.IsStatusConditionTrue (webappv1.Conditions (client.Status_ g'))
         "Available" = true
    /\ client.ObjectMeta g' = client.ObjectMeta g
    /\ client.Spec_ g' = client.Spec_ g
    /\ (forall i old,
          webappv1.Conditions (client.Status_ g) !! i = Some old ->
          metav1.Type_ old <> "Available" ->
          webappv1.Conditions (client.Status_ g') !! i = Some old)
    /\ (forall t, t <> "Available" ->
          meta.FindStatusCondition (webappv1.Conditions (client.Status_ g')) t
          = meta.FindStatusCondition (webappv1.Conditions (client.Status_ g)) t)
    /\ (forall t, t <> "Available" ->
          meta.IsStatusConditionTrue (webappv1.Conditions (client.Status_ g')) t
          = meta.IsStatusConditionTrue (webappv1.Conditions (client.Status_ g)) t)
    /\ (current g = true -> w' = w).
Proof.
  intros F S.
  destruct (found_inv _ _ _ _ F) as (_ & L0 & _).
  rewrite (Guestbook_found a req w g F). destruct F as [_ K].
  destruct (current g) eqn:C.
  - exists w, g. split; [done|]. split; [done|]. split; [done|].
    split; [by apply current_IsTrue|]. by repeat split.
  - simpl. rewrite S.
    pose proof (current_refreshed (client.now a) g) as C'.
    eexists _, (refreshed (client.now a) g). split; [reflexivity|].
    split; [simpl; rewrite K; apply lookup_insert_eq|].
    split; [exact C'|]. split; [by apply current_IsTrue|].
    split; [done|]. split; [done|].
    split; [|split; [|split; [|done]]].
    + intros i old Hi Ne. unfold refreshed. simpl. by apply Set_other_slots.
    + intros t Ne. unfold refreshed. simpl. by apply Find_Set_other.
    + intros t Ne. unfold refreshed. simpl. by apply IsTrue_Set_other.
Qed.

(** A Guestbook at generation 3 whose Progressing and Available conditions
    were set for generation 2: Available is brought up to date, the
    Progressing entry stays in its slot as it was. *)
Lemma guestbook_establishes_witness :
  client.found demo.calm demo.key
    (demo.world (demo.guestbook [meta.stamped 900 (mkProgressing 2);
                                 meta.stamped 900 (available 2)]))
    (demo.guestbook [meta.stamped 900 (mkProgressing 2);
                     meta.stamped 900 (available 2)])
  /\ current (demo.guestbook [meta.stamped 900 (mkProgressing 2);
                              meta.stamped 900 (available 2)]) = false
  /\ exists w' g',
       controller.Reconcile string demo.calm demo.req
         (demo.world (demo.guestbook [meta.stamped 900 (mkProgressing 2);
                                      meta.stamped 900 (available 2)]))
       = (ctrl.Result_zero, None, w')
       /\ client.objects w' !! demo.key = Some g'
       /\ current g' = true
       /\ webappv1.Conditions (client.Status_ g') !! 0%nat
          = Some (meta.stamped 900 (mkProgressing 2)).
Proof.
  assert (F : client.found demo.calm demo.key
                (demo.world (demo.guestbook [meta.stamped 900 (mkProgressing 2);
                                             meta.stamped 900 (available 2)]))
                (demo.guestbook [meta.stamped 900 (mkProgressing 2);
                                 meta.stamped 900 (available 2)]))
    by (split; reflexivity).
  split; [exact F|]. split; [reflexivity|].
  destruct (guestbook_reconcile_establishes_available
              string demo.calm demo.req
              (demo.world (demo.guestbook [meta.stamped 900 (mkProgressing 2);
                                           meta.stamped 900 (available 2)]))
              (demo.guestbook [meta.stamped 900 (mkProgressing 2);
                               meta.stamped 900 (available 2)])
              F eq_refl)
    as (w' & g' & E & L & C & _ & _ & _ & P & _).
  exists w', g'. split; [exact E|]. split; [exact L|]. split; [exact C|].
  apply (P 0%nat (meta.stamped 900 (mkProgressing 2))); [reflexivity | discriminate].
Defined.

(** X10: [GuestbookReconciler.Reconcile] always returns the empty result and
    never records an event; it issues at most one write, through the status
    path; and when it returns an error the persisted objects are as they
    were. *)
Theorem guestbook_reconcile_is_frugal
    (GuestbookSpec : Type) (a : client.Answers) (req : ctrl.Request)
    (w : controller.World GuestbookSpec) :
  (controller.Reconcile GuestbookSpec a req w).1.1 = ctrl.Result_zero
  /\ client.events (controller.Reconcile GuestbookSpec a req w).2 = client.events w
  /\ ((client.calls (controller.Reconcile GuestbookSpec a req w).2 = client.calls w
       /\ client.objects (controller.Reconcile GuestbookSpec a req w).2
          = client.objects w)
      \/ exists sent,
           client.calls (controller.Reconcile GuestbookSpec a req w).2
           = client.calls w ++ [client.CallStatusUpdate sent]
           /\ ((controller.Reconcile GuestbookSpec a req w).1.2 = None
               \/ client.objects (controller.Reconcile GuestbookSpec a req w).2
                  = client.objects w)).
Proof.
  destruct (Guestbook_shape a req w) as [R [N | (g & _ & _ & C & Ev & _)]].
  - split; [exact R|]. rewrite N. split; [done|]. by left.
  - split; [exact R|]. split; [exact Ev|]. right. eexists. split; [exact C|].
    destruct (Guestbook_outcomes a req w)
      as [(err & E) | [(e & c & E) | (k & obj & sent & E)]]; rewrite E; simpl;
      [by right | by right | by left].
Qed.

(** ** The template as shipped *)

(** X23: in the template as shipped the readiness check is the constant
    true, so the branch for a resource that is not ready is never taken.
    Whatever the store holds and the surroundings answer, Reconcile asks for
    no delay or for 5 minutes, never for 30 seconds; it records no event or
    one Normal event, never a Warning; and a status write it issues carries
    Ready True and leaves every other condition, Degraded included, in its
    slot as it was fetched: no Degraded condition is ever set. *)
Theorem shipped_template_never_takes_the_not_ready_branch
    (a : client.Answers) (req : ctrl.Request) (w : controllers.World) :
  (ctrl.RequeueAfter (controllers.Reconcile a controllers.scaffold req w).1.1 = 0
   \/ ctrl.RequeueAfter (controllers.Reconcile a controllers.scaffold req w).1.1
      = 5 * time.Minute)
  /\ (client.events (controllers.Reconcile a controllers.scaffold req w).2
      = client.events w
      \/ exists ev,
           client.events (controllers.Reconcile a controllers.scaffold req w).2
           = client.events w ++ [ev]
           /\ record.EventType ev = corev1.EventTypeNormal)
  /\ (forall sent,
        client.calls (controllers.Reconcile a controllers.scaffold req w).2
        = client.calls w ++ [client.CallStatusUpdate sent] ->
        exists r,
          client.Get a (ctrl.NamespacedName_ req) w = inr r
          /\ meta.IsStatusConditionTrue (myv1.Conditions (client.Status_ sent))
               controllers.TypeReady = true
          /\ meta.FindStatusCondition (myv1.Conditions (client.Status_ sent))
               controllers.TypeDegraded
             = meta.FindStatusCondition (myv1.Conditions (client.Status_ r))
                 controllers.TypeDegraded
          /\ (forall i old,
                myv1.Conditions (client.Status_ r) !! i = Some old ->
                metav1.Type_ old <> controllers.TypeReady ->
                myv1.Conditions (client.Status_ sent) !! i = Some old)).
Proof.
  assert (NoCall : forall (l : list (client.Call myv1.MyResourceSpec
                                       myv1.MyResourceStatus)) c,
            l = l ++ [c] -> False).
  { intros l c E. apply (f_equal length) in E. rewrite length_app in E.
    simpl in E. lia. }
  unfold controllers.Reconcile.
  destruct (client.Get a (ctrl.NamespacedName_ req) w) as [err|r] eqn:G.
  { destruct (apierrors.IsNotFound err); simpl;
      (split; [by left|]); (split; [by left|]);
      intros sent E; by apply NoCall in E. }
  destruct (negb (metav1.IsZero _)).
  - unfold controllers.reconcileDelete.
    destruct (controllerutil.ContainsFinalizer r controllers.myFinalizerName).
    + simpl. unfold client.Update. simpl.
      destruct (client.updateErr a); simpl.
      * split; [by left|]. split; [by left|].
        intros sent E. apply app_inv_head in E. discriminate.
      * destruct (client.objects w !! _); simpl.
        -- split; [by left|]. split; [right; by eexists|].
           intros sent E. apply app_inv_head in E. discriminate.
        -- split; [by left|]. split; [by left|].
           intros sent E. apply app_inv_head in E. discriminate.
    + simpl. split; [by left|]. split; [by left|].
      intros sent E. by apply NoCall in E.
  - destruct (negb (controllerutil.ContainsFinalizer r controllers.myFinalizerName)).
    + unfold client.Update. simpl.
      destruct (client.updateErr a); simpl.
      * split; [by left|]. split; [by left|].
        intros sent E. apply app_inv_head in E. discriminate.
      * destruct (client.objects w !! _); simpl;
          (split; [by left|]); (split; [by left|]);
          intros sent E; apply app_inv_head in E; discriminate.
    + unfold controllers.reconcileNormal, controllers.updateStatus,
        client.StatusUpdate. simpl.
      assert (S : forall sent,
                client.calls w
                ++ [client.CallStatusUpdate
                      (observed (client.now a) r
                         (verdict true (client.GetGeneration r)))]
                = client.calls w ++ [client.CallStatusUpdate sent] ->
                exists r0,
                  (inr r : errors.error + myv1.MyResource) = inr r0
                  /\ meta.IsStatusConditionTrue
                       (myv1.Conditions (client.Status_ sent))
                       controllers.TypeReady = true
                  /\ meta.FindStatusCondition
                       (myv1.Conditions (client.Status_ sent))
                       controllers.TypeDegraded
                     = meta.FindStatusCondition
                         (myv1.Conditions (client.Status_ r0))
                         controllers.TypeDegraded
                  /\ (forall i old,
                        myv1.Conditions (client.Status_ r0) !! i = Some old ->
                        metav1.Type_ old <> controllers.TypeReady ->
                        myv1.Conditions (client.Status_ sent) !! i = Some old)).
      { intros sent E. apply app_inv_head in E. injection E as <-.
        exists r. split; [reflexivity|].
        split; [apply (observed_facts (client.now a) r true)|].
        split; [by apply Find_Set_other|].
        intros i old Hi Ne. by apply Set_other_slots. }
      destruct (client.statusErr a); simpl.
      * split; [by left|]. split; [by left|]. exact S.
      * destruct (client.objects w !! _); simpl.
        -- split; [by right|]. split; [right; by eexists|]. exact S.
        -- split; [by left|]. split; [by left|]. exact S.
Qed.

(** * Properties of the admission webhook *)

(** X11: defaulting followed by validation accepts a resource exactly when
    its replica count is not negative: zero is turned into one, a negative
    count is kept and rejected.  Defaulting touches nothing but the replica
    count and changes nothing when applied again; validation never warns. *)
Theorem defaulting_then_validation (r : myv1.MyResource) :
  ((webhook.ValidateCreate (webhook.Default r)).2 = None
   <-> 0 <= myv1.Replicas (client.Spec_ r))
  /\ ((webhook.ValidateCreate r).2 = None <-> 1 <= myv1.Replicas (client.Spec_ r))
  /\ (webhook.ValidateCreate r).1 = []
  /\ webhook.Default (webhook.Default r) = webhook.Default r
  /\ (myv1.Replicas (client.Spec_ r) <> 0 -> webhook.Default r = r)
  /\ client.ObjectMeta (webhook.Default r) = client.ObjectMeta r
  /\ client.Status_ (webhook.Default r) = client.Status_ r
  /\ myv1.SpecName (client.Spec_ (webhook.Default r)) = myv1.SpecName (client.Spec_ r)
  /\ myv1.ServiceName (client.Spec_ (webhook.Default r))
     = myv1.ServiceName (client.Spec_ r).
Proof.
  unfold webhook.ValidateCreate, webhook.Default.
  destruct (Z.eqb_spec (myv1.Replicas (client.Spec_ r)) 0) as [E|E]; simpl.
  - rewrite E. simpl. repeat split; try done; lia.
  - destruct (Z.ltb_spec (myv1.Replicas (client.Spec_ r)) 1) as [Lt|Ge]; simpl.
    + repeat split; try done; try lia.
      destruct (Z.eqb_spec (myv1.Replicas (client.Spec_ r)) 0); done.
    + repeat split; try done; try lia.
      destruct (Z.eqb_spec (myv1.Replicas (client.Spec_ r)) 0); done.
Qed.

(** * Properties of the reference guide's [reconcileNormal] *)

Lemma pattern_updateStatus_eq a (r : myv1.MyResource) c (w : controllers.World) :
  patterns.updateStatus a r c w =
  let sent :=
    client.SetStatus r
      (controllers.SetConditions (client.Status_ r)
         (fst (meta.SetStatusCondition (client.now a)
                 (myv1.Conditions (client.Status_ r)) c))) in
  match client.statusErr a with
  | Some e => (Some e, sent, client.logged (client.CallStatusUpdate sent) w)
  | None =>
      match client.objects w !! client.ObjectKeyFromObject r with
      | None =>
          (Some client.notFound, sent, client.logged (client.CallStatusUpdate sent) w)
      | Some old =>
          (None, client.SetStatus old (client.Status_ sent),
           client.stored (client.ObjectKeyFromObject r)
             (client.SetStatus old (client.Status_ sent))
             (client.logged (client.CallStatusUpdate sent) w))
      end
  end.
Proof.
  unfold patterns.updateStatus, client.StatusUpdate. simpl.
  destruct (client.statusErr a); [done|].
  change (client.ObjectKeyFromObject (client.SetStatus r _))
    with (client.ObjectKeyFromObject r).
  by destruct (client.objects w !! client.ObjectKeyFromObject r).
Qed.

(** X12: the guide's [reconcileNormal] never returns an error and never asks
    for an immediate requeue, not even when the store refuses the status
    write: that refusal is dropped.  On a transient error it touches nothing
    and asks for a requeue after 30 seconds; otherwise it issues exactly one
    write, through the status path, carrying the condition of the outcome,
    and asks for no requeue. *)
Theorem pattern_reconcile_drops_status_errors
    (a : client.Answers) (h : patterns.Hooks) (r : myv1.MyResource)
    (w : controllers.World) :
  (patterns.reconcileNormal a h r w).1.2 = None
  /\ ctrl.Requeue (patterns.reconcileNormal a h r w).1.1 = false
  /\ client.events (patterns.reconcileNormal a h r w).2 = client.events w
  /\ match patterns.createExternalResource h with
     | Some err =>
         if patterns.isTransientError h err then
           patterns.reconcileNormal a h r w
           = ({| ctrl.Requeue := false; ctrl.RequeueAfter := 30000000000 |}, None, w)
         else
           (patterns.reconcileNormal a h r w).1.1 = ctrl.Result_zero
           /\ client.calls (patterns.reconcileNormal a h r w).2
              = client.calls w
                ++ [client.CallStatusUpdate
                      (client.SetStatus r
                         (controllers.SetConditions (client.Status_ r)
                            (fst (meta.SetStatusCondition (client.now a)
                                    (myv1.Conditions (client.Status_ r))
                                    (pattern_condition (Some err))))))]
     | None =>
         (patterns.reconcileNormal a h r w).1.1 = ctrl.Result_zero
         /\ client.calls (patterns.reconcileNormal a h r w).2
            = client.calls w
              ++ [client.CallStatusUpdate
                    (client.SetStatus r
                       (controllers.SetConditions (client.Status_ r)
                          (fst (meta.SetStatusCondition (client.now a)
                                  (myv1.Conditions (client.Status_ r))
                                  (pattern_condition None)))))]
     end.
Proof.
  unfold patterns.reconcileNormal.
  destruct (patterns.createExternalResource h) as [err|].
  - destruct (patterns.isTransientError h err); [done|].
    fold (pattern_condition (Some err)).
    rewrite (pattern_updateStatus_eq a r (pattern_condition (Some err)) w). simpl.
    destruct (client.statusErr a); [done|].
    by destruct (client.objects w !! client.ObjectKeyFromObject r).
  - fold (pattern_condition None).
    rewrite (pattern_updateStatus_eq a r (pattern_condition None) w). simpl.
    destruct (client.statusErr a); [done|].
    by destruct (client.objects w !! client.ObjectKeyFromObject r).
Qed.

(** X13: on an error that is not transient, with the store accepting the
    write, the guide's [reconcileNormal] persists a Degraded condition that
    is True, has the reason "ConfigurationError" and carries the text of the
    error as its message; unlike the template's [updateStatus], it leaves
    [status.observedGeneration] as it was. *)
Theorem pattern_permanent_error_is_recorded
    (a : client.Answers) (h : patterns.Hooks) (r : myv1.MyResource)
    (w : controllers.World) (err : errors.error) :
  client.objects w !! client.ObjectKeyFromObject r = Some r ->
  patterns.createExternalResource h = Some err ->
  patterns.isTransientError h err = false ->
  client.statusErr a = None ->
  exists w' r' i c,
    patterns.reconcileNormal a h r w = (ctrl.Result_zero, None, w')
    /\ client.objects w' !! client.ObjectKeyFromObject r = Some r'
    /\ meta.FindStatusCondition (myv1.Conditions (client.Status_ r'))
         controllers.TypeDegraded = Some i
    /\ myv1.Conditions (client.Status_ r') !! i = Some c
    /\ metav1.Status c = metav1.ConditionTrue
    /\ metav1.Reason c = "ConfigurationError"
    /\ metav1.Message c = patterns.Error err
    /\ myv1.ObservedGeneration (client.Status_ r')
       = myv1.ObservedGeneration (client.Status_ r)
    /\ client.ObjectMeta r' = client.ObjectMeta r
    /\ client.Spec_ r' = client.Spec_ r.
Proof.
  intros L C T S. unfold patterns.reconcileNormal. rewrite C, T.
  fold (pattern_condition (Some err)).
  rewrite (pattern_updateStatus_eq a r (pattern_condition (Some err)) w). simpl.
  rewrite S, L.
  destruct (Find_after_Set (client.now a) (myv1.Conditions (client.Status_ r))
              (pattern_condition (Some err)))
    as (i & c & Fi & Li & _ & Hs & Hr & Hm & _).
  eexists _, _, i, c. split; [reflexivity|]. simpl.
  split; [apply lookup_insert_eq|]. simpl.
  split; [exact Fi|]. split; [exact Li|]. by repeat split.
Qed.

(** An invalid configuration reported by a wrapped error. *)
Lemma pattern_permanent_error_witness :
  exists w' r' i c,
    patterns.reconcileNormal demo.calm
      {| patterns.createExternalResource :=
           Some (errors.Errorf "create bucket" (errors.New "invalid name"));
         patterns.isTransientError := fun _ => false |}
      demo.settled (demo.world demo.settled)
    = (ctrl.Result_zero, None, w')
    /\ client.objects w' !! demo.key = Some r'
    /\ meta.FindStatusCondition (myv1.Conditions (client.Status_ r'))
         controllers.TypeDegraded = Some i
    /\ myv1.Conditions (client.Status_ r') !! i = Some c
    /\ metav1.Message c = "create bucket: invalid name".
Proof.
  destruct (pattern_permanent_error_is_recorded demo.calm
              {| patterns.createExternalResource :=
                   Some (errors.Errorf "create bucket" (errors.New "invalid name"));
                 patterns.isTransientError := fun _ => false |}
              demo.settled (demo.world demo.settled)
              (errors.Errorf "create bucket" (errors.New "invalid name"))
              eq_refl eq_refl eq_refl eq_refl)
    as (w' & r' & i & c & E & L & Fi & Li & _ & _ & M & _).
  exists w', r', i, c. split; [exact E|]. split; [exact L|].
  split; [exact Fi|]. split; [exact Li | exact M].
Defined.

(** * Properties of the scaffolding script *)

Lemma list_ind2 {A : Type} (P : list A -> Prop) :
  P [] -> (forall x, P [x]) ->
  (forall x y l, P l -> P (y :: l) -> P (x :: y :: l)) ->
  forall l, P l.
Proof.
  intros H0 H1 H2 l.
  assert (H : P l /\ forall x, P (x :: l)); [|by destruct H].
  induction l as [|y l [IH1 IH2]]; [by split|].
  split; [apply IH2|]. intros x. by apply H2.
Qed.

Lemma arm_spec (word : string) :
  match scaffold_operator.arm word with
  | scaffold_operator.ArmName => word = "-n" \/ word = "--name"
  | scaffold_operator.ArmDomain => word = "-d" \/ word = "--domain"
  | scaffold_operator.ArmRepo => word = "-r" \/ word = "--repo"
  | scaffold_operator.ArmGroup => word = "-g" \/ word = "--group"
  | scaffold_operator.ArmKind => word = "-k" \/ word = "--kind"
  | scaffold_operator.ArmVersion => word = "-v" \/ word = "--version"
  | scaffold_operator.ArmWebhook => word = "--webhook"
  | scaffold_operator.ArmHelp => word = "-h" \/ word = "--help"
  | scaffold_operator.ArmUnknown => True
  end.
Proof.
  unfold scaffold_operator.arm.
  repeat (match goal with
          | |- context [String.eqb word ?s] =>
              destruct (String.eqb_spec word s); simpl; auto
          end).
Qed.

Lemma parse_app (pre rest : list string) (v v' : scaffold_operator.Vars) :
  scaffold_operator.parse pre v = scaffold_operator.Consumed v' ->
  scaffold_operator.parse (pre ++ rest) v = scaffold_operator.parse rest v'.
Proof.
  revert v v'. induction pre as [| x | x y l IHl IHyl] using list_ind2;
    intros v v' H.
  - simpl in H. by injection H as ->.
  - simpl in *. destruct (scaffold_operator.arm x); try done.
    by injection H as ->.
  - change ((x :: y :: l) ++ rest) with (x :: y :: (l ++ rest)).
    change (y :: l ++ rest) with ((y :: l) ++ rest).
    simpl in H. simpl.
    destruct (scaffold_operator.arm x); try done;
      first [ by apply IHl | by apply (IHyl _ _ H) ].
Qed.

(** X15: the argument loop handles its arguments from left to right, one
    option at a time: when a first part of the arguments is consumed
    without an exit, the rest is handled as if it were the whole command
    line, starting from the variables the first part left.  (So a later
    occurrence of an option overrides an earlier one.) *)
Theorem parse_continues_after_a_consumed_prefix
    (pre rest : list string) (v v' : scaffold_operator.Vars) :
  scaffold_operator.parse pre v = scaffold_operator.Consumed v' ->
  scaffold_operator.parse (pre ++ rest) v = scaffold_operator.parse rest v'.
Proof. apply parse_app. Qed.

(** A name given twice: the second one stays. *)
Lemma parse_continues_witness :
  scaffold_operator.parse ["-n"; "first"] (scaffold_operator.initial bare)
  = scaffold_operator.Consumed
      (scaffold_operator.assign scaffold_operator.ArmName "first"
         (scaffold_operator.initial bare))
  /\ scaffold_operator.parse (["-n"; "first"] ++ ["--name"; "second"])
       (scaffold_operator.initial bare)
     = scaffold_operator.Consumed
         (scaffold_operator.assign scaffold_operator.ArmName "second"
            (scaffold_operator.initial bare)).
Proof.
  split; [reflexivity|].
  exact (parse_continues_after_a_consumed_prefix
           ["-n"; "first"] ["--name"; "second"]
           (scaffold_operator.initial bare)
           (scaffold_operator.assign scaffold_operator.ArmName "first"
              (scaffold_operator.initial bare))
           eq_refl).
Defined.

(** X14: a command line that spells out every variable is read back as
    exactly those variables, whatever the values are (empty, or beginning
    with a dash) and whatever the script inherits. *)
Theorem parse_reads_back_a_rendered_command_line
    (e : scaffold_operator.Env) (v : scaffold_operator.Vars) :
  scaffold_operator.parse (scaffold_operator.render v) (scaffold_operator.initial e)
  = scaffold_operator.Consumed v.
Proof. destruct v as [n d r g k ver []]; reflexivity. Qed.

(** X16: a help option that is reached ends the script with status 0 after
    printing the usage text only: nothing that follows it is looked at, no
    required argument is asked for, and no command is run. *)
Theorem help_ends_the_script
    (e : scaffold_operator.Env) (pre post : list string) (word : string)
    (v : scaffold_operator.Vars) :
  scaffold_operator.parse pre (scaffold_operator.initial e)
  = scaffold_operator.Consumed v ->
  word = "-h" \/ word = "--help" ->
  scaffold_operator.main e (pre ++ word :: post) = ([scaffold_operator.Usage], 0).
Proof.
  intros H W. unfold scaffold_operator.main.
  rewrite (parse_app pre (word :: post) _ v H).
  by destruct W as [-> | ->].
Qed.

(** Help asked for after a domain, with no name given and an unknown option
    behind it. *)
Lemma help_ends_the_script_witness :
  scaffold_operator.main bare (["-d"; "corp.example"] ++ "--help" :: ["--bogus"])
  = ([scaffold_operator.Usage], 0).
Proof.
  exact (help_ends_the_script bare ["-d"; "corp.example"] ["--bogus"] "--help"
           (scaffold_operator.assign scaffold_operator.ArmDomain "corp.example"
              (scaffold_operator.initial bare))
           eq_refl (or_intror eq_refl)).
Defined.

(** X17: an option that takes a value and comes last, with no value after
    it, ends the script with status 1 and prints nothing at all, neither an
    error nor the usage text. *)
Theorem option_without_value_exits_silently
    (e : scaffold_operator.Env) (pre : list string) (word : string)
    (v : scaffold_operator.Vars) :
  scaffold_operator.parse pre (scaffold_operator.initial e)
  = scaffold_operator.Consumed v ->
  valued (scaffold_operator.arm word) = true ->
  scaffold_operator.main e (pre ++ [word]) = ([], 1).
Proof.
  intros H W. unfold scaffold_operator.main.
  rewrite (parse_app pre [word] _ v H). simpl.
  by destruct (scaffold_operator.arm word).
Qed.

(** Name and repository given, the kind option left without its value. *)
Lemma option_without_value_witness :
  scaffold_operator.main bare (["-n"; "op"; "-r"; "example.com/op"] ++ ["-k"])
  = ([], 1).
Proof.
  exact (option_without_value_exits_silently bare
           ["-n"; "op"; "-r"; "example.com/op"] "-k"
           (scaffold_operator.assign scaffold_operator.ArmRepo "example.com/op"
              (scaffold_operator.assign scaffold_operator.ArmName "op"
                 (scaffold_operator.initial bare)))
           eq_refl eq_refl).
Defined.

Lemma parse_Exited_runs_nothing (args : list string) (v : scaffold_operator.Vars)
    code out :
  scaffold_operator.parse args v = scaffold_operator.Exited code out ->
  scaffold_operator.commands out = [] /\ (code = 0 \/ code = 1).
Proof.
  revert v. induction args as [| x | x y l IHl IHyl] using list_ind2; intros v H.
  - done.
  - simpl in H. destruct (scaffold_operator.arm x); try done;
      injection H as <- <-; split; auto.
  - simpl in H. destruct (scaffold_operator.arm x);
      first [ by apply (IHl _ H) | by apply (IHyl _ H)
            | injection H as <- <-; split; auto ].
Qed.

Lemma commands_app (a b : list scaffold_operator.Action) :
  scaffold_operator.commands (a ++ b)
  = scaffold_operator.commands a ++ scaffold_operator.commands b.
Proof.
  induction a as [|[line | | argv] a IH]; simpl; [done | done | done |].
  by rewrite IH.
Qed.

Lemma commands_summary (v : scaffold_operator.Vars) :
  scaffold_operator.commands (scaffold_operator.summary v) = [].
Proof. done. Qed.

(** Under [set -e] the steps either all run, with status 0, or stop at the
    first command that fails, with its status. *)
Lemma exec_stops_at_first_failure (e : scaffold_operator.Env)
    (body : list scaffold_operator.Action) :
  (scaffold_operator.exec e body = (body, 0)
   /\ Forall (fun argv => scaffold_operator.status e argv = 0)
        (scaffold_operator.commands body))
  \/ (exists done_ argv later,
        body = done_ ++ scaffold_operator.Run argv :: later
        /\ scaffold_operator.exec e body
           = (done_ ++ [scaffold_operator.Run argv], scaffold_operator.status e argv)
        /\ scaffold_operator.status e argv <> 0
        /\ Forall (fun argv => scaffold_operator.status e argv = 0)
             (scaffold_operator.commands done_)).
Proof.
  induction body as [|act body IH]; [left; by split|].
  destruct act as [line | | argv]; simpl.
  - destruct IH as [[-> F] | (d & x & l & -> & -> & N & F)]; [left; by split|].
    right. by exists (scaffold_operator.Echo line :: d), x, l.
  - destruct IH as [[-> F] | (d & x & l & -> & -> & N & F)]; [left; by split|].
    right. by exists (scaffold_operator.Usage :: d), x, l.
  - destruct (Z.eqb_spec (scaffold_operator.status e argv) 0) as [Z|N].
    + destruct IH as [[-> F] | (d & x & l & -> & -> & N & F)].
      * left. split; [done | by constructor].
      * right. exists (scaffold_operator.Run argv :: d), x, l.
        split; [done|]. split; [done|]. split; [done|]. simpl. by constructor.
    + right. exists [], argv, body. by repeat split.
Qed.

Lemma main_accepted (e : scaffold_operator.Env) (args : list string)
    (v : scaffold_operator.Vars) :
  scaffold_operator.parse args (scaffold_operator.initial e)
  = scaffold_operator.Consumed v ->
  scaffold_operator.NAME v <> "" ->
  scaffold_operator.REPO v <> "" ->
  scaffold_operator.KIND v <> "" ->
  scaffold_operator.installed e = true ->
  scaffold_operator.main e args
  = (scaffold_operator.summary v
     ++ (scaffold_operator.exec e (scaffold_operator.steps v)).1,
     (scaffold_operator.exec e (scaffold_operator.steps v)).2).
Proof.
  intros P N R K I. unfold scaffold_operator.main. rewrite P.
  destruct (String.eqb_spec (scaffold_operator.NAME v) ""); [done|].
  destruct (String.eqb_spec (scaffold_operator.REPO v) ""); [done|].
  destruct (String.eqb_spec (scaffold_operator.KIND v) ""); [done|].
  rewrite I. cbn [negb].
  by destruct (scaffold_operator.exec e (scaffold_operator.steps v)).
Qed.

(** Every way the script can end before its first command. *)
Lemma main_cases (e : scaffold_operator.Env) (args : list string) :
  (scaffold_operator.commands (scaffold_operator.main e args).1 = []
   /\ ((scaffold_operator.main e args).2 = 1
       \/ scaffold_operator.main e args = ([scaffold_operator.Usage], 0)))
  \/ (exists v,
        scaffold_operator.parse args (scaffold_operator.initial e)
        = scaffold_operator.Consumed v
        /\ scaffold_operator.NAME v <> ""
        /\ scaffold_operator.REPO v <> ""
        /\ scaffold_operator.KIND v <> ""
        /\ scaffold_operator.installed e = true).
Proof.
  destruct (scaffold_operator.parse args (scaffold_operator.initial e))
    as [v | code out] eqn:P.
  - unfold scaffold_operator.main. rewrite P.
    destruct (String.eqb_spec (scaffold_operator.NAME v) ""); [left; split; auto|].
    destruct (String.eqb_spec (scaffold_operator.REPO v) ""); [left; split; auto|].
    destruct (String.eqb_spec (scaffold_operator.KIND v) ""); [left; split; auto|].
    destruct (scaffold_operator.installed e) eqn:I; simpl.
    + right. by exists v.
    + left. split; [reflexivity | by left].
  - left. unfold scaffold_operator.main. rewrite P. simpl.
    destruct (parse_Exited_runs_nothing args _ code out P) as [C Co].
    split; [exact C|]. destruct Co as [-> | ->]; [|by left]. right.
    clear C. revert P. generalize (scaffold_operator.initial e).
    induction args as [| x | x y l IHl IHyl] using list_ind2; intros v0 P.
    + done.
    + simpl in P. destruct (scaffold_operator.arm x); by simplify_eq.
    + simpl in P. destruct (scaffold_operator.arm x);
        first [ by apply (IHl _ P) | by apply (IHyl _ P) | by simplify_eq ].
Qed.

Lemma exec_head (e : scaffold_operator.Env) (argv : list string)
    (rest : list scaffold_operator.Action) :
  head (scaffold_operator.commands
          (scaffold_operator.exec e (scaffold_operator.Run argv :: rest)).1)
  = Some argv.
Proof.
  simpl. destruct (scaffold_operator.status e argv =? 0); [|done].
  by destruct (scaffold_operator.exec e rest).
Qed.

Lemma steps_head (v : scaffold_operator.Vars) :
  exists rest,
    scaffold_operator.steps v
    = scaffold_operator.Run ["mkdir"; "-p"; scaffold_operator.NAME v] :: rest.
Proof. by eexists. Qed.

(** X18: the script runs no command at all (not even [mkdir]) unless the
    arguments were consumed without an exit, the name, the repository path
    and the kind are all non-empty, and kubebuilder is installed; and then
    the first command is [mkdir -p] of the name. *)
Theorem no_command_without_required_arguments
    (e : scaffold_operator.Env) (args : list string) :
  scaffold_operator.commands (scaffold_operator.main e args).1 <> [] ->
  exists v,
    scaffold_operator.parse args (scaffold_operator.initial e)
    = scaffold_operator.Consumed v
    /\ scaffold_operator.NAME v <> ""
    /\ scaffold_operator.REPO v <> ""
    /\ scaffold_operator.KIND v <> ""
    /\ scaffold_operator.installed e = true
    /\ head (scaffold_operator.commands (scaffold_operator.main e args).1)
       = Some ["mkdir"; "-p"; scaffold_operator.NAME v].
Proof.
  intros H.
  destruct (main_cases e args) as [[C _] | (v & P & N & R & K & I)]; [done|].
  exists v. repeat (split; [done|]).
  rewrite (main_accepted e args v P N R K I). cbn [fst].
  rewrite commands_app, commands_summary. cbn [app].
  destruct (steps_head v) as [rest ->]. apply exec_head.
Qed.

(** A complete command line in a bare environment. *)
Lemma no_command_without_required_witness :
  exists v,
    scaffold_operator.parse ["-n"; "op"; "-r"; "example.com/op"; "-k"; "Redis"]
      (scaffold_operator.initial bare)
    = scaffold_operator.Consumed v
    /\ scaffold_operator.NAME v <> ""
    /\ head (scaffold_operator.commands
               (scaffold_operator.main bare
                  ["-n"; "op"; "-r"; "example.com/op"; "-k"; "Redis"]).1)
       = Some ["mkdir"; "-p"; scaffold_operator.NAME v].
Proof.
  assert (H : scaffold_operator.commands
                (scaffold_operator.main bare
                   ["-n"; "op"; "-r"; "example.com/op"; "-k"; "Redis"]).1 <> [])
    by (vm_compute; discriminate).
  destruct (no_command_without_required_arguments bare
              ["-n"; "op"; "-r"; "example.com/op"; "-k"; "Redis"] H)
    as (v & P & N & _ & _ & _ & Hd).
  exists v. split; [exact P|]. split; [exact N | exact Hd].
Defined.

Lemma main_accepted_cases (e : scaffold_operator.Env) (args : list string)
    (v : scaffold_operator.Vars) :
  scaffold_operator.parse args (scaffold_operator.initial e)
  = scaffold_operator.Consumed v ->
  scaffold_operator.NAME v <> "" ->
  scaffold_operator.REPO v <> "" ->
  scaffold_operator.KIND v <> "" ->
  scaffold_operator.installed e = true ->
  (scaffold_operator.main e args
   = (scaffold_operator.summary v ++ scaffold_operator.steps v, 0)
   /\ Forall (fun argv => scaffold_operator.status e argv = 0)
        (scaffold_operator.commands (scaffold_operator.steps v)))
  \/ (exists done_ argv later,
        scaffold_operator.steps v = done_ ++ scaffold_operator.Run argv :: later
        /\ scaffold_operator.main e args
           = (scaffold_operator.summary v ++ done_ ++ [scaffold_operator.Run argv],
              scaffold_operator.status e argv)
        /\ scaffold_operator.status e argv <> 0
        /\ Forall (fun argv => scaffold_operator.status e argv = 0)
             (scaffold_operator.commands done_)).
Proof.
  intros P N R K I. rewrite (main_accepted e args v P N R K I).
  destruct (exec_stops_at_first_failure e (scaffold_operator.steps v))
    as [[-> F] | (d & x & l & S & -> & Nz & F)].
  - left. by split.
  - right. by exists d, x, l.
Qed.

(** X19: once the arguments are accepted and kubebuilder is installed, the
    script echoes its summary and runs its steps in order under [set -e]:
    either every command succeeds and the script goes through all steps and
    exits with status 0, or it stops right after the first command that
    fails, exits with that command's status, and runs nothing after it. *)
Theorem accepted_run_stops_at_first_failure
    (e : scaffold_operator.Env) (args : list string) (v : scaffold_operator.Vars) :
  scaffold_operator.parse args (scaffold_operator.initial e)
  = scaffold_operator.Consumed v ->
  scaffold_operator.NAME v <> "" ->
  scaffold_operator.REPO v <> "" ->
  scaffold_operator.KIND v <> "" ->
  scaffold_operator.installed e = true ->
  (scaffold_operator.main e args
   = (scaffold_operator.summary v ++ scaffold_operator.steps v, 0)
   /\ Forall (fun argv => scaffold_operator.status e argv = 0)
        (scaffold_operator.commands (scaffold_operator.steps v)))
  \/ (exists done_ argv later,
        scaffold_operator.steps v = done_ ++ scaffold_operator.Run argv :: later
        /\ scaffold_operator.main e args
           = (scaffold_operator.summary v ++ done_ ++ [scaffold_operator.Run argv],
              scaffold_operator.status e argv)
        /\ scaffold_operator.status e argv <> 0
        /\ Forall (fun argv => scaffold_operator.status e argv = 0)
             (scaffold_operator.commands done_)).
Proof. apply main_accepted_cases. Qed.

(** [kubebuilder init] exits with status 2: the script stops there with
    status 2, after [mkdir], [cd] and the failed command. *)
Lemma accepted_run_witness :
  scaffold_operator.main init_fails ["-n"; "op"; "-r"; "example.com/op"; "-k"; "Redis"]
  = (scaffold_operator.summary
       (scaffold_operator.assign scaffold_operator.ArmKind "Redis"
          (scaffold_operator.assign scaffold_operator.ArmRepo "example.com/op"
             (scaffold_operator.assign scaffold_operator.ArmName "op"
                (scaffold_operator.initial init_fails))))
     ++ [ scaffold_operator.Run ["mkdir"; "-p"; "op"];
          scaffold_operator.Run ["cd"; "op"];
          scaffold_operator.Echo "Initializing project...";
          scaffold_operator.Run
            ["kubebuilder"; "init"; "--domain"; "example.com";
             "--repo"; "example.com/op"] ],
     2).
Proof.
  destruct (accepted_run_stops_at_first_failure init_fails
              ["-n"; "op"; "-r"; "example.com/op"; "-k"; "Redis"]
              (scaffold_operator.assign scaffold_operator.ArmKind "Redis"
                 (scaffold_operator.assign scaffold_operator.ArmRepo "example.com/op"
                    (scaffold_operator.assign scaffold_operator.ArmName "op"
                       (scaffold_operator.initial init_fails))))
              eq_refl ltac:(discriminate) ltac:(discriminate) ltac:(discriminate)
              eq_refl)
    as [[_ _] | _]; reflexivity.
Defined.

(** X20: the script exits with status 0 only in two cases: help was reached
    (and nothing but the usage text was printed), or the arguments were
    accepted, every step was gone through and every command succeeded.
    Every other exit before the first command has status 1. *)
Theorem exit_status_zero_means_done
    (e : scaffold_operator.Env) (args : list string) :
  (scaffold_operator.main e args).2 = 0 ->
  scaffold_operator.main e args = ([scaffold_operator.Usage], 0)
  \/ exists v,
       scaffold_operator.parse args (scaffold_operator.initial e)
       = scaffold_operator.Consumed v
       /\ scaffold_operator.main e args
          = (scaffold_operator.summary v ++ scaffold_operator.steps v, 0)
       /\ Forall (fun argv => scaffold_operator.status e argv = 0)
            (scaffold_operator.commands (scaffold_operator.steps v)).
Proof.
  intros Z.
  destruct (main_cases e args) as [[_ [O | H]] | (v & P & N & R & K & I)].
  - rewrite O in Z. done.
  - by left.
  - right. exists v. split; [exact P|].
    destruct (main_accepted_cases e args v P N R K I)
      as [[E F] | (d & x & l & _ & E & Nz & _)]; [done|].
    rewrite E in Z. simpl in Z. done.
Qed.

(** A complete command line in a bare environment: status 0. *)
Lemma exit_status_zero_witness :
  (scaffold_operator.main bare
     ["-n"; "op"; "-r"; "example.com/op"; "-k"; "Redis"; "--webhook"]).2 = 0
  /\ exists v,
       scaffold_operator.parse
         ["-n"; "op"; "-r"; "example.com/op"; "-k"; "Redis"; "--webhook"]
         (scaffold_operator.initial bare)
       = scaffold_operator.Consumed v
       /\ scaffold_operator.main bare
            ["-n"; "op"; "-r"; "example.com/op"; "-k"; "Redis"; "--webhook"]
          = (scaffold_operator.summary v ++ scaffold_operator.steps v, 0).
Proof.
  split; [reflexivity|].
  destruct (exit_status_zero_means_done bare
              ["-n"; "op"; "-r"; "example.com/op"; "-k"; "Redis"; "--webhook"]
              eq_refl)
    as [H | (v & P & E & _)]; [discriminate H|].
  exists v. split; [exact P | exact E].
Defined.

Lemma commands_exec_subset (e : scaffold_operator.Env)
    (body : list scaffold_operator.Action) (argv : list string) :
  argv ∈ scaffold_operator.commands (scaffold_operator.exec e body).1 ->
  argv ∈ scaffold_operator.commands body.
Proof.
  destruct (exec_stops_at_first_failure e body)
    as [[-> _] | (d & x & l & -> & -> & _ & _)]; [done|].
  cbn [fst]. rewrite !commands_app. simpl.
  rewrite !elem_of_app, !elem_of_cons. intros [H | [-> | H]]; auto.
  by apply not_elem_of_nil in H.
Qed.

Lemma parse_webhook (args : list string) (v v' : scaffold_operator.Vars) :
  scaffold_operator.parse args v = scaffold_operator.Consumed v' ->
  scaffold_operator.WEBHOOK v' = true ->
  scaffold_operator.WEBHOOK v = true \/ "--webhook" ∈ args.
Proof.
  revert v. induction args as [| x | x y l IHl IHyl] using list_ind2; intros v P W.
  - simpl in P. injection P as ->. by left.
  - simpl in P. pose proof (arm_spec x) as A.
    destruct (scaffold_operator.arm x); simpl in P; try done.
    right. rewrite A. left.
  - simpl in P. pose proof (arm_spec x) as A.
    destruct (scaffold_operator.arm x); simpl in P; try done.
    1-6: destruct (IHl _ P W) as [H | H];
      [left; exact H | right; do 2 apply list_elem_of_further; exact H].
    destruct (IHyl _ P W) as [H | H];
      [right; rewrite A; left | right; by apply list_elem_of_further].
Qed.

(** X21: the webhook scaffolding command ([kubebuilder create webhook ...])
    is run only if the word [--webhook] occurs among the arguments. *)
Theorem webhook_only_on_request
    (e : scaffold_operator.Env) (args argv : list string) :
  argv ∈ scaffold_operator.commands (scaffold_operator.main e args).1 ->
  take 3 argv = ["kubebuilder"; "create"; "webhook"] ->
  "--webhook" ∈ args.
Proof.
  intros H T.
  destruct (main_cases e args) as [[C _] | (v & P & N & R & K & I)].
  { rewrite C in H. by apply not_elem_of_nil in H. }
  rewrite (main_accepted e args v P N R K I) in H. cbn [fst] in H.
  rewrite commands_app, commands_summary in H. cbn [app] in H.
  apply commands_exec_subset in H.
  destruct (scaffold_operator.WEBHOOK v) eqn:W.
  - destruct (parse_webhook args _ v P W) as [F | In]; [done | exact In].
  - exfalso. unfold scaffold_operator.steps in H. rewrite W in H. simpl in H.
    rewrite !elem_of_cons in H.
    destruct H as [-> | [-> | [-> | [-> | [-> | H]]]]]; try done.
    by apply not_elem_of_nil in H.
Qed.

(** A complete command line with [--webhook]. *)
Lemma webhook_only_on_request_witness :
  ["kubebuilder"; "create"; "webhook"; "--group"; "apps"; "--version"; "v1";
   "--kind"; "Redis"; "--defaulting"; "--programmatic-validation"]
  ∈ scaffold_operator.commands
      (scaffold_operator.main bare
         ["-n"; "op"; "-r"; "example.com/op"; "-k"; "Redis"; "--webhook"]).1
  /\ "--webhook" ∈ ["-n"; "op"; "-r"; "example.com/op"; "-k"; "Redis"; "--webhook"].
Proof.
  assert (H : ["kubebuilder"; "create"; "webhook"; "--group"; "apps"; "--version"; "v1";
               "--kind"; "Redis"; "--defaulting"; "--programmatic-validation"]
              ∈ scaffold_operator.commands
                  (scaffold_operator.main bare
                     ["-n"; "op"; "-r"; "example.com/op"; "-k"; "Redis"; "--webhook"]).1).
  { apply (bool_decide_unpack _). vm_compute. reflexivity. }
  split; [exact H|].
  exact (webhook_only_on_request bare
           ["-n"; "op"; "-r"; "example.com/op"; "-k"; "Redis"; "--webhook"]
           _ H eq_refl).
Defined.

Lemma parse_keeps (o : scaffold_operator.Arm) (args : list string)
    (v v' : scaffold_operator.Vars) :
  scaffold_operator.parse args v = scaffold_operator.Consumed v' ->
  (forall word, word ∈ args -> scaffold_operator.arm word <> o) ->
  variable o v' = variable o v.
Proof.
  revert v. induction args as [| x | x y l IHl IHyl] using list_ind2; intros v P H.
  - simpl in P. by injection P as ->.
  - simpl in P. destruct (scaffold_operator.arm x); try done.
    injection P as <-. by destruct o.
  - assert (Hx : scaffold_operator.arm x <> o) by (apply H; left).
    assert (Hl : forall word, word ∈ l -> scaffold_operator.arm word <> o)
      by (intros word In; apply H; by do 2 apply list_elem_of_further).
    assert (Hyl : forall word, word ∈ y :: l -> scaffold_operator.arm word <> o)
      by (intros word In; apply H; by apply list_elem_of_further).
    simpl in P. destruct (scaffold_operator.arm x) eqn:A; simpl in P; try done.
    1-6: rewrite (IHl _ P Hl); by destruct o.
    rewrite (IHyl _ P Hyl). by destruct o.
Qed.

(** X22: a variable whose option does not occur among the arguments keeps
    the value it started with: the defaults [example.com], [apps] and [v1]
    for domain, group and version, and for name, repository path and kind
    whatever the script inherits from its environment. *)
Theorem unmentioned_variables_keep_their_values
    (e : scaffold_operator.Env) (args : list string) (v : scaffold_operator.Vars) :
  scaffold_operator.parse args (scaffold_operator.initial e)
  = scaffold_operator.Consumed v ->
  ("-d" ∉ args -> "--domain" ∉ args -> scaffold_operator.DOMAIN v = "example.com")
  /\ ("-g" ∉ args -> "--group" ∉ args -> scaffold_operator.GROUP v = "apps")
  /\ ("-v" ∉ args -> "--version" ∉ args -> scaffold_operator.VERSION v = "v1")
  /\ ("-n" ∉ args -> "--name" ∉ args ->
      scaffold_operator.NAME v = scaffold_operator.envNAME e)
  /\ ("-r" ∉ args -> "--repo" ∉ args ->
      scaffold_operator.REPO v = scaffold_operator.envREPO e)
  /\ ("-k" ∉ args -> "--kind" ∉ args ->
      scaffold_operator.KIND v = scaffold_operator.envKIND e)
  /\ ("--webhook" ∉ args -> scaffold_operator.WEBHOOK v = false).
Proof.
  intros P.
  assert (K : forall o s1 s2,
            (forall word, scaffold_operator.arm word = o -> word = s1 \/ word = s2) ->
            s1 ∉ args -> s2 ∉ args ->
            variable o v = variable o (scaffold_operator.initial e)).
  { intros o s1 s2 Ho N1 N2. apply (parse_keeps o args _ v P).
    intros word In A. destruct (Ho word A) as [-> | ->]; done. }
  repeat split.
  - apply (K scaffold_operator.ArmDomain "-d" "--domain").
    intros word A. pose proof (arm_spec word) as S. by rewrite A in S.
  - apply (K scaffold_operator.ArmGroup "-g" "--group").
    intros word A. pose proof (arm_spec word) as S. by rewrite A in S.
  - apply (K scaffold_operator.ArmVersion "-v" "--version").
    intros word A. pose proof (arm_spec word) as S. by rewrite A in S.
  - apply (K scaffold_operator.ArmName "-n" "--name").
    intros word A. pose proof (arm_spec word) as S. by rewrite A in S.
  - apply (K scaffold_operator.ArmRepo "-r" "--repo").
    intros word A. pose proof (arm_spec word) as S. by rewrite A in S.
  - apply (K scaffold_operator.ArmKind "-k" "--kind").
    intros word A. pose proof (arm_spec word) as S. by rewrite A in S.
  - intros N. destruct (scaffold_operator.WEBHOOK v) eqn:W; [|done].
    destruct (parse_webhook args _ v P W) as [F | In]; done.
Qed.

(** Only the kind is given; the name is inherited from the environment. *)
Lemma unmentioned_variables_witness :
  scaffold_operator.parse ["-k"; "Redis"]
    (scaffold_operator.initial
       {| scaffold_operator.envNAME := "inherited"; scaffold_operator.envREPO := "";
          scaffold_operator.envKIND := ""; scaffold_operator.installed := true;
          scaffold_operator.status := fun _ => 0 |})
  = scaffold_operator.Consumed
      {| scaffold_operator.NAME := "inherited"; scaffold_operator.DOMAIN := "example.com";
         scaffold_operator.REPO := ""; scaffold_operator.GROUP := "apps";
         scaffold_operator.KIND := "Redis"; scaffold_operator.VERSION := "v1";
         scaffold_operator.WEBHOOK := false |}
  /\ scaffold_operator.DOMAIN
       {| scaffold_operator.NAME := "inherited"; scaffold_operator.DOMAIN := "example.com";
          scaffold_operator.REPO := ""; scaffold_operator.GROUP := "apps";
          scaffold_operator.KIND := "Redis"; scaffold_operator.VERSION := "v1";
          scaffold_operator.WEBHOOK := false |}
     = "example.com".
Proof.
  split; [reflexivity|].
  refine (proj1 (unmentioned_variables_keep_their_values
                   {| scaffold_operator.envNAME := "inherited";
                      scaffold_operator.envREPO := "";
                      scaffold_operator.envKIND := "";
                      scaffold_operator.installed := true;
                      scaffold_operator.status := fun _ => 0 |}
                   ["-k"; "Redis"] _ eq_refl) _ _);
    apply (bool_decide_unpack _); vm_compute; reflexivity.
Defined.
